(** * Edtech AI: the hybrid persistence-and-generation core

    A shallow embedding of the data-access layer ([api]), the upload
    handler ([handleFileUpload]) and the message handler ([handleSend],
    [handleSendMessage]) of the application, in the revisions the source
    tree holds:

    - [ApiV1], [IndexV1], [IndexV1Quota] : src/index.tsx, lines 1-876
      (hybrid store, one-shot completion)
    - [IndexV3Quota] : src/index.tsx, lines 2461-3238 (count and size quota)
    - [Api000], [Part000], [Part000Quota] : src/unnamed/part_000, lines 1-1124
      (hybrid store, streaming)
    - [Part001] : src/unnamed/part_001 (the [api] of part_000, streaming,
      suggestions)
    - [Part002] : src/unnamed/part_002 (local store, one-shot completion)

    Beside these the modules hold the functions around them: the event
    deletion of [api], the follow-up click, the generators, the
    conversation reset and the PDF export of index.tsx ([IndexV1]), the
    calendar of part_001 ([Part001]) and the account store of part_002
    ([Part002]).

    JavaScript strings are modelled by [string]: a character stands for one
    code unit below 256. JavaScript numbers that hold counts, sizes and
    time stamps are [Z]. The asynchronous functions are written in a state
    and exception monad over the two stores and the React state. *)

From Stdlib Require Import ZArith String Ascii List Bool Lia.
From stdpp Require Import base option list gmap strings pretty.

Local Open Scope string_scope.
Local Open Scope list_scope.
Local Open Scope Z_scope.

(** ** Strings *)

Module Js.

Definition nl : string := String "010"%char EmptyString.
Definition dq : string := String "034"%char EmptyString.

(** [s.length] *)
Definition strlen (s : string) : Z := Z.of_nat (String.length s).

Fixpoint take (n : nat) (s : string) : string :=
  match n, s with
  | O, _ => EmptyString
  | S _, EmptyString => EmptyString
  | S n', String c s' => String c (take n' s')
  end.

Fixpoint drop (n : nat) (s : string) : string :=
  match n, s with
  | O, _ => s
  | S _, EmptyString => EmptyString
  | S n', String _ s' => drop n' s'
  end.

(** [s.substring(start, end)]: both indices are clamped to [0, s.length]
    and swapped when [start > end]. *)
Definition clamp (s : string) (i : Z) : Z := Z.min (Z.max i 0) (strlen s).

Definition substring (s : string) (i j : Z) : string :=
  let a := clamp s i in
  let b := clamp s j in
  let lo := Z.min a b in
  let hi := Z.max a b in
  drop (Z.to_nat lo) (take (Z.to_nat hi) s).

(** [s.startsWith(p)] *)
Fixpoint startsWith (s p : string) : bool :=
  match p, s with
  | EmptyString, _ => true
  | String _ _, EmptyString => false
  | String a p', String b s' => if Ascii.eqb a b then startsWith s' p' else false
  end.

(** [s.includes(p)] *)
Fixpoint includes (s p : string) : bool :=
  if startsWith s p then true
  else match s with
       | EmptyString => false
       | String _ s' => includes s' p
       end.

(** [s.endsWith(p)] *)
Fixpoint endsWith (s p : string) : bool :=
  if String.eqb s p then true
  else match s with
       | EmptyString => false
       | String _ s' => endsWith s' p
       end.

(** The code units below 256 that have a lower-case form: A-Z, and the
    capital letters of Latin-1 (192-222 but the multiplication sign 215). *)
Definition lower (c : ascii) : ascii :=
  let n := N_of_ascii c in
  if ((65 <=? n) && (n <=? 90) || (192 <=? n) && (n <=? 222) && negb (n =? 215))%N
  then ascii_of_N (n + 32) else c.

(** [s.toLowerCase()] *)
Fixpoint toLowerCase (s : string) : string :=
  match s with
  | EmptyString => EmptyString
  | String c s' => String (lower c) (toLowerCase s')
  end.

(** White space as [trim] sees it, among the code units below 256. *)
Definition isSpace (c : ascii) : bool :=
  let n := N_of_ascii c in
  ((9 <=? n) && (n <=? 13) || (n =? 32) || (n =? 160))%N.

(** [s.trim()] is the empty string. *)
Fixpoint blank (s : string) : bool :=
  match s with
  | EmptyString => true
  | String c s' => isSpace c && blank s'
  end.

(** Truthiness of a string: only the empty string is falsy. *)
Definition truthy (s : string) : bool := negb (String.eqb s EmptyString).

(** [c.repeat(n)] for a string [c] of one code unit. *)
Fixpoint repeat (n : nat) (c : ascii) : string :=
  match n with
  | O => EmptyString
  | S n' => String c (repeat n' c)
  end.

(** [s.padStart(n, c)] for a pad [c] of one code unit. *)
Definition padStart (n : nat) (c : ascii) (s : string) : string :=
  repeat (n - String.length s)%nat c +:+ s.

End Js.

(** ** Types (index.tsx:45-82, part_000:59-103) *)

Inductive PlanType := free | pro | campus.

Record PlanLimit := { maxDocs : Z; maxSizeMB : Z; label : string }.

(** [PLAN_LIMITS] (index.tsx:31-35, 2538; part_000:45-49) *)
Definition PLAN_LIMITS (p : PlanType) : PlanLimit :=
  match p with
  | free => {| maxDocs := 1; maxSizeMB := 5; label := "Free Tier" |}
  | pro => {| maxDocs := 10; maxSizeMB := 20; label := "Educator Pro" |}
  | campus => {| maxDocs := 999; maxSizeMB := 50; label := "Campus Plan" |}
  end.

(** [plan.maxSizeMB * 1024 * 1024] *)
Definition size_limit (p : PlanType) : Z := maxSizeMB (PLAN_LIMITS p) * 1024 * 1024.

Inductive DocType := pdf | docx | txt.

Record DocumentFile := {
  doc_id : string;
  doc_user_id : string;
  doc_name : string;
  doc_type : DocType;
  doc_content : string;
  doc_size : Z;
  doc_created_at : Z
}.

Inductive Role := RoleUser | RoleModel.

Inductive Action := quiz | rubric | chat.

Record Suggestion := {
  sg_label : string;
  sg_action : Action;
  sg_prompt : option string
}.

Record Message := {
  msg_id : string;
  role : Role;
  text : string;
  timestamp : Z;
  isError : option bool;
  suggestions : option (list Suggestion);
  isThinking : option bool
}.

Inductive UserRole := NormalUser | Admin.

Record UserProfile := {
  user_id : string;
  email : string;
  full_name : string;
  user_role : UserRole;
  plan : PlanType
}.

Inductive OutputFormat := auto | report | table | concise | step.

Record FormatOption := { fmt_id : OutputFormat; fmt_label : string; instruction : string }.

(** The browser [File] handed to the upload handler. *)
Record File := { file_name : string; file_type : string; file_size : Z }.

(** The text-extraction collaborators; [None] stands for a thrown error. *)
Record Extractors := {
  extractTextFromPDF : File -> option string;
  extractTextFromDOCX : File -> option string;
  file_text : File -> option string
}.

#[global] Instance PlanType_eq_dec : EqDecision PlanType.
Proof. solve_decision. Defined.
#[global] Instance DocType_eq_dec : EqDecision DocType.
Proof. solve_decision. Defined.
#[global] Instance Role_eq_dec : EqDecision Role.
Proof. solve_decision. Defined.
#[global] Instance Action_eq_dec : EqDecision Action.
Proof. solve_decision. Defined.
#[global] Instance OutputFormat_eq_dec : EqDecision OutputFormat.
Proof. solve_decision. Defined.

(** ** Quota checks of the upload handlers *)

Inductive DenyReason := CountExceeded | SizeExceeded.

Inductive QuotaDecision := Allow | Deny (r : DenyReason).

Module IndexV1Quota.
(** index.tsx:672-677 (the same lines are part_001:957-962):
    [const limit = PLAN_LIMITS[user.plan].maxDocs;
     if (docs.length >= limit) { alert(...); toggleModal('pricing', true); return; }] *)
Definition quotaCheck (p : PlanType) (ndocs size : Z) : QuotaDecision :=
  let limit := maxDocs (PLAN_LIMITS p) in
  if limit <=? ndocs then Deny CountExceeded else Allow.
End IndexV1Quota.

Module IndexV3Quota.
(** index.tsx:3045-3047:
    [if (documents.length >= plan.maxDocs) throw new Error("Plan limit reached.");
     if (file.size > plan.maxSizeMB * 1024 * 1024) throw new Error("File too large.");] *)
Definition quotaCheck (p : PlanType) (ndocs size : Z) : QuotaDecision :=
  let plan := PLAN_LIMITS p in
  if maxDocs plan <=? ndocs then Deny CountExceeded
  else if maxSizeMB plan * 1024 * 1024 <? size then Deny SizeExceeded
  else Allow.
End IndexV3Quota.

Module Part000Quota.
(** part_000:739-741:
    [if (file.size > limit.maxSizeMB * 1024 * 1024) { alert(`File too large ...`); return; }
     if (docs.length >= limit.maxDocs) { alert(`Doc limit reached ...`); return; }] *)
Definition quotaCheck (p : PlanType) (ndocs size : Z) : QuotaDecision :=
  let limit := PLAN_LIMITS p in
  if maxSizeMB limit * 1024 * 1024 <? size then Deny SizeExceeded
  else if maxDocs limit <=? ndocs then Deny CountExceeded
  else Allow.
End Part000Quota.

(** ** JavaScript values that are stored

    [JSON.stringify] followed by [JSON.parse] is the identity on the values
    below, so a stored text is represented by the value it denotes. An
    optional property that is [undefined] is absent from the object. *)

#[local] Unset Elimination Schemes.
Inductive json :=
| JNull
| JBool (b : bool)
| JNum (n : Z)
| JStr (s : string)
| JArr (items : list json)
| JObj (fields : list (string * json)).
#[local] Set Elimination Schemes.

Module Json.

Fixpoint assoc (k : string) (fs : list (string * json)) : option json :=
  match fs with
  | [] => None
  | (k', v) :: fs' => if String.eqb k k' then Some v else assoc k fs'
  end.

(** [o[k]]; [None] is [undefined]. *)
Definition field (k : string) (o : json) : option json :=
  match o with
  | JObj fs => assoc k fs
  | _ => None
  end.

(** Truthiness of a value, as [||] and [?:] see it. *)
Definition truthy (j : json) : bool :=
  match j with
  | JNull => false
  | JBool b => b
  | JNum n => negb (n =? 0)
  | JStr s => Js.truthy s
  | JArr _ | JObj _ => true
  end.

Definition optional (k : string) (o : option json) : list (string * json) :=
  match o with
  | Some j => [(k, j)]
  | None => []
  end.

Definition as_str (j : json) : option string :=
  match j with JStr s => Some s | _ => None end.
Definition as_num (j : json) : option Z :=
  match j with JNum n => Some n | _ => None end.
Definition as_bool (j : json) : option bool :=
  match j with JBool b => Some b | _ => None end.

(** An optional property read back: absent is [undefined]. *)
Definition read_optional {A} (rd : json -> option A) (o : option json) : option (option A) :=
  match o with
  | None => Some None
  | Some j => match rd j with Some a => Some (Some a) | None => None end
  end.

Fixpoint read_all {A} (rd : json -> option A) (l : list json) : option (list A) :=
  match l with
  | [] => Some []
  | j :: l' =>
      match rd j, read_all rd l' with
      | Some a, Some r => Some (a :: r)
      | _, _ => None
      end
  end.

Definition as_arr {A} (rd : json -> option A) (j : json) : option (list A) :=
  match j with JArr l => read_all rd l | _ => None end.

Definition of_role (r : Role) : json :=
  match r with RoleUser => JStr "user" | RoleModel => JStr "model" end.

Definition to_role (j : json) : option Role :=
  match j with
  | JStr s => if String.eqb s "user" then Some RoleUser
              else if String.eqb s "model" then Some RoleModel else None
  | _ => None
  end.

Definition of_action (a : Action) : json :=
  match a with quiz => JStr "quiz" | rubric => JStr "rubric" | chat => JStr "chat" end.

Definition to_action (j : json) : option Action :=
  match j with
  | JStr s => if String.eqb s "quiz" then Some quiz
              else if String.eqb s "rubric" then Some rubric
              else if String.eqb s "chat" then Some chat else None
  | _ => None
  end.

Definition of_doctype (t : DocType) : json :=
  match t with pdf => JStr "pdf" | docx => JStr "docx" | txt => JStr "txt" end.

(** A [Suggestion] object. *)
Definition of_suggestion (s : Suggestion) : json :=
  JObj ([("label", JStr (sg_label s)); ("action", of_action (sg_action s))]
          ++ optional "prompt" (JStr <$> sg_prompt s)).

Definition to_suggestion (j : json) : option Suggestion :=
  match field "label" j ≫= as_str, field "action" j ≫= to_action,
        read_optional as_str (field "prompt" j) with
  | Some l, Some a, Some p => Some {| sg_label := l; sg_action := a; sg_prompt := p |}
  | _, _, _ => None
  end.

(** A [Message] object. *)
Definition of_message (m : Message) : json :=
  JObj ([("id", JStr (msg_id m)); ("role", of_role (role m));
         ("text", JStr (text m)); ("timestamp", JNum (timestamp m))]
          ++ optional "isError" (JBool <$> isError m)
          ++ optional "suggestions" ((fun l => JArr (of_suggestion <$> l)) <$> suggestions m)
          ++ optional "isThinking" (JBool <$> isThinking m)).

Definition to_message (j : json) : option Message :=
  match field "id" j ≫= as_str, field "role" j ≫= to_role,
        field "text" j ≫= as_str, field "timestamp" j ≫= as_num with
  | Some i, Some r, Some t, Some ts =>
      match read_optional as_bool (field "isError" j),
            read_optional (as_arr to_suggestion) (field "suggestions" j),
            read_optional as_bool (field "isThinking" j) with
      | Some e, Some sg, Some th =>
          Some {| msg_id := i; role := r; text := t; timestamp := ts;
                  isError := e; suggestions := sg; isThinking := th |}
      | _, _, _ => None
      end
  | _, _, _, _ => None
  end.

(** A [Message[]] value and its typed reading. *)
Definition of_messages (ms : list Message) : json := JArr (of_message <$> ms).
Definition to_messages (j : json) : option (list Message) := as_arr to_message j.

(** A [DocumentFile] object. *)
Definition of_doc (d : DocumentFile) : json :=
  JObj [("id", JStr (doc_id d)); ("user_id", JStr (doc_user_id d));
        ("name", JStr (doc_name d)); ("type", of_doctype (doc_type d));
        ("content", JStr (doc_content d)); ("size", JNum (doc_size d));
        ("created_at", JNum (doc_created_at d))].

End Json.

(** [arr.filter(p)] on the items of a parsed array; [None]: the callback
    throws on some item. *)
Fixpoint array_filter (p : json -> option bool) (l : list json) : option (list json) :=
  match l with
  | [] => Some []
  | e :: l' =>
      match p e, array_filter p l' with
      | Some b, Some r => Some (if b then e :: r else r)
      | _, _ => None
      end
  end.

(** [CalendarEvent] (part_000:88-93). *)
Inductive EventType := class | deadline | meeting.

Record CalendarEvent := {
  ev_id : string;
  ev_title : string;
  ev_date : string;
  ev_type : EventType
}.

Definition of_event (e : CalendarEvent) : json :=
  JObj [("id", JStr (ev_id e)); ("title", JStr (ev_title e)); ("date", JStr (ev_date e));
        ("type", JStr (match ev_type e with
                       | class => "class" | deadline => "deadline" | meeting => "meeting"
                       end))].

(** ** A state and exception monad for the asynchronous functions

    [Returned a s]: the promise resolves with [a]; [Thrown s]: it rejects. *)

Inductive outcome (S A : Type) : Type :=
| Returned (a : A) (s : S)
| Thrown (s : S).
Arguments Returned {S A} a s.
Arguments Thrown {S A} s.

Definition M (S A : Type) : Type := S -> outcome S A.

Definition ret {S A} (a : A) : M S A := fun s => Returned a s.

Definition bind {S A B} (m : M S A) (k : A -> M S B) : M S B :=
  fun s => match m s with
           | Returned a s' => k a s'
           | Thrown s' => Thrown s'
           end.

Definition throw {S A} : M S A := fun s => Thrown s.

(** [try { body } catch { handler }] *)
Definition tryCatch {S A} (body handler : M S A) : M S A :=
  fun s => match body s with
           | Returned a s' => Returned a s'
           | Thrown s' => handler s'
           end.

Definition get {S} : M S S := fun s => Returned s s.
Definition modify {S} (f : S -> S) : M S unit := fun s => Returned tt (f s).

(** A promise that is started and not awaited: a rejection does not reach
    the caller. Its effect on the store is taken at the place of the call. *)
Definition notAwaited {S A} (m : M S A) : M S unit :=
  fun s => match m s with
           | Returned _ s' => Returned tt s'
           | Thrown s' => Returned tt s'
           end.

(** The same, observed: the value the promise resolves with, if it does. *)
Definition started {S A} (m : M S (option A)) : M S (option A) :=
  fun s => match m s with
           | Returned a s' => Returned a s'
           | Thrown s' => Returned None s'
           end.

Declare Scope monad_scope.
Delimit Scope monad_scope with monad.
Notation "'let*' x := m 'in' k" := (bind m (fun x => k))
  (at level 10, x pattern, m at level 200, k at level 200) : monad_scope.
Notation "m ;;; k" := (bind m (fun _ => k))
  (at level 100, right associativity) : monad_scope.
Local Open Scope monad_scope.

(** ** The two backing stores *)

(** A table of the remote store: present with its rows, missing (a call
    resolves with [error] set), or unreachable (a call rejects). *)
Inductive remote_table (R : Type) : Type :=
| Present (rows : list R)
| Missing
| Unreachable.
Arguments Present {R} rows.
Arguments Missing {R}.
Arguments Unreachable {R}.

Record ChatRow := { chat_row_id : Z; chat_user_id : string; chat_messages : json }.

Record EventRow := {
  evr_id : string;
  evr_user_id : string;
  evr_title : string;
  evr_date : string;
  evr_type : EventType
}.

Record SettingRow := { setting_key : string; setting_value : string }.

Record Remote := {
  documents : remote_table DocumentFile;
  chats : remote_table ChatRow;
  events : remote_table EventRow;
  system_settings : remote_table SettingRow
}.

(** [localStorage] and the [supabase] handle ([None]: not configured). *)
Record Store := {
  localStorage : gmap string json;
  supabase : option Remote
}.

Definition set_documents (t : remote_table DocumentFile) (r : Remote) : Remote :=
  {| documents := t; chats := chats r; events := events r; system_settings := system_settings r |}.
Definition set_chats (t : remote_table ChatRow) (r : Remote) : Remote :=
  {| documents := documents r; chats := t; events := events r; system_settings := system_settings r |}.
Definition set_events (t : remote_table EventRow) (r : Remote) : Remote :=
  {| documents := documents r; chats := chats r; events := t; system_settings := system_settings r |}.
Definition set_system_settings (t : remote_table SettingRow) (r : Remote) : Remote :=
  {| documents := documents r; chats := chats r; events := events r; system_settings := t |}.

(** The [{ data, error }] a remote call resolves with. *)
Record response (D : Type) : Type := { data : option D; error : bool }.
Arguments data {D} r.
Arguments error {D} r.

Definition ok {D} (d : D) : response D := {| data := Some d; error := false |}.
Definition no_row {D} : response D := {| data := None; error := false |}.
Definition failed {D} : response D := {| data := None; error := true |}.

(** The calls on the remote store. The schema is not part of the
    repository: no key or uniqueness constraint of a table is modelled. *)
Module Supabase.

(** [await supabase.from(tbl). ...]: runs the query [q] on the rows. *)
Definition from {R D} (tbl : Remote -> remote_table R) (upd : remote_table R -> Remote -> Remote)
    (q : list R -> response D * list R) : M Store (response D) :=
  fun s =>
    match supabase s with
    | None => Thrown s
    | Some r =>
        match tbl r with
        | Present rows =>
            let '(resp, rows') := q rows in
            Returned resp {| localStorage := localStorage s;
                             supabase := Some (upd (Present rows') r) |}
        | Missing => Returned failed s
        | Unreachable => Thrown s
        end
    end.

Definition insert {R} (row : list R -> R) : list R -> response unit * list R :=
  fun rows => (ok tt, rows ++ [row rows]).

Definition select {R} (p : R -> bool) : list R -> response (list R) * list R :=
  fun rows => (ok (List.filter p rows), rows).

(** [.single()]: exactly one row, else an error. *)
Definition single {R} (p : R -> bool) : list R -> response R * list R :=
  fun rows => match List.filter p rows with
              | [r] => (ok r, rows)
              | _ => (failed, rows)
              end.

(** [.maybeSingle()]: no row is not an error, several rows are. *)
Definition maybeSingle {R} (p : R -> bool) : list R -> response R * list R :=
  fun rows => match List.filter p rows with
              | [] => (no_row, rows)
              | [r] => (ok r, rows)
              | _ => (failed, rows)
              end.

Definition update {R} (g : R -> R) (p : R -> bool) : list R -> response unit * list R :=
  fun rows => (ok tt, List.map (fun r => if p r then g r else r) rows).

(** [.upsert(row, { onConflict })]: rows in conflict are updated, else
    the row is inserted. *)
Definition upsert {R} (conflict : R -> bool) (g : R -> R) (row : list R -> R)
    : list R -> response unit * list R :=
  fun rows => if existsb conflict rows
              then (ok tt, List.map (fun r => if conflict r then g r else r) rows)
              else (ok tt, rows ++ [row rows]).

(** [.delete().eq(...)]: the rows that match are removed. *)
Definition delete {R} (p : R -> bool) : list R -> response unit * list R :=
  fun rows => (ok tt, List.filter (fun r => negb (p r)) rows).

(** The key the store gives a new [chats] row. *)
Definition next_id (rows : list ChatRow) : Z :=
  1 + fold_right Z.max 0 (List.map chat_row_id rows).

End Supabase.

Module LocalStorage.

Definition getItem (k : string) : M Store (option json) :=
  fun s => Returned (localStorage s !! k) s.

Definition setItem (k : string) (v : json) : M Store unit :=
  fun s => Returned tt {| localStorage := <[k := v]> (localStorage s);
                          supabase := supabase s |}.

(** [arr.push(x)]; a value that is not an array has no [push]. *)
Definition push (arr x : json) : M Store json :=
  match arr with
  | JArr l => ret (JArr (l ++ [x]))
  | _ => throw
  end.

(** [arr.filter(p)]; a value that is not an array has no [filter]. *)
Definition filter (arr : json) (p : json -> option bool) : M Store json :=
  match arr with
  | JArr l => match array_filter p l with
              | Some r => ret (JArr r)
              | None => throw
              end
  | _ => throw
  end.

End LocalStorage.

(** [STORAGE_KEYS] (part_000:30-38) *)
Definition DOCS_PREFIX : string := "edtech_docs_v5_".
Definition CHAT_PREFIX : string := "edtech_chat_v5_".
Definition EVENTS_PREFIX : string := "edtech_events_v5_".
Definition MASTER_PROMPT_KEY : string := "edtech_master_prompt".

(** [DEFAULT_SYSTEM_INSTRUCTION] (part_000:40-43), trimmed. *)
Definition DEFAULT_SYSTEM_INSTRUCTION : string :=
  "ROLE: You are " +:+ Js.dq +:+ "Edtech AI" +:+ Js.dq +:+ ", an elite pedagogical consultant."
    +:+ Js.nl +:+
  "CORE DIRECTIVES: Apply Bloom's Taxonomy, 5E Model, and UbD.".

(** ** The API layer *)

Definition of_event_row (r : EventRow) : json :=
  JObj [("id", JStr (evr_id r)); ("user_id", JStr (evr_user_id r));
        ("title", JStr (evr_title r)); ("date", JStr (evr_date r));
        ("type", JStr (match evr_type r with
                       | class => "class" | deadline => "deadline" | meeting => "meeting"
                       end))].

(** [str ? JSON.parse(str) : []] *)
Definition parsed_or_empty (str : option json) : json :=
  match str with
  | Some j => j
  | None => JArr []
  end.

(** The branch every function of [api] shares: the local store. *)
Module ApiLocal.

(** part_000:164-169, index.tsx:143-148, part_002:182-186 *)
Definition saveDoc (doc : DocumentFile) : M Store unit :=
  let key := DOCS_PREFIX +:+ doc_user_id doc in
  let* docsStr := LocalStorage.getItem key in
  let* docs := LocalStorage.push (parsed_or_empty docsStr) (Json.of_doc doc) in
  LocalStorage.setItem key docs.

(** part_000:179-181 *)
Definition getDocs (userId : string) : M Store json :=
  let* docsStr := LocalStorage.getItem (DOCS_PREFIX +:+ userId) in
  ret (parsed_or_empty docsStr).

(** part_000:189, index.tsx:167, part_002:194 *)
Definition saveChat (userId : string) (messages : list Message) : M Store unit :=
  LocalStorage.setItem (CHAT_PREFIX +:+ userId) (Json.of_messages messages).

(** part_000:206-207, index.tsx:175-176, part_002:197-198 *)
Definition getChat (userId : string) : M Store json :=
  let* str := LocalStorage.getItem (CHAT_PREFIX +:+ userId) in
  ret (parsed_or_empty str).

(** part_000:216-217 and 226-227 *)
Definition getEvents (userId : string) : M Store json :=
  let* str := LocalStorage.getItem (EVENTS_PREFIX +:+ userId) in
  ret (parsed_or_empty str).

(** part_000:233-235 and 249-251 *)
Definition saveEvent (userId : string) (event : CalendarEvent) : M Store unit :=
  let* str := LocalStorage.getItem (EVENTS_PREFIX +:+ userId) in
  let* current := LocalStorage.push (parsed_or_empty str) (of_event event) in
  LocalStorage.setItem (EVENTS_PREFIX +:+ userId) current.

(** part_000:275, index.tsx:185; the key holds the prompt text itself,
    represented by [JStr]. *)
Definition getMasterPrompt : M Store string :=
  let* v := LocalStorage.getItem MASTER_PROMPT_KEY in
  ret (match v with
       | Some (JStr s) => if Js.truthy s then s else DEFAULT_SYSTEM_INSTRUCTION
       | _ => DEFAULT_SYSTEM_INSTRUCTION
       end).

(** part_000:283, index.tsx:193 *)
Definition setMasterPrompt (prompt : string) : M Store unit :=
  LocalStorage.setItem MASTER_PROMPT_KEY (JStr prompt).

(** [e.id !== eventId] on a parsed item; reading a property of [null]
    throws ([None]). *)
Definition id_differs (eventId : string) (e : json) : option bool :=
  match e with
  | JNull => None
  | _ => Some (match Json.field "id" e with
               | Some (JStr i) => negb (String.eqb i eventId)
               | _ => true
               end)
  end.

(** part_000:257-260 and 266-268 *)
Definition deleteEvent (userId eventId : string) : M Store unit :=
  let* str := LocalStorage.getItem (EVENTS_PREFIX +:+ userId) in
  let* next := LocalStorage.filter (parsed_or_empty str) (id_differs eventId) in
  LocalStorage.setItem (EVENTS_PREFIX +:+ userId) next.

End ApiLocal.

Definition of_user (userId : string) (r : ChatRow) : bool := String.eqb (chat_user_id r) userId.
Definition is_master_prompt (r : SettingRow) : bool := String.eqb (setting_key r) "master_prompt".

(** [data?.messages || []] *)
Definition messages_or_empty (d : option ChatRow) : json :=
  match d with
  | Some r => if Json.truthy (chat_messages r) then chat_messages r else JArr []
  | None => JArr []
  end.

(** [data?.value || DEFAULT_SYSTEM_INSTRUCTION] *)
Definition value_or_default (d : option SettingRow) : string :=
  match d with
  | Some r => if Js.truthy (setting_value r) then setting_value r else DEFAULT_SYSTEM_INSTRUCTION
  | None => DEFAULT_SYSTEM_INSTRUCTION
  end.

(** [api] of part_000:141-331; part_001:140-330 is the same text. *)
Module Api000.

(** part_000:162-175 *)
Definition saveDoc (doc : DocumentFile) : M Store unit :=
  let* s := get in
  match supabase s with
  | None => ApiLocal.saveDoc doc
  | Some _ =>
      tryCatch
        (let* r := Supabase.from documents set_documents (Supabase.insert (fun _ => doc)) in
         (* if (error) console.error("Doc Save Error:", error) *)
         ret tt)
        ((* console.error("Doc Save Exception:", e) *)
         ret tt)
  end.

(** part_000:177-185 *)
Definition getDocs (userId : string) : M Store json :=
  let* s := get in
  match supabase s with
  | None => ApiLocal.getDocs userId
  | Some _ =>
      let* r := Supabase.from documents set_documents
                  (Supabase.select (fun d => String.eqb (doc_user_id d) userId)) in
      ret (match data r with
           | Some rows => JArr (Json.of_doc <$> rows)
           | None => JArr []
           end)
  end.

(** part_000:187-202 *)
Definition saveChat (userId : string) (messages : list Message) : M Store unit :=
  let* s := get in
  match supabase s with
  | None => ApiLocal.saveChat userId messages
  | Some _ =>
      tryCatch
        (let* r := Supabase.from chats set_chats (Supabase.maybeSingle (of_user userId)) in
         match data r with
         | Some row =>
             let* _ := Supabase.from chats set_chats
                         (Supabase.update
                            (fun c => {| chat_row_id := chat_row_id c;
                                         chat_user_id := chat_user_id c;
                                         chat_messages := Json.of_messages messages |})
                            (fun c => chat_row_id c =? chat_row_id row)) in
             ret tt
         | None =>
             let* _ := Supabase.from chats set_chats
                         (Supabase.insert
                            (fun rows => {| chat_row_id := Supabase.next_id rows;
                                            chat_user_id := userId;
                                            chat_messages := Json.of_messages messages |})) in
             ret tt
         end)
        ((* console.error("Chat sync failed (Tables might be missing):", err) *)
         ret tt)
  end.

(** part_000:204-211 *)
Definition getChat (userId : string) : M Store json :=
  let* s := get in
  match supabase s with
  | None => ApiLocal.getChat userId
  | Some _ =>
      let* r := Supabase.from chats set_chats (Supabase.single (of_user userId)) in
      ret (messages_or_empty (data r))
  end.

(** part_000:214-229 *)
Definition getEvents (userId : string) : M Store json :=
  let* s := get in
  match supabase s with
  | None => ApiLocal.getEvents userId
  | Some _ =>
      tryCatch
        (let* r := Supabase.from events set_events
                    (Supabase.select (fun e => String.eqb (evr_user_id e) userId)) in
         if error r then throw
         else ret (match data r with
                   | Some rows => JArr (of_event_row <$> rows)
                   | None => JArr []
                   end))
        (ApiLocal.getEvents userId)
  end.

(** part_000:231-253 *)
Definition saveEvent (userId : string) (event : CalendarEvent) : M Store unit :=
  let* s := get in
  match supabase s with
  | None => ApiLocal.saveEvent userId event
  | Some _ =>
      tryCatch
        (let* r := Supabase.from events set_events
                    (Supabase.insert
                       (fun _ => {| evr_id := ev_id event; evr_user_id := userId;
                                    evr_title := ev_title event; evr_date := ev_date event;
                                    evr_type := ev_type event |})) in
         if error r then throw else ret tt)
        ((* Fallback *)
         ApiLocal.saveEvent userId event)
  end.

(** part_000:255-270 *)
Definition deleteEvent (userId eventId : string) : M Store unit :=
  let* s := get in
  match supabase s with
  | None => ApiLocal.deleteEvent userId eventId
  | Some _ =>
      tryCatch
        (let* r := Supabase.from events set_events
                    (Supabase.delete (fun e => String.eqb (evr_id e) eventId)) in
         if error r then throw else ret tt)
        (ApiLocal.deleteEvent userId eventId)
  end.

(** part_000:273-279 *)
Definition getMasterPrompt : M Store string :=
  let* s := get in
  match supabase s with
  | None => ApiLocal.getMasterPrompt
  | Some _ =>
      let* r := Supabase.from system_settings set_system_settings
                  (Supabase.maybeSingle is_master_prompt) in
      ret (value_or_default (data r))
  end.

(** part_000:281-294 *)
Definition setMasterPrompt (prompt : string) : M Store unit :=
  let* s := get in
  match supabase s with
  | None => ApiLocal.setMasterPrompt prompt
  | Some _ =>
      tryCatch
        (let* r := Supabase.from system_settings set_system_settings
                    (Supabase.maybeSingle is_master_prompt) in
         match data r with
         | Some _ =>
             let* _ := Supabase.from system_settings set_system_settings
                         (Supabase.update
                            (fun c => {| setting_key := setting_key c; setting_value := prompt |})
                            is_master_prompt) in
             ret tt
         | None =>
             let* _ := Supabase.from system_settings set_system_settings
                         (Supabase.insert
                            (fun _ => {| setting_key := "master_prompt";
                                         setting_value := prompt |})) in
             ret tt
         end)
        ((* console.error("Settings Save Error:", e); alert("Failed to save settings to DB.") *)
         ret tt)
  end.

End Api000.

(** [api] of index.tsx:120-215. [!isSupabaseConfigured] is [supabase s = None]. *)
Module ApiV1.

(** index.tsx:141-152 *)
Definition saveDoc (doc : DocumentFile) : M Store unit :=
  let* s := get in
  match supabase s with
  | None => ApiLocal.saveDoc doc
  | Some _ =>
      let* r := Supabase.from documents set_documents (Supabase.insert (fun _ => doc)) in
      if error r then throw else ret tt
  end.

(** index.tsx:165-171 *)
Definition saveChat (userId : string) (messages : list Message) : M Store unit :=
  let* s := get in
  match supabase s with
  | None => ApiLocal.saveChat userId messages
  | Some _ =>
      let* _ := Supabase.from chats set_chats
                  (Supabase.upsert (of_user userId)
                     (fun c => {| chat_row_id := chat_row_id c;
                                  chat_user_id := userId;
                                  chat_messages := Json.of_messages messages |})
                     (fun rows => {| chat_row_id := Supabase.next_id rows;
                                     chat_user_id := userId;
                                     chat_messages := Json.of_messages messages |})) in
      ret tt
  end.

(** index.tsx:173-180 *)
Definition getChat (userId : string) : M Store json := Api000.getChat userId.

(** index.tsx:183-189 *)
Definition getMasterPrompt : M Store string :=
  let* s := get in
  match supabase s with
  | None => ApiLocal.getMasterPrompt
  | Some _ =>
      let* r := Supabase.from system_settings set_system_settings
                  (Supabase.single is_master_prompt) in
      ret (value_or_default (data r))
  end.

(** index.tsx:191-198 *)
Definition setMasterPrompt (prompt : string) : M Store unit :=
  let* s := get in
  match supabase s with
  | None => ApiLocal.setMasterPrompt prompt
  | Some _ =>
      let* r := Supabase.from system_settings set_system_settings
                  (Supabase.upsert is_master_prompt
                     (fun c => {| setting_key := "master_prompt"; setting_value := prompt |})
                     (fun _ => {| setting_key := "master_prompt"; setting_value := prompt |})) in
      if error r then throw else ret tt
  end.

End ApiV1.

(** The stores that differ at most in the [chats] table. *)
Definition same_but_chats (s s' : Store) : Prop :=
  localStorage s' = localStorage s
  /\ match supabase s, supabase s' with
     | Some r, Some r' =>
         documents r' = documents r /\ events r' = events r
         /\ system_settings r' = system_settings r
     | _, _ => False
     end.

(** The settings table answers (or the store is the local one). *)
Definition settings_reachable (s : Store) : Prop :=
  match supabase s with
  | Some r => system_settings r <> Unreachable
  | None => True
  end.

(** The transcript of [userId] can be kept: the store is the local one, or
    the [chats] table is present and holds at most one row of the owner. *)
Definition chats_usable (userId : string) (s : Store) : Prop :=
  match supabase s with
  | None => True
  | Some r =>
      match chats r with
      | Present rows => (length (List.filter (of_user userId) rows) <= 1)%nat
      | _ => False
      end
  end.

(** The system instruction can be kept: the store is the local one, or the
    [system_settings] table is present and holds at most one row with the
    key of the master prompt. *)
Definition settings_usable (s : Store) : Prop :=
  match supabase s with
  | None => True
  | Some r =>
      match system_settings r with
      | Present rows => (length (List.filter is_master_prompt rows) <= 1)%nat
      | _ => False
      end
  end.

(** The rows of the [chats] table bear different keys. *)
Definition chat_ids_differ (s : Store) : Prop :=
  match supabase s with
  | Some r =>
      match chats r with
      | Present rows => NoDup (List.map chat_row_id rows)
      | _ => True
      end
  | None => True
  end.

(** A table that does not take the call. *)
Definition failing {R} (t : remote_table R) : Prop :=
  match t with
  | Present _ => False
  | Missing | Unreachable => True
  end.

(** The array a key of the local store holds ([None]: not an array). *)
Definition local_array (s : Store) (key : string) : option (list json) :=
  match localStorage s !! key with
  | None => Some []
  | Some (JArr l) => Some l
  | Some _ => None
  end.

(** The result of a call and the state it leaves. *)
Definition state_of {S A} (o : outcome S A) : S :=
  match o with
  | Returned _ s => s
  | Thrown s => s
  end.

Definition value_of {S A} (o : outcome S A) : option A :=
  match o with
  | Returned a _ => Some a
  | Thrown _ => None
  end.

(** ** The application state and what a handler is given *)

(** The React state the handlers read and set ([chat] in part_000 is
    [messages]); flags that only drive rendering are left out. *)
Record AppState := {
  user : option UserProfile;
  docs : list DocumentFile;
  messages : list Message;
  activeDocId : option string;
  lessonCtx : string
}.

Record World := { ui : AppState; db : Store }.

Definition liftDb {A} (m : M Store A) : M World A :=
  fun w => match m (db w) with
           | Returned a s => Returned a {| ui := ui w; db := s |}
           | Thrown s => Thrown {| ui := ui w; db := s |}
           end.

Definition setUi (f : AppState -> AppState) : M World unit :=
  modify (fun w => {| ui := f (ui w); db := db w |}).

(** The world with the conversation replaced. *)
Definition with_messages (ms : list Message) (w : World) : World :=
  {| ui := {| user := user (ui w); docs := docs (ui w); messages := ms;
              activeDocId := activeDocId (ui w); lessonCtx := lessonCtx (ui w) |};
     db := db w |}.

(** [setMessages(prev => f(prev))] *)
Definition setMessages (f : list Message -> list Message) : M World unit :=
  setUi (fun a => {| user := user a; docs := docs a; messages := f (messages a);
                     activeDocId := activeDocId a; lessonCtx := lessonCtx a |}).

Definition setDocs (f : list DocumentFile -> list DocumentFile) : M World unit :=
  setUi (fun a => {| user := user a; docs := f (docs a); messages := messages a;
                     activeDocId := activeDocId a; lessonCtx := lessonCtx a |}).

Definition setActiveDocId (i : option string) : M World unit :=
  setUi (fun a => {| user := user a; docs := docs a; messages := messages a;
                     activeDocId := i; lessonCtx := lessonCtx a |}).

Definition setLessonCtx (c : string) : M World unit :=
  setUi (fun a => {| user := user a; docs := docs a; messages := messages a;
                     activeDocId := activeDocId a; lessonCtx := c |}).

(** The values [crypto.randomUUID()] and [Date.now()] return, one per call
    site in the order of the handler's text. *)
Record Fresh := {
  uuid1 : string; uuid2 : string; uuid3 : string;
  now1 : Z; now2 : Z; now3 : Z; now4 : Z; now5 : Z; now6 : Z; now7 : Z
}.

(** The third argument of [handleSendMessage]. *)
Record Opts := {
  useActiveDoc : option bool;
  opt_type : option string;
  useDeepThink : option bool
}.

(** What the completion service does with a request: a one-shot call
    resolves with [response.text] (possibly [undefined]) or rejects; a
    stream yields the [chunk.text] values (possibly [undefined]) and then
    ends or throws. *)
Inductive Completion :=
| Resolves (response_text : option string)
| Rejects.

Record Stream := { chunks : list (option string); breaks : bool }.

Record Content := { c_role : Role; c_text : string }.

(** What reaches the completion service. *)
Record Request := {
  req_prompt : string;
  req_sys : string;
  req_hist : list Message;
  req_contents : list Content;
  req_thinking : bool
}.

(** [FORMAT_OPTIONS] (index.tsx:37-43, part_000:51-57) *)
Definition FORMAT_OPTIONS : list FormatOption := [
  {| fmt_id := auto; fmt_label := "Auto"; instruction := "Answer naturally." |};
  {| fmt_id := report; fmt_label := "Report"; instruction := "Professional report format with H1/H2." |};
  {| fmt_id := table; fmt_label := "Table"; instruction := "Markdown table format." |};
  {| fmt_id := concise; fmt_label := "Concise"; instruction := "Brief summary (BLUF)." |};
  {| fmt_id := step; fmt_label := "Steps"; instruction := "Numbered step-by-step guide." |}
].

Definition find_format (formatId : OutputFormat) : option FormatOption :=
  List.find (fun f => bool_decide (fmt_id f = formatId)) FORMAT_OPTIONS.

(** [!apiKey] is false: a key that is present and not empty. *)
Definition usable_key (apiKey : option string) : option string :=
  match apiKey with
  | Some k => if Js.truthy k then Some k else None
  | None => None
  end.

(** [docs.find(d => d.id === activeDocId)] *)
Definition find_active (ds : list DocumentFile) (active : option string) : option DocumentFile :=
  match active with
  | Some i => List.find (fun d => String.eqb (doc_id d) i) ds
  | None => None
  end.

(** [opts.useActiveDoc !== undefined ? opts.useActiveDoc : !!activeDocId] *)
Definition include_doc (opts : Opts) (active : option string) : bool :=
  match useActiveDoc opts with
  | Some b => b
  | None => match active with Some i => Js.truthy i | None => false end
  end.

(** The [contents] the completion call builds from [hist] and [prompt]
    (index.tsx:203-207, part_000:307-311). *)
Definition contents_of (hist : list Message) (prompt : string) : list Content :=
  List.map (fun msg => {| c_role := match role msg with RoleUser => RoleUser | RoleModel => RoleModel end;
                          c_text := text msg |}) hist
  ++ [{| c_role := RoleUser; c_text := prompt |}].

(** The document segment of the context: [activeDoc.content.substring(0, 30000)]. *)
Definition document_segment (d : DocumentFile) : string :=
  Js.substring (doc_content d) 0 30000.

(** Assembly of the system instruction (index.tsx:632-634, part_001:900-902,
    part_002:448-450) from the base instruction [sys]. *)
Definition assemble (sys : string) (includeDoc : bool) (activeDoc : option DocumentFile)
    (formatId : OutputFormat) : string :=
  let sys :=
    match includeDoc, activeDoc with
    | true, Some d =>
        sys +:+ Js.nl +:+ Js.nl +:+ "=== CONTEXT: " +:+ doc_name d +:+ " ===" +:+ Js.nl
            +:+ document_segment d
    | _, _ => sys
    end in
  match find_format formatId with
  | Some fmt => sys +:+ Js.nl +:+ Js.nl +:+ "FORMAT: " +:+ instruction fmt
  | None => sys
  end.

(** The rule table of the follow-up actions (index.tsx:640-649,
    part_001:923-932). *)
Definition is_type (opts : Opts) (t : string) : bool :=
  match opt_type opts with
  | Some s => String.eqb s t
  | None => false
  end.

Definition lesson_turn (opts : Opts) (text : string) : bool :=
  is_type opts "lesson" || Js.includes (Js.toLowerCase text) "lesson plan".

Definition quiz_turn (opts : Opts) (text : string) : bool :=
  is_type opts "quiz" || Js.includes (Js.toLowerCase text) "quiz".

Definition suggestionsFor (opts : Opts) (text : string) : list Suggestion :=
  if lesson_turn opts text then
    [ {| sg_label := "Create Quiz for this"; sg_action := quiz;
         sg_prompt := Some "Create a quiz based on this lesson plan." |};
      {| sg_label := "Generate Rubric"; sg_action := rubric; sg_prompt := None |} ]
  else if quiz_turn opts text then
    [ {| sg_label := "Explain Answer Key"; sg_action := chat;
         sg_prompt := Some "Explain the answer key in detail." |} ]
  else [].

Definition userMessage (i : string) (t : string) (ts : Z) : Message :=
  {| msg_id := i; role := RoleUser; text := t; timestamp := ts;
     isError := None; suggestions := None; isThinking := None |}.

(** An answer of the model, with its follow-up actions if the handler
    attaches any. *)
Definition modelMessage (i : string) (t : string) (ts : Z) (sg : option (list Suggestion))
    : Message :=
  {| msg_id := i; role := RoleModel; text := t; timestamp := ts;
     isError := None; suggestions := sg; isThinking := None |}.

Definition errorMessage (i : string) (t : string) (ts : Z) : Message :=
  {| msg_id := i; role := RoleModel; text := t; timestamp := ts;
     isError := Some true; suggestions := None; isThinking := None |}.

(** [prev.map(m => m.id === i ? { ...m, text: t, isThinking: false } : m)] *)
Definition setText (i : string) (t : string) (prev : list Message) : list Message :=
  List.map (fun m => if String.eqb (msg_id m) i
                     then {| msg_id := msg_id m; role := role m; text := t;
                             timestamp := timestamp m; isError := isError m;
                             suggestions := suggestions m; isThinking := Some false |}
                     else m) prev.

(** The document that index.tsx:684-687, part_001:969-972 and
    part_002:488-491 build from an accepted file. *)
Definition built_doc (u : UserProfile) (uuid : string) (now : Z) (file : File)
    (content : string) : DocumentFile :=
  {| doc_id := uuid; doc_user_id := user_id u; doc_name := file_name file;
     doc_type := if Js.includes (file_type file) "pdf" then pdf else docx;
     doc_content := content; doc_size := file_size file; doc_created_at := now |}.

(** The messages of a conversation that are flagged [isError]. *)
Definition flagged (m : Message) : bool :=
  match isError m with
  | Some b => b
  | None => false
  end.

Definition error_turns (l : list Message) : list Message := List.filter flagged l.

(** No message of [l] bears the id [i]. *)
Definition fresh_id (i : string) (l : list Message) : bool :=
  forallb (fun m => negb (String.eqb (msg_id m) i)) l.

(** The fixed texts of the error messages (index.tsx:656 and part_001:941;
    part_000:729). *)
Definition ERROR_CONNECTING : string := "Error connecting to AI. Please check your API key.".
Definition ERROR_GENERATING : string := "Error generating response. Check API Key.".

(** What the upload handler did with the file. *)
Inductive Upload :=
| UploadIgnored
| UploadDenied (r : DenyReason)
| UploadFailed
| UploadStored (doc : DocumentFile).

(** ** index.tsx, lines 1-876 *)

Module IndexV1.

(** [api.generateAI] (index.tsx:201-214): the text the call resolves
    with, [response.text || "No response generated."]. *)
Definition reply (response_text : option string) : string :=
  match response_text with
  | Some t => if Js.truthy t then t else "No response generated."
  | None => "No response generated."
  end.

Definition generateAI (ai : Completion) : M World string :=
  match ai with
  | Resolves response_text => ret (reply response_text)
  | Rejects => throw
  end.

(** [handleSendMessage] (index.tsx:614-660). Returns the request made, if
    any. [fresh]: [uuid1], [now1] the user message; [uuid2], [now2] the
    answer; [uuid3], [now3] the error message. *)
Definition handleSendMessage (apiKey : option string) (fresh : Fresh) (ai : Completion)
    (text : string) (formatId : OutputFormat) (opts : Opts) : M World (option Request) :=
  let* w := get in
  match user (ui w), usable_key apiKey with
  | Some u, Some key =>
      let messages := messages (ui w) in
      let newUserMsg := userMessage (uuid1 fresh) text (now1 fresh) in
      let updatedMsgs := messages ++ [newUserMsg] in
      setMessages (fun _ => updatedMsgs) ;;;
      notAwaited (liftDb (ApiV1.saveChat (user_id u) updatedMsgs)) ;;;
      let activeDoc := find_active (docs (ui w)) (activeDocId (ui w)) in
      let includeDoc := include_doc opts (activeDocId (ui w)) in
      let* sys := liftDb ApiV1.getMasterPrompt in
      let sys := assemble sys includeDoc activeDoc formatId in
      let request := {| req_prompt := text; req_sys := sys; req_hist := messages;
                        req_contents := contents_of messages text;
                        req_thinking := false |} in
      tryCatch
        (let* resText := generateAI ai in
         let suggestions := suggestionsFor opts text in
         (if lesson_turn opts text then setLessonCtx resText else ret tt) ;;;
         let aiMsg := modelMessage (uuid2 fresh) resText (now2 fresh) (Some suggestions) in
         let finalMsgs := updatedMsgs ++ [aiMsg] in
         setMessages (fun _ => finalMsgs) ;;;
         notAwaited (liftDb (ApiV1.saveChat (user_id u) finalMsgs)) ;;;
         ret (Some request))
        (setMessages (fun prev =>
           prev ++ [errorMessage (uuid3 fresh) ERROR_CONNECTING (now3 fresh)]) ;;;
         ret (Some request))
  | _, _ => ret None
  end.

(** [handleFileUpload] (index.tsx:668-694); [uuid], [now]: the values of
    [crypto.randomUUID()] and [Date.now()]. *)
Definition handleFileUpload (ext : Extractors) (uuid : string) (now : Z)
    (file : option File) : M World Upload :=
  let* w := get in
  match file, user (ui w) with
  | Some file, Some u =>
      match IndexV1Quota.quotaCheck (plan u) (Z.of_nat (length (docs (ui w)))) (file_size file) with
      | Deny r => ret (UploadDenied r)
      | Allow =>
          let content :=
            if String.eqb (file_type file) "application/pdf" then extractTextFromPDF ext file
            else if Js.endsWith (file_name file) ".docx" then extractTextFromDOCX ext file
            else file_text ext file in
          match content with
          | None => ret UploadFailed
          | Some content =>
              let doc := built_doc u uuid now file content in
              setDocs (fun _ => docs (ui w) ++ [doc]) ;;;
              notAwaited (liftDb (ApiV1.saveDoc doc)) ;;;
              setActiveDocId (Some (doc_id doc)) ;;;
              ret (UploadStored doc)
          end
      end
  | _, _ => ret UploadIgnored
  end.

(** What a click on a follow-up action opens. *)
Inductive Modal := AssessmentModal | RubricModal.

(** [handleSuggestion] (index.tsx:662-666; part_001:947-951 is the same
    text): the modal it opens and the request the message handler makes,
    if any. A prompt is handed to [handleSendMessage] with the defaults
    ['auto'] and [{}]; the call is not awaited. *)
Definition handleSuggestion (apiKey : option string) (fresh : Fresh) (ai : Completion)
    (s : Suggestion) : M World (option Modal * option Request) :=
  match sg_action s with
  | quiz => ret (Some AssessmentModal, None)
  | rubric => ret (Some RubricModal, None)
  | chat =>
      match sg_prompt s with
      | Some p =>
          if Js.truthy p then
            let* r := started (handleSendMessage apiKey fresh ai p auto
                                 {| useActiveDoc := None; opt_type := None;
                                    useDeepThink := None |}) in
            ret (None, r)
          else ret (None, None)
      | None => ret (None, None)
      end
  end.

(** [onClearChat] (index.tsx:831) *)
Definition onClearChat : M World unit :=
  let* w := get in
  setMessages (fun _ => []) ;;;
  match user (ui w) with
  | Some u => notAwaited (liftDb (ApiV1.saveChat (user_id u) []))
  | None => ret tt
  end.

(** The prompt of the quiz maker (index.tsx:852). *)
Definition quizPrompt (lessonCtx topic : string) : string :=
  if Js.truthy lessonCtx
  then "Based on this lesson plan: " +:+ Js.substring lessonCtx 0 500
         +:+ "..., create a quiz on " +:+ topic
  else "Create a quiz on " +:+ topic.

(** [onGenerate] of the lesson planner (index.tsx:839-843) and of the quiz
    maker (index.tsx:850-855); [topic] is the value of the input field.
    The message handler is called and not awaited. *)
Definition onGenerateLesson (apiKey : option string) (fresh : Fresh) (ai : Completion)
    (topic : string) : M World (option Request) :=
  started (handleSendMessage apiKey fresh ai ("Create a lesson plan on " +:+ topic +:+ ".")
             report {| useActiveDoc := None; opt_type := Some "lesson"; useDeepThink := None |}).

Definition onGenerateQuiz (apiKey : option string) (fresh : Fresh) (ai : Completion)
    (topic : string) : M World (option Request) :=
  let* w := get in
  started (handleSendMessage apiKey fresh ai (quizPrompt (lessonCtx (ui w)) topic) auto
             {| useActiveDoc := None; opt_type := Some "quiz"; useDeepThink := None |}).

(** The calls [handleExportPDF] makes on the jsPDF document. *)
Inductive PdfOp :=
| SetFontSize (size : Z)
| SetTextColor (channels : list Z)
| DrawText (line : string) (x y : Z)
| AddPage
| Save (filename : string).

(** The loop of index.tsx:254-257 from the vertical position [y]. *)
Fixpoint draw_lines (splitText : list string) (y : Z) : list PdfOp :=
  match splitText with
  | [] => []
  | line :: rest =>
      if 280 <? y
      then AddPage :: DrawText line 20 20 :: draw_lines rest (20 + 7)
      else DrawText line 20 y :: draw_lines rest (y + 7)
  end.

(** [handleExportPDF] (index.tsx:246-260). [jspdf]: the generator is
    loaded; [today] is [new Date().toLocaleDateString()] and [splitText]
    what [doc.splitTextToSize(content, 170)] returns. [None]: the alert. *)
Definition handleExportPDF (jspdf : bool) (today : string) (splitText : list string)
    (filename : string) : option (list PdfOp) :=
  if jspdf then
    Some ([SetFontSize 18; SetTextColor [79; 70; 229]; DrawText "Edtech AI" 20 20;
           SetFontSize 10; SetTextColor [100]; DrawText ("Generated: " +:+ today) 20 28;
           SetFontSize 12; SetTextColor [0]]
          ++ draw_lines splitText 40
          ++ [Save (filename +:+ ".pdf")])
  else None.

(** The vertical positions of the text calls, the lines they draw and
    the number of pages added. *)
Definition drawn_at (ops : list PdfOp) : list Z :=
  omap (fun op => match op with DrawText _ _ y => Some y | _ => None end) ops.

Definition drawn_lines (ops : list PdfOp) : list string :=
  omap (fun op => match op with DrawText l _ _ => Some l | _ => None end) ops.

Definition pages_added (ops : list PdfOp) : Z :=
  Z.of_nat (length (List.filter (fun op => match op with AddPage => true | _ => false end) ops)).

End IndexV1.

(** ** src/unnamed/part_001 *)

Module Part001.

(** The [for await] loop of part_001:914-920 over the chunks the stream
    yields, from the accumulated text [aiText]; returns the final text. *)
Fixpoint consume (aiMsgId : string) (cs : list (option string)) (aiText : string)
    : M World string :=
  match cs with
  | [] => ret aiText
  | chunkText :: cs' =>
      match chunkText with
      | Some c =>
          if Js.truthy c then
            let aiText := aiText +:+ c in
            setMessages (setText aiMsgId aiText) ;;;
            consume aiMsgId cs' aiText
          else consume aiMsgId cs' aiText
      | None => consume aiMsgId cs' aiText
      end
  end.

(** The text the chunks add up to: a chunk that is [undefined] or empty
    is skipped by [if(chunkText)]. *)
Fixpoint joined (cs : list (option string)) : string :=
  match cs with
  | [] => EmptyString
  | Some c :: cs' => c +:+ joined cs'
  | None :: cs' => joined cs'
  end.

(** Some chunk passed [if(chunkText)], so the message was updated. *)
Definition received (cs : list (option string)) : bool :=
  existsb (fun c => match c with Some t => Js.truthy t | None => false end) cs.

(** The placeholder of part_001:909. *)
Definition placeholder (aiMsgId : string) (ts : Z) : Message :=
  {| msg_id := aiMsgId; role := RoleModel; text := EmptyString; timestamp := ts;
     isError := None; suggestions := None; isThinking := Some true |}.

(** The placeholder as the chunks [cs] leave it. *)
Definition partial (aiMsgId : string) (ts : Z) (cs : list (option string)) : Message :=
  if received cs
  then {| msg_id := aiMsgId; role := RoleModel; text := joined cs; timestamp := ts;
          isError := None; suggestions := None; isThinking := Some false |}
  else placeholder aiMsgId ts.

(** [handleSendMessage] (part_001:881-945). [fresh]: [uuid1], [now1] the
    user message; [uuid2] is [aiMsgId], [now2] the placeholder, [now3]
    the final message; [uuid3], [now4] the error message. *)
Definition handleSendMessage (apiKey : option string) (fresh : Fresh) (stream : Stream)
    (text : string) (formatId : OutputFormat) (opts : Opts) : M World (option Request) :=
  let* w := get in
  match user (ui w), usable_key apiKey with
  | Some u, Some key =>
      let messages := messages (ui w) in
      let newUserMsg := userMessage (uuid1 fresh) text (now1 fresh) in
      let intermediateMsgs := messages ++ [newUserMsg] in
      setMessages (fun _ => intermediateMsgs) ;;;
      notAwaited (liftDb (Api000.saveChat (user_id u) intermediateMsgs)) ;;;
      let activeDoc := find_active (docs (ui w)) (activeDocId (ui w)) in
      let includeDoc := include_doc opts (activeDocId (ui w)) in
      let* sys := liftDb Api000.getMasterPrompt in
      let sys := assemble sys includeDoc activeDoc formatId in
      let request := {| req_prompt := text; req_sys := sys; req_hist := intermediateMsgs;
                        req_contents := contents_of intermediateMsgs text;
                        req_thinking := match useDeepThink opts with
                                        | Some b => b | None => false end |} in
      tryCatch
        (let aiMsgId := uuid2 fresh in
         setMessages (fun prev => prev ++ [placeholder aiMsgId (now2 fresh)]) ;;;
         let* aiText := consume aiMsgId (chunks stream) EmptyString in
         (if breaks stream then throw else ret tt) ;;;
         let suggestions := suggestionsFor opts text in
         (if lesson_turn opts text then setLessonCtx aiText else ret tt) ;;;
         let finalMsgs :=
           intermediateMsgs ++ [modelMessage aiMsgId aiText (now3 fresh) (Some suggestions)] in
         setMessages (fun _ => finalMsgs) ;;;
         notAwaited (liftDb (Api000.saveChat (user_id u) finalMsgs)) ;;;
         ret (Some request))
        (setMessages (fun prev =>
           prev ++ [errorMessage (uuid3 fresh) ERROR_CONNECTING (now4 fresh)]) ;;;
         ret (Some request))
  | _, _ => ret None
  end.

(** [handleFileUpload] (part_001:953-979). *)
Definition handleFileUpload (ext : Extractors) (uuid : string) (now : Z)
    (file : option File) : M World Upload :=
  let* w := get in
  match file, user (ui w) with
  | Some file, Some u =>
      match IndexV1Quota.quotaCheck (plan u) (Z.of_nat (length (docs (ui w)))) (file_size file) with
      | Deny r => ret (UploadDenied r)
      | Allow =>
          let content :=
            if String.eqb (file_type file) "application/pdf" then extractTextFromPDF ext file
            else if Js.endsWith (file_name file) ".docx" then extractTextFromDOCX ext file
            else file_text ext file in
          match content with
          | None => ret UploadFailed
          | Some content =>
              let doc := built_doc u uuid now file content in
              setDocs (fun _ => docs (ui w) ++ [doc]) ;;;
              notAwaited (liftDb (Api000.saveDoc doc)) ;;;
              setActiveDocId (Some (doc_id doc)) ;;;
              ret (UploadStored doc)
          end
      end
  | _, _ => ret UploadIgnored
  end.

(** The state of [CalendarView] (part_001:596-601): the year and month of
    [currentDate] ([getFullYear], [getMonth]), the events, the title typed
    and the day selected. *)
Record CalendarState := {
  cal_year : Z;
  cal_month : Z;
  cal_events : list json;
  newEventTitle : string;
  selectedDate : option Z
}.

Record CalendarWorld := { cal : CalendarState; cal_db : Store }.

Definition liftCal {A} (m : M Store A) : M CalendarWorld A :=
  fun w => match m (cal_db w) with
           | Returned a s => Returned a {| cal := cal w; cal_db := s |}
           | Thrown s => Thrown {| cal := cal w; cal_db := s |}
           end.

Definition setEvents (es : list json) : M CalendarWorld unit :=
  modify (fun w => {| cal := {| cal_year := cal_year (cal w); cal_month := cal_month (cal w);
                                cal_events := es; newEventTitle := newEventTitle (cal w);
                                selectedDate := selectedDate (cal w) |};
                      cal_db := cal_db w |}).

Definition setNewEventTitle (t : string) : M CalendarWorld unit :=
  modify (fun w => {| cal := {| cal_year := cal_year (cal w); cal_month := cal_month (cal w);
                                cal_events := cal_events (cal w); newEventTitle := t;
                                selectedDate := selectedDate (cal w) |};
                      cal_db := cal_db w |}).

Definition setSelectedDate (d : option Z) : M CalendarWorld unit :=
  modify (fun w => {| cal := {| cal_year := cal_year (cal w); cal_month := cal_month (cal w);
                                cal_events := cal_events (cal w);
                                newEventTitle := newEventTitle (cal w); selectedDate := d |};
                      cal_db := cal_db w |}).

(** The date text of part_001:616 and 642:
    [`${year}-${String(month+1).padStart(2, '0')}-${String(day).padStart(2, '0')}`] *)
Definition dateStr (year month day : Z) : string :=
  pretty year +:+ "-" +:+ Js.padStart 2 "0" (pretty (month + 1))
    +:+ "-" +:+ Js.padStart 2 "0" (pretty day).

(** [handleAddEvent] (part_001:612-631); [uuid] is [crypto.randomUUID()]. *)
Definition handleAddEvent (user : UserProfile) (uuid : string) : M CalendarWorld unit :=
  let* w := get in
  match selectedDate (cal w) with
  | Some day =>
      if Js.truthy (newEventTitle (cal w)) && negb (day =? 0) then
        let event := {| ev_id := uuid; ev_title := newEventTitle (cal w);
                        ev_date := dateStr (cal_year (cal w)) (cal_month (cal w)) day;
                        ev_type := class |} in
        setEvents (cal_events (cal w) ++ [of_event event]) ;;;
        liftCal (Api000.saveEvent (user_id user) event) ;;;
        setNewEventTitle EmptyString ;;;
        setSelectedDate None
      else ret tt
  | None => ret tt
  end.

(** [handleDeleteEvent] (part_001:633-639); [confirmed]: the answer to
    the confirmation. *)
Definition handleDeleteEvent (user : UserProfile) (confirmed : bool) (id : string)
    : M CalendarWorld unit :=
  let* w := get in
  if confirmed then
    match array_filter (ApiLocal.id_differs id) (cal_events (cal w)) with
    | Some next =>
        setEvents next ;;;
        liftCal (Api000.deleteEvent (user_id user) id)
    | None => throw
    end
  else ret tt.

(** [e.date === dateStr] on an item of the events. *)
Definition on_date (d : string) (e : json) : option bool :=
  match e with
  | JNull => None
  | _ => Some (match Json.field "date" e with
               | Some (JStr d') => String.eqb d' d
               | _ => false
               end)
  end.

(** [getEventsForDay] (part_001:641-644); [None]: the filter throws. *)
Definition getEventsForDay (c : CalendarState) (day : Z) : option (list json) :=
  array_filter (on_date (dateStr (cal_year c) (cal_month c) day)) (cal_events c).

End Part001.

(** ** src/unnamed/part_000, lines 1-1124 *)

Module Part000.

(** [fullResponse += chunk]: an [undefined] chunk is appended as text. *)
Definition chunk_text (chunk : option string) : string :=
  match chunk with
  | Some c => c
  | None => "undefined"
  end.

(** The [for await] loop of part_000:718-721. *)
Fixpoint consume (botMsgId : string) (cs : list (option string)) (fullResponse : string)
    : M World string :=
  match cs with
  | [] => ret fullResponse
  | chunk :: cs' =>
      let fullResponse := fullResponse +:+ chunk_text chunk in
      setMessages (setText botMsgId fullResponse) ;;;
      consume botMsgId cs' fullResponse
  end.

(** The text the chunks add up to. *)
Fixpoint joined (cs : list (option string)) : string :=
  match cs with
  | [] => EmptyString
  | chunk :: cs' => chunk_text chunk +:+ joined cs'
  end.

(** The placeholder of part_000:716. *)
Definition placeholder (botMsgId : string) (ts : Z) (useThinking : bool) : Message :=
  {| msg_id := botMsgId; role := RoleModel; text := EmptyString; timestamp := ts;
     isError := None; suggestions := None; isThinking := Some useThinking |}.

(** The placeholder as the chunks [cs] leave it. *)
Definition partial (botMsgId : string) (ts : Z) (useThinking : bool)
    (cs : list (option string)) : Message :=
  match cs with
  | [] => placeholder botMsgId ts useThinking
  | _ :: _ => {| msg_id := botMsgId; role := RoleModel; text := joined cs; timestamp := ts;
                 isError := None; suggestions := None; isThinking := Some false |}
  end.

(** The file attached to the message is read (part_000:688-691). *)
Definition attached (ext : Extractors) (f : File) : option string :=
  let contextContent :=
    if Js.includes (file_type f) "pdf" then extractTextFromPDF ext f
    else if Js.endsWith (file_name f) "docx" then extractTextFromDOCX ext f
    else file_text ext f in
  match contextContent with
  | Some c => Some (Js.nl +:+ Js.nl +:+ "[Attached File Content: " +:+ file_name f +:+ "]"
                      +:+ Js.nl +:+ Js.substring c 0 10000 +:+ "...")
  | None => None
  end.

(** [!fileToUpload] *)
Definition no_file (fileToUpload : option File) : bool :=
  match fileToUpload with
  | None => true
  | Some _ => false
  end.

(** What is appended to the user's text; [None]: the file could not be
    read and the handler returns. *)
Definition suffix (ext : Extractors) (fileToUpload : option File) : option string :=
  match fileToUpload with
  | Some f => attached ext f
  | None => Some EmptyString
  end.

(** [handleSend] (part_000:675-733). [fresh]: [now1], [now2] the user
    message; [now3] + 1 is [botMsgId], [now4] the placeholder, [now5] the
    final message; [now6], [now7] the error message. *)
Definition handleSend (apiKey : option string) (fresh : Fresh) (ext : Extractors)
    (stream : Stream) (input : string) (fileToUpload : option File)
    (outputFormat : OutputFormat) (useThinking : bool) : M World (option Request) :=
  let* w := get in
  if Js.blank input && no_file fileToUpload then ret None
  else
  match user (ui w), usable_key apiKey with
  | Some u, Some key =>
      let chat := messages (ui w) in
      match suffix ext fileToUpload with
      | None => ret None
      | Some added =>
          let newUserMsg := userMessage (pretty (now1 fresh)) (input +:+ added) (now2 fresh) in
          let newChat := chat ++ [newUserMsg] in
          setMessages (fun _ => newChat) ;;;
          let formatInst :=
            match find_format outputFormat with
            | Some f => instruction f
            | None => EmptyString
            end in
          let* masterPrompt := liftDb Api000.getMasterPrompt in
          let systemInstruction := masterPrompt +:+ Js.nl +:+ "Format Requirement: " +:+ formatInst in
          let request := {| req_prompt := text newUserMsg; req_sys := systemInstruction;
                            req_hist := chat;
                            req_contents := contents_of chat (text newUserMsg);
                            req_thinking := useThinking |} in
          tryCatch
            (let botMsgId := pretty (now3 fresh + 1) in
             setMessages (fun prev => prev ++ [placeholder botMsgId (now4 fresh) useThinking]) ;;;
             let* fullResponse := consume botMsgId (chunks stream) EmptyString in
             (if breaks stream then throw else ret tt) ;;;
             let finalChat :=
               newChat ++ [modelMessage botMsgId fullResponse (now5 fresh) None] in
             notAwaited (liftDb (Api000.saveChat (user_id u) finalChat)) ;;;
             setMessages (fun _ => finalChat) ;;;
             ret (Some request))
            (setMessages (fun prev =>
               prev ++ [errorMessage (pretty (now6 fresh)) ERROR_GENERATING (now7 fresh)]) ;;;
             ret (Some request))
      end
  | _, _ => ret None
  end.

(** [handleFileUpload] (part_000:735-764); [now1] gives the id, [now2]
    the creation time. *)
Definition handleFileUpload (ext : Extractors) (fresh : Fresh) (file : option File)
    : M World Upload :=
  let* w := get in
  match file, user (ui w) with
  | Some file, Some u =>
      match Part000Quota.quotaCheck (plan u) (Z.of_nat (length (docs (ui w)))) (file_size file) with
      | Deny r => ret (UploadDenied r)
      | Allow =>
          let content :=
            if Js.includes (file_type file) "pdf" then extractTextFromPDF ext file
            else if Js.endsWith (file_name file) "docx" then extractTextFromDOCX ext file
            else file_text ext file in
          match content with
          | None => ret UploadFailed
          | Some content =>
              let newDoc := {| doc_id := pretty (now1 fresh); doc_user_id := user_id u;
                               doc_name := file_name file;
                               doc_type := if Js.includes (file_type file) "pdf" then pdf
                                           else if Js.endsWith (file_name file) "docx" then docx
                                           else txt;
                               doc_content := content; doc_size := file_size file;
                               doc_created_at := now2 fresh |} in
              tryCatch
                (liftDb (Api000.saveDoc newDoc) ;;;
                 setDocs (fun prev => prev ++ [newDoc]) ;;;
                 ret (UploadStored newDoc))
                (ret UploadFailed)
          end
      end
  | _, _ => ret UploadIgnored
  end.

End Part000.

(** ** src/unnamed/part_002 *)

Module Part002.

(** [handleFileUpload] (part_002:481-498); [api.saveDoc] is the local
    store alone (part_002:181-187). The properties [user_id] and
    [created_at] of a document are called [userId] and [uploadDate] there. *)
Definition handleFileUpload (ext : Extractors) (uuid : string) (now : Z)
    (file : option File) : M World Upload :=
  let* w := get in
  match file, user (ui w) with
  | Some file, Some u =>
      let content :=
        if String.eqb (file_type file) "application/pdf" then extractTextFromPDF ext file
        else if Js.endsWith (file_name file) ".docx" then extractTextFromDOCX ext file
        else file_text ext file in
      match content with
      | None => ret UploadFailed
      | Some content =>
          let doc := built_doc u uuid now file content in
          setDocs (fun _ => docs (ui w) ++ [doc]) ;;;
          notAwaited (liftDb (ApiLocal.saveDoc doc)) ;;;
          setActiveDocId (Some (doc_id doc)) ;;;
          ret (UploadStored doc)
      end
  | _, _ => ret UploadIgnored
  end.

(** [User] (part_002:31-39) *)
Record User := {
  acc_id : string;
  acc_email : string;
  acc_password : string;
  acc_name : string;
  acc_role : UserRole;
  acc_plan : PlanType;
  acc_joinedDate : Z
}.

Definition USERS : string := "edtech_users_v5".

Definition of_account (u : User) : json :=
  JObj [("id", JStr (acc_id u)); ("email", JStr (acc_email u));
        ("password", JStr (acc_password u)); ("name", JStr (acc_name u));
        ("role", JStr (match acc_role u with NormalUser => "user" | Admin => "admin" end));
        ("plan", JStr (match acc_plan u with
                       | free => "free" | pro => "pro" | campus => "campus"
                       end));
        ("joinedDate", JNum (acc_joinedDate u))].

(** [u.id === user.id || u.email.toLowerCase() === user.email.toLowerCase()]
    on a parsed item [u]; [None]: it throws ([u] is [null], or [u.email]
    is not a string). *)
Definition same_account (user : User) (u : json) : option bool :=
  match u with
  | JNull => None
  | _ =>
      if match Json.field "id" u with
         | Some (JStr i) => String.eqb i (acc_id user)
         | _ => false
         end
      then Some true
      else match Json.field "email" u with
           | Some (JStr e) => Some (String.eqb (Js.toLowerCase e) (Js.toLowerCase (acc_email user)))
           | _ => None
           end
  end.

(** [arr.findIndex(p)]: [Some None] is -1, [None] a callback that throws. *)
Fixpoint findIndex (p : json -> option bool) (l : list json) : option (option nat) :=
  match l with
  | [] => Some None
  | e :: l' =>
      match p e with
      | None => None
      | Some true => Some (Some O)
      | Some false =>
          match findIndex p l' with
          | None => None
          | Some None => Some None
          | Some (Some i) => Some (Some (S i))
          end
      end
  end.

(** [api.saveUser] (part_002:168-176) *)
Definition saveUser (user : User) : M Store unit :=
  let* usersStr := LocalStorage.getItem USERS in
  match parsed_or_empty usersStr with
  | JArr users =>
      match findIndex (same_account user) users with
      | None => throw
      | Some None => LocalStorage.setItem USERS (JArr (users ++ [of_account user]))
      | Some (Some index) => LocalStorage.setItem USERS (JArr (<[index := of_account user]> users))
      end
  | _ => throw
  end.

(** [api.getUsers] (part_002:177-180) *)
Definition getUsers : M Store json :=
  let* usersStr := LocalStorage.getItem USERS in
  ret (parsed_or_empty usersStr).

End Part002.

(** ** Sample data *)

Module Sample.

Definition teacher : UserProfile :=
  {| user_id := "local-user"; email := "t@school.org"; full_name := "Demo Teacher";
     user_role := NormalUser; plan := free |}.

Definition local_store : Store := {| localStorage := ∅; supabase := None |}.

Definition start : World :=
  {| ui := {| user := Some teacher; docs := []; messages := []; activeDocId := None;
              lessonCtx := EmptyString |};
     db := local_store |}.

Definition notes_txt : File :=
  {| file_name := "notes.txt"; file_type := "text/plain"; file_size := 12 |}.

(** A second upload, of 6 MB, over the size limit of the free plan. *)
Definition second_pdf : File :=
  {| file_name := "unit.pdf"; file_type := "application/pdf"; file_size := 6291456 |}.

Definition reads_hello : Extractors :=
  {| extractTextFromPDF := fun _ => Some "hello";
     extractTextFromDOCX := fun _ => Some "hello";
     file_text := fun _ => Some "hello" |}.

Definition notes_doc : DocumentFile := built_doc teacher "doc-1" 1000 notes_txt "hello".

Definition after_upload : World :=
  {| ui := {| user := Some teacher; docs := [notes_doc]; messages := [];
              activeDocId := Some "doc-1"; lessonCtx := EmptyString |};
     db := {| localStorage := {[ DOCS_PREFIX +:+ "local-user" := JArr [Json.of_doc notes_doc] ]};
              supabase := None |} |}.

(** A grounding document of 30,001 characters, one over the cap. *)
Fixpoint copies (n : nat) (c : ascii) : string :=
  match n with
  | O => EmptyString
  | S n' => String c (copies n' c)
  end.

Definition long_doc : DocumentFile :=
  {| doc_id := "doc-2"; doc_user_id := "local-user"; doc_name := "long.txt";
     doc_type := docx; doc_content := copies (Z.to_nat 30001) "a"%char;
     doc_size := 30001; doc_created_at := 1000 |}.

Definition lesson_opts : Opts :=
  {| useActiveDoc := None; opt_type := Some "lesson"; useDeepThink := None |}.

(** A remote store with empty tables, and one whose tables are missing. *)
Definition remote_empty : Store :=
  {| localStorage := ∅;
     supabase := Some {| documents := Present []; chats := Present [];
                         events := Present []; system_settings := Present [] |} |}.

Definition remote_missing : Store :=
  {| localStorage := ∅;
     supabase := Some {| documents := Missing; chats := Missing;
                         events := Missing; system_settings := Missing |} |}.

Definition staff_meeting : CalendarEvent :=
  {| ev_id := "ev-1"; ev_title := "Staff meeting"; ev_date := "2025-01-15";
     ev_type := meeting |}.

Definition no_opts : Opts :=
  {| useActiveDoc := None; opt_type := None; useDeepThink := None |}.

Definition first_turn : Fresh :=
  {| uuid1 := "u-1"; uuid2 := "a-1"; uuid3 := "e-1";
     now1 := 1001; now2 := 1002; now3 := 1003; now4 := 1004; now5 := 1005;
     now6 := 1006; now7 := 1007 |}.

Definition second_turn : Fresh :=
  {| uuid1 := "u-2"; uuid2 := "a-2"; uuid3 := "e-2";
     now1 := 2001; now2 := 2002; now3 := 2003; now4 := 2004; now5 := 2005;
     now6 := 2006; now7 := 2007 |}.

(** The stream of the scenario: two chunks, then a failure. *)
Definition hello_then_throws : Stream :=
  {| chunks := [Some "Hello"; Some " world"]; breaks := true |}.

Definition answers_fine : Stream := {| chunks := [Some "Fine."]; breaks := false |}.

(** The state a failed first turn leaves, in part_001 and in index.tsx. *)
Definition after_failure_001 : World :=
  state_of (Part001.handleSendMessage (Some "key") first_turn hello_then_throws
              "Hi" auto no_opts start).

Definition after_failure_v1 : World :=
  state_of (IndexV1.handleSendMessage (Some "key") first_turn Rejects
              "Hi" auto no_opts start).

(** A transcript with a partial answer and an error message in it. *)
Definition transcript : list Message := messages (ui after_failure_001).

(** A remote store whose [chats] table holds two rows of one owner. *)
Definition two_rows : list ChatRow :=
  [ {| chat_row_id := 1; chat_user_id := "local-user"; chat_messages := JArr [] |};
    {| chat_row_id := 2; chat_user_id := "local-user";
       chat_messages := Json.of_messages transcript |} ].

Definition remote_two_rows : Store :=
  {| localStorage := ∅;
     supabase := Some {| documents := Present []; chats := Present two_rows;
                         events := Present []; system_settings := Present [] |} |}.

(** A remote store that holds the transcript of another owner. *)
Definition remote_other : Store :=
  {| localStorage := ∅;
     supabase := Some {| documents := Present [];
                         chats := Present [ {| chat_row_id := 1; chat_user_id := "other-user";
                                               chat_messages := Json.of_messages transcript |} ];
                         events := Present []; system_settings := Present [] |} |}.

Definition exam_day : CalendarEvent :=
  {| ev_id := "ev-2"; ev_title := "Exam"; ev_date := "2025-01-20"; ev_type := deadline |}.

(** A local store with two events of the teacher. *)
Definition local_events_store : Store :=
  {| localStorage := {[ EVENTS_PREFIX +:+ "local-user"
                          := JArr [of_event staff_meeting; of_event exam_day] ]};
     supabase := None |}.

(** A remote store where two owners hold an event with the same id. *)
Definition event_rows : list EventRow :=
  [ {| evr_id := "ev-1"; evr_user_id := "local-user"; evr_title := "Staff meeting";
       evr_date := "2025-01-15"; evr_type := meeting |};
    {| evr_id := "ev-1"; evr_user_id := "other-user"; evr_title := "Parents";
       evr_date := "2025-01-16"; evr_type := meeting |};
    {| evr_id := "ev-2"; evr_user_id := "local-user"; evr_title := "Exam";
       evr_date := "2025-01-20"; evr_type := deadline |} ].

Definition remote_events : Store :=
  {| localStorage := ∅;
     supabase := Some {| documents := Present []; chats := Present [];
                         events := Present event_rows; system_settings := Present [] |} |}.

(** A remote store whose settings table is out of reach, and the teacher
    signed in on it. *)
Definition no_settings : Remote :=
  {| documents := Present []; chats := Present []; events := Present [];
     system_settings := Unreachable |}.

Definition start_no_settings : World :=
  {| ui := ui start; db := {| localStorage := ∅; supabase := Some no_settings |} |}.

(** The state after a lesson was planned: the plan is the lesson context. *)
Definition after_lesson : World :=
  state_of (IndexV1.onGenerateLesson (Some "key") first_turn
              (Resolves (Some "Lesson: the cell. Objectives and activities.")) "cells" start).

(** The account of the demo login of part_002:507, and the account a
    second login makes: another id, the same address in other letters. *)
Definition demo : Part002.User :=
  {| Part002.acc_id := "u-1"; Part002.acc_email := "demo@user.com";
     Part002.acc_password := "123"; Part002.acc_name := "Demo Teacher";
     Part002.acc_role := NormalUser; Part002.acc_plan := free;
     Part002.acc_joinedDate := 1000 |}.

Definition demo_again : Part002.User :=
  {| Part002.acc_id := "u-2"; Part002.acc_email := "Demo@User.com";
     Part002.acc_password := "123"; Part002.acc_name := "Demo Teacher";
     Part002.acc_role := NormalUser; Part002.acc_plan := free;
     Part002.acc_joinedDate := 2000 |}.

Definition users_store : Store :=
  {| localStorage := {[ Part002.USERS := JArr [Part002.of_account demo] ]};
     supabase := None |}.

(** The calendar on January 2025 with the staff meeting shown and stored,
    a title typed and the 15th selected. *)
Definition january : Part001.CalendarWorld :=
  {| Part001.cal := {| Part001.cal_year := 2025; Part001.cal_month := 0;
                       Part001.cal_events := [of_event staff_meeting];
                       Part001.newEventTitle := "Quiz";
                       Part001.selectedDate := Some 15 |};
     Part001.cal_db := {| localStorage := {[ EVENTS_PREFIX +:+ "local-user"
                                               := JArr [of_event staff_meeting] ]};
                          supabase := None |} |}.

Definition quiz_event : CalendarEvent :=
  {| ev_id := "ev-9"; ev_title := "Quiz"; ev_date := "2025-01-15"; ev_type := class |}.

End Sample.

(** * Properties *)

(** ** Quota *)

Lemma quotaCheck_v1_spec p n size :
  IndexV1Quota.quotaCheck p n size =
    if n <? maxDocs (PLAN_LIMITS p) then Allow else Deny CountExceeded.
Proof.
  unfold IndexV1Quota.quotaCheck.
  destruct (Z.leb_spec (maxDocs (PLAN_LIMITS p)) n), (Z.ltb_spec n (maxDocs (PLAN_LIMITS p)));
    (reflexivity || lia).
Qed.

(** The handlers report what their quota check decides. *)
Lemma handleFileUpload_v1_denied ext uuid now file u w r :
  user (ui w) = Some u ->
  IndexV1Quota.quotaCheck (plan u) (Z.of_nat (length (docs (ui w)))) (file_size file) = Deny r ->
  IndexV1.handleFileUpload ext uuid now (Some file) w = Returned (UploadDenied r) w
  /\ Part001.handleFileUpload ext uuid now (Some file) w = Returned (UploadDenied r) w.
Proof.
  intros Hu Hq.
  unfold IndexV1.handleFileUpload, Part001.handleFileUpload, bind, get.
  rewrite Hu, Hq. split; reflexivity.
Qed.

Lemma handleFileUpload_000_denied ext fresh file u w r :
  user (ui w) = Some u ->
  Part000Quota.quotaCheck (plan u) (Z.of_nat (length (docs (ui w)))) (file_size file) = Deny r ->
  Part000.handleFileUpload ext fresh (Some file) w = Returned (UploadDenied r) w.
Proof.
  intros Hu Hq.
  unfold Part000.handleFileUpload, bind, get.
  rewrite Hu, Hq. reflexivity.
Qed.

(** The order of the two checks, on inputs over both limits. *)
Lemma quotaCheck_over_both (p : PlanType) (n size : Z) :
  maxDocs (PLAN_LIMITS p) <= n ->
  size_limit p < size ->
  IndexV3Quota.quotaCheck p n size = Deny CountExceeded
  /\ IndexV1Quota.quotaCheck p n size = Deny CountExceeded
  /\ Part000Quota.quotaCheck p n size = Deny SizeExceeded.
Proof.
  unfold size_limit. intros Hn Hs.
  unfold IndexV3Quota.quotaCheck, IndexV1Quota.quotaCheck, Part000Quota.quotaCheck.
  cbv zeta.
  destruct (Z.leb_spec (maxDocs (PLAN_LIMITS p)) n); [| lia].
  destruct (Z.ltb_spec (maxSizeMB (PLAN_LIMITS p) * 1024 * 1024) size); [| lia].
  repeat split.
Qed.

(** C3, as the code has it. When both the document count and the file size
    are over the plan's limits, the check of index.tsx:3046-3047 (count
    first, then size) and the handlers of index.tsx:668 and part_001:953
    (count only) deny with count-exceeded, while the handler of
    part_000:735 checks the size first and denies with size-exceeded; in
    each case nothing is stored. *)
Theorem quota_order_by_revision ext uuid now fresh (file : File) (u : UserProfile) (w : World) :
  user (ui w) = Some u ->
  maxDocs (PLAN_LIMITS (plan u)) <= Z.of_nat (length (docs (ui w))) ->
  size_limit (plan u) < file_size file ->
  IndexV3Quota.quotaCheck (plan u) (Z.of_nat (length (docs (ui w)))) (file_size file)
    = Deny CountExceeded
  /\ IndexV1.handleFileUpload ext uuid now (Some file) w = Returned (UploadDenied CountExceeded) w
  /\ Part001.handleFileUpload ext uuid now (Some file) w = Returned (UploadDenied CountExceeded) w
  /\ Part000.handleFileUpload ext fresh (Some file) w = Returned (UploadDenied SizeExceeded) w.
Proof.
  intros Hu Hn Hs.
  destruct (quotaCheck_over_both (plan u) _ _ Hn Hs) as (H3 & H1 & H0).
  split; [exact H3 |].
  destruct (handleFileUpload_v1_denied ext uuid now file u w _ Hu H1) as [Ha Hb].
  split; [exact Ha |]. split; [exact Hb |].
  apply (handleFileUpload_000_denied ext fresh file u w _ Hu H0).
Qed.

Lemma quota_order_by_revision_witness :
  IndexV3Quota.quotaCheck free 1 6291456 = Deny CountExceeded
  /\ IndexV1.handleFileUpload Sample.reads_hello "doc-2" 2000 (Some Sample.second_pdf)
       Sample.after_upload = Returned (UploadDenied CountExceeded) Sample.after_upload
  /\ Part001.handleFileUpload Sample.reads_hello "doc-2" 2000 (Some Sample.second_pdf)
       Sample.after_upload = Returned (UploadDenied CountExceeded) Sample.after_upload
  /\ Part000.handleFileUpload Sample.reads_hello Sample.second_turn (Some Sample.second_pdf)
       Sample.after_upload = Returned (UploadDenied SizeExceeded) Sample.after_upload.
Proof.
  apply (quota_order_by_revision Sample.reads_hello "doc-2" 2000 Sample.second_turn
           Sample.second_pdf Sample.teacher Sample.after_upload).
  - reflexivity.
  - vm_compute. congruence.
  - vm_compute. reflexivity.
Defined.

(** C3 as stated fails on part_000:739-741: a free-plan user who holds one
    document and uploads a 6 MB file is told the file is too large, not
    that the document limit is reached. *)
Lemma quota_order_size_first_part000 :
  ~ (forall p n size,
        maxDocs (PLAN_LIMITS p) <= n -> size_limit p < size ->
        Part000Quota.quotaCheck p n size = Deny CountExceeded)
  /\ Part000.handleFileUpload Sample.reads_hello Sample.second_turn (Some Sample.second_pdf)
       Sample.after_upload = Returned (UploadDenied SizeExceeded) Sample.after_upload.
Proof.
  split; [| reflexivity].
  intros H. specialize (H free 1 6291456).
  assert (Part000Quota.quotaCheck free 1 6291456 = Deny SizeExceeded) as E by reflexivity.
  rewrite E in H.
  assert (Deny SizeExceeded = Deny CountExceeded) as C by (apply H; vm_compute; congruence).
  discriminate C.
Qed.

(** C4, as the code has it. The count check is [docs.length >= maxDocs]:
    an upload is allowed for every count n < maxDocs(P) (in part_000 when
    the file is also within the size limit) and denied for every
    n >= maxDocs(P), so already at n = maxDocs(P); the reason is
    count-exceeded whatever the file size in index.tsx:672, and in
    part_000:739 when the size is within the limit, else size-exceeded. *)
Theorem quota_count_boundary (p : PlanType) (n size : Z) :
  (n < maxDocs (PLAN_LIMITS p) -> IndexV1Quota.quotaCheck p n size = Allow)
  /\ (maxDocs (PLAN_LIMITS p) <= n -> IndexV1Quota.quotaCheck p n size = Deny CountExceeded)
  /\ (n < maxDocs (PLAN_LIMITS p) -> size <= size_limit p ->
      Part000Quota.quotaCheck p n size = Allow)
  /\ (maxDocs (PLAN_LIMITS p) <= n -> size <= size_limit p ->
      Part000Quota.quotaCheck p n size = Deny CountExceeded)
  /\ (size_limit p < size -> Part000Quota.quotaCheck p n size = Deny SizeExceeded).
Proof.
  unfold size_limit, IndexV1Quota.quotaCheck, Part000Quota.quotaCheck. cbv zeta.
  destruct (Z.leb_spec (maxDocs (PLAN_LIMITS p)) n);
    destruct (Z.ltb_spec (maxSizeMB (PLAN_LIMITS p) * 1024 * 1024) size);
    repeat split; intros; (reflexivity || lia).
Qed.

Lemma quota_count_boundary_witness :
  IndexV1Quota.quotaCheck free 0 6291456 = Allow
  /\ IndexV1Quota.quotaCheck free 2 6291456 = Deny CountExceeded
  /\ Part000Quota.quotaCheck pro 9 1024 = Allow
  /\ Part000Quota.quotaCheck pro 11 1024 = Deny CountExceeded
  /\ Part000Quota.quotaCheck pro 11 20971521 = Deny SizeExceeded.
Proof.
  split; [| split; [| split; [| split]]].
  - apply (quota_count_boundary free 0 6291456). vm_compute. reflexivity.
  - apply (quota_count_boundary free 2 6291456). vm_compute. congruence.
  - apply (quota_count_boundary pro 9 1024); vm_compute; [reflexivity | congruence].
  - apply (quota_count_boundary pro 11 1024); vm_compute; congruence.
  - apply (quota_count_boundary pro 11 20971521). vm_compute. reflexivity.
Defined.

(** C4 as stated fails at n = maxDocs(P): a free-plan user who holds one
    document (the limit) is denied a second one, however small. *)
Lemma quota_denies_at_limit :
  ~ (forall p n size,
        n <= maxDocs (PLAN_LIMITS p) -> IndexV1Quota.quotaCheck p n size = Allow)
  /\ IndexV1Quota.quotaCheck free 1 0 = Deny CountExceeded
  /\ Part000Quota.quotaCheck free 1 0 = Deny CountExceeded
  /\ IndexV1.handleFileUpload Sample.reads_hello "doc-2" 2000 (Some Sample.notes_txt)
       Sample.after_upload = Returned (UploadDenied CountExceeded) Sample.after_upload.
Proof.
  split; [| repeat split].
  intros H. specialize (H free 1 0).
  assert (IndexV1Quota.quotaCheck free 1 0 = Deny CountExceeded) as E by reflexivity.
  rewrite E in H.
  assert (Deny CountExceeded = Allow) as C by (apply H; vm_compute; congruence).
  discriminate C.
Qed.

(** ** Upload *)

(** The tail every handler but part_000's shares: the document is added to
    the state, handed to [api.saveDoc] without awaiting, and made active. *)
Lemma stored_tail (save : DocumentFile -> M Store unit) ds doc w :
  exists w',
    (setDocs (fun _ => ds ++ [doc]) ;;;
     notAwaited (liftDb (save doc)) ;;;
     setActiveDocId (Some (doc_id doc)) ;;;
     ret (UploadStored doc)) w = Returned (UploadStored doc) w'
    /\ docs (ui w') = ds ++ [doc]
    /\ activeDocId (ui w') = Some (doc_id doc).
Proof.
  unfold bind, setDocs, setActiveDocId, setUi, modify, notAwaited, liftDb, ret. cbn.
  destruct (save doc (db w)); cbn; eexists; split; try reflexivity; split; reflexivity.
Qed.




(** An accepted file is stored: with a signed-in user, a count under the
    limit and a text the extraction returns, the handler of index.tsx:668
    ends with the built document in the state. *)
Lemma handleFileUpload_v1_accepts ext uuid now file u content w :
  user (ui w) = Some u ->
  Z.of_nat (length (docs (ui w))) < maxDocs (PLAN_LIMITS (plan u)) ->
  (if String.eqb (file_type file) "application/pdf" then extractTextFromPDF ext file
   else if Js.endsWith (file_name file) ".docx" then extractTextFromDOCX ext file
   else file_text ext file) = Some content ->
  exists w', IndexV1.handleFileUpload ext uuid now (Some file) w
             = Returned (UploadStored (built_doc u uuid now file content)) w'
             /\ docs (ui w') = docs (ui w) ++ [built_doc u uuid now file content].
Proof.
  intros Hu Hn Hc.
  unfold IndexV1.handleFileUpload, bind at 1, get. rewrite Hu.
  rewrite quotaCheck_v1_spec.
  destruct (Z.ltb_spec (Z.of_nat (length (docs (ui w)))) (maxDocs (PLAN_LIMITS (plan u)))); [| lia].
  rewrite Hc. cbv zeta.
  destruct (stored_tail ApiV1.saveDoc (docs (ui w)) (built_doc u uuid now file content) w)
    as (w1 & E & Hd & _).
  exists w1. split; assumption.
Qed.



(** ** Strings *)

Lemma strlen_nonneg s : 0 <= Js.strlen s.
Proof. unfold Js.strlen. lia. Qed.

Lemma take_length n s : String.length (Js.take n s) = Nat.min n (String.length s).
Proof.
  revert s. induction n as [| n IH]; intros [| c s]; cbn; try reflexivity.
  rewrite IH. reflexivity.
Qed.

Lemma take_all n s : (String.length s <= n)%nat -> Js.take n s = s.
Proof.
  revert s. induction n as [| n IH]; intros [| c s]; cbn; intros H; try reflexivity.
  - lia.
  - rewrite IH by lia. reflexivity.
Qed.

Lemma take_drop n s : Js.take n s +:+ Js.drop n s = s.
Proof.
  revert s. induction n as [| n IH]; intros [| c s]; try reflexivity.
  change (String c (Js.take n s +:+ Js.drop n s) = String c s).
  rewrite IH. reflexivity.
Qed.

(** [s.substring(0, k)] keeps the first [min k s.length] code units. *)
Lemma substring_from_0 s k :
  0 <= k -> Js.substring s 0 k = Js.take (Z.to_nat (Z.min k (Js.strlen s))) s.
Proof.
  intros Hk. unfold Js.substring, Js.clamp.
  pose proof (strlen_nonneg s) as Hs.
  replace (Z.min (Z.max 0 0) (Js.strlen s)) with 0 by lia.
  replace (Z.max k 0) with k by lia.
  replace (Z.min 0 (Z.min k (Js.strlen s))) with 0 by lia.
  replace (Z.max 0 (Z.min k (Js.strlen s))) with (Z.min k (Js.strlen s)) by lia.
  reflexivity.
Qed.

Lemma substring_prefix_length s k :
  0 <= k -> k < Js.strlen s ->
  Js.strlen (Js.substring s 0 k) = k
  /\ Js.substring s 0 k = Js.take (Z.to_nat k) s
  /\ s = Js.substring s 0 k +:+ Js.drop (Z.to_nat k) s.
Proof.
  intros Hk Hlt. rewrite substring_from_0 by assumption.
  replace (Z.min k (Js.strlen s)) with k by lia.
  split; [| split].
  - unfold Js.strlen in *. rewrite take_length. lia.
  - reflexivity.
  - symmetry. apply take_drop.
Qed.

Lemma substring_short s k :
  0 <= k -> Js.strlen s <= k -> Js.substring s 0 k = s.
Proof.
  intros Hk Hle. rewrite substring_from_0 by assumption.
  apply take_all. unfold Js.strlen in *. lia.
Qed.

Lemma startsWith_app p b : Js.startsWith (p +:+ b) p = true.
Proof.
  induction p as [| c p IH].
  - destruct b; reflexivity.
  - change (Js.startsWith (String c (p +:+ b)) (String c p) = true).
    unfold Js.startsWith; fold Js.startsWith.
    rewrite Ascii.eqb_refl. exact IH.
Qed.

Lemma includes_app a p b : Js.includes (a +:+ p +:+ b) p = true.
Proof.
  induction a as [| c a IH].
  - change (Js.includes (p +:+ b) p = true).
    destruct (p +:+ b) eqn:E; unfold Js.includes; fold Js.includes;
      rewrite <- ?E, startsWith_app; reflexivity.
  - change (Js.includes (String c (a +:+ p +:+ b)) p = true).
    unfold Js.includes; fold Js.includes.
    rewrite IH. destruct (Js.startsWith _ p); reflexivity.
Qed.

Lemma toLowerCase_app a b :
  Js.toLowerCase (a +:+ b) = Js.toLowerCase a +:+ Js.toLowerCase b.
Proof.
  induction a as [| c a IH]; [reflexivity |].
  change (String (Js.lower c) (Js.toLowerCase (a +:+ b))
          = String (Js.lower c) (Js.toLowerCase a +:+ Js.toLowerCase b)).
  rewrite IH. reflexivity.
Qed.

(** A text that holds the keyword in lower case holds it after case folding. *)
Lemma includes_lowered a p b :
  Js.toLowerCase p = p -> Js.includes (Js.toLowerCase (a +:+ p +:+ b)) p = true.
Proof.
  intros Hp. rewrite !toLowerCase_app, Hp. apply includes_app.
Qed.

(** ** The API layer: what each call leaves behind *)

Lemma store_eta (s : Store) : {| localStorage := localStorage s; supabase := supabase s |} = s.
Proof. destruct s; reflexivity. Qed.

Lemma set_chats_id r : set_chats (chats r) r = r.
Proof. destruct r; reflexivity. Qed.

Lemma set_system_settings_id r : set_system_settings (system_settings r) r = r.
Proof. destruct r; reflexivity. Qed.

(** [api.saveChat] of part_000:187 always resolves; with the local store it
    writes the transcript under the owner's key, with the remote store it
    touches the [chats] table alone. *)
Lemma saveChat_000_returns userId ms s :
  exists s', Api000.saveChat userId ms s = Returned tt s'
    /\ match supabase s with
       | None => s' = {| localStorage := <[CHAT_PREFIX +:+ userId := Json.of_messages ms]> (localStorage s);
                         supabase := None |}
       | Some _ => same_but_chats s s'
       end.
Proof.
  unfold Api000.saveChat, bind at 1, get.
  destruct s as [ls [r|]]; cbn [supabase localStorage].
  - unfold tryCatch, bind, Supabase.from, Supabase.maybeSingle, Supabase.update,
      Supabase.insert, ret, same_but_chats. cbn [supabase localStorage].
    destruct (chats r) as [rows | |] eqn:Hc; cbn.
    + destruct (List.filter (of_user userId) rows) as [| row [| row' rest]]; cbn;
        rewrite ?Hc; cbn; eexists; (split; [reflexivity |]); cbn; auto.
    + rewrite Hc. eexists; split; [reflexivity |]. cbn. auto.
    + eexists; split; [reflexivity |]. cbn. auto.
  - eexists; split; reflexivity.
Qed.

(** [api.saveChat] of index.tsx:165 with the local store writes the
    transcript; with the remote store it touches the [chats] table alone,
    whether it resolves or rejects. *)
Lemma saveChat_v1_state userId ms s :
  match supabase s with
  | None => ApiV1.saveChat userId ms s =
              Returned tt {| localStorage := <[CHAT_PREFIX +:+ userId := Json.of_messages ms]> (localStorage s);
                             supabase := None |}
  | Some _ => same_but_chats s (state_of (ApiV1.saveChat userId ms s))
  end.
Proof.
  unfold ApiV1.saveChat, bind at 1, get.
  destruct s as [ls [r|]]; cbn [supabase localStorage]; [| reflexivity].
  unfold bind, Supabase.from, Supabase.upsert, ret, same_but_chats. cbn [supabase localStorage].
  destruct (chats r) as [rows | |] eqn:Hc; cbn; auto.
  destruct (existsb (of_user userId) rows); cbn; auto.
Qed.

Lemma getMasterPrompt_000_returns s :
  settings_reachable s -> exists mp, Api000.getMasterPrompt s = Returned mp s.
Proof.
  unfold settings_reachable, Api000.getMasterPrompt, bind at 1, get.
  destruct s as [ls [r|]]; cbn [supabase localStorage]; intros H.
  - unfold bind, Supabase.from, Supabase.maybeSingle, ret. cbn [supabase localStorage].
    destruct (system_settings r) as [rows | |] eqn:Hc; [| eauto | congruence].
    destruct (List.filter is_master_prompt rows) as [| row [| row' rest]]; cbn;
      rewrite <- Hc, set_system_settings_id; eauto.
  - unfold ApiLocal.getMasterPrompt, bind, LocalStorage.getItem, ret. eauto.
Qed.

Lemma getMasterPrompt_v1_returns s :
  settings_reachable s -> exists mp, ApiV1.getMasterPrompt s = Returned mp s.
Proof.
  unfold settings_reachable, ApiV1.getMasterPrompt, bind at 1, get.
  destruct s as [ls [r|]]; cbn [supabase localStorage]; intros H.
  - unfold bind, Supabase.from, Supabase.single, ret. cbn [supabase localStorage].
    destruct (system_settings r) as [rows | |] eqn:Hc; [| eauto | congruence].
    destruct (List.filter is_master_prompt rows) as [| row [| row' rest]]; cbn;
      rewrite <- Hc, set_system_settings_id; eauto.
  - unfold ApiLocal.getMasterPrompt, bind, LocalStorage.getItem, ret. eauto.
Qed.

Lemma same_but_chats_reachable s s' :
  same_but_chats s s' -> settings_reachable s -> settings_reachable s'.
Proof.
  unfold same_but_chats, settings_reachable.
  destruct (supabase s), (supabase s'); intros (_ & H); try contradiction.
  destruct H as (_ & _ & ->). auto.
Qed.

(** The transcript is handed to [api.saveChat] without awaiting: the
    handler goes on, the React state is as before, and the settings table
    answers as before. *)
Lemma saved_000 userId ms w :
  exists w', notAwaited (liftDb (Api000.saveChat userId ms)) w = Returned tt w'
    /\ ui w' = ui w
    /\ (settings_reachable (db w) -> settings_reachable (db w'))
    /\ (supabase (db w) = None ->
        db w' = {| localStorage := <[CHAT_PREFIX +:+ userId := Json.of_messages ms]> (localStorage (db w));
                   supabase := None |}).
Proof.
  unfold notAwaited, liftDb.
  destruct (saveChat_000_returns userId ms (db w)) as (s' & E & H). rewrite E.
  eexists. split; [reflexivity |]. cbn. split; [reflexivity |]. split.
  - destruct (supabase (db w)) eqn:Hs.
    + intros. eapply same_but_chats_reachable; eauto.
    + subst s'. intros _. exact I.
  - intros Hs. rewrite Hs in H. exact H.
Qed.

Lemma saved_v1 userId ms w :
  exists w', notAwaited (liftDb (ApiV1.saveChat userId ms)) w = Returned tt w'
    /\ ui w' = ui w
    /\ (settings_reachable (db w) -> settings_reachable (db w'))
    /\ (supabase (db w) = None ->
        db w' = {| localStorage := <[CHAT_PREFIX +:+ userId := Json.of_messages ms]> (localStorage (db w));
                   supabase := None |}).
Proof.
  unfold notAwaited, liftDb.
  pose proof (saveChat_v1_state userId ms (db w)) as H.
  destruct (supabase (db w)) eqn:Hs.
  - destruct (ApiV1.saveChat userId ms (db w)) as [[] s' | s']; cbn in H;
      (eexists; split; [reflexivity |]; cbn; split; [reflexivity |]; split;
       [intros; eapply same_but_chats_reachable; eauto | intros; discriminate]).
  - rewrite H. eexists. split; [reflexivity |]. cbn. split; [reflexivity |].
    split; [intros _; exact I | reflexivity].
Qed.

(** ** The conversation state under a stream *)

Lemma append_nil_r s : s +:+ EmptyString = s.
Proof.
  induction s as [| c s IH]; [reflexivity |].
  change (String c (s +:+ EmptyString) = String c s). rewrite IH. reflexivity.
Qed.

Lemma append_assoc a b c : (a +:+ b) +:+ c = a +:+ b +:+ c.
Proof.
  induction a as [| x a IH]; [reflexivity |].
  change (String x ((a +:+ b) +:+ c) = String x (a +:+ b +:+ c)). rewrite IH. reflexivity.
Qed.

Lemma not_truthy s : Js.truthy s = false -> s = EmptyString.
Proof. destruct s; [reflexivity | discriminate]. Qed.

Lemma world_eta w : {| ui := ui w; db := db w |} = w.
Proof. destruct w; reflexivity. Qed.

Lemma setMessages_run f w :
  setMessages f w = Returned tt (with_messages (f (messages (ui w))) w).
Proof. reflexivity. Qed.

Lemma setText_twice i t1 t2 l : setText i t2 (setText i t1 l) = setText i t2 l.
Proof.
  unfold setText. rewrite List.map_map. apply List.map_ext. intros m.
  destruct (String.eqb (msg_id m) i) eqn:E; cbn; rewrite E; reflexivity.
Qed.

Lemma setText_app i t l1 l2 : setText i t (l1 ++ l2) = setText i t l1 ++ setText i t l2.
Proof. unfold setText. apply List.map_app. Qed.

Lemma setText_fresh i t l : fresh_id i l = true -> setText i t l = l.
Proof.
  unfold setText, fresh_id. induction l as [| m l IH]; cbn; [reflexivity |].
  intros H. apply andb_prop in H as [Hm Hl].
  destruct (String.eqb (msg_id m) i); [discriminate |]. rewrite IH by assumption. reflexivity.
Qed.

Lemma not_received_joined cs : Part001.received cs = false -> Part001.joined cs = EmptyString.
Proof.
  induction cs as [| [c|] cs IH]; cbn; intros H; try auto.
  apply orb_false_elim in H as [Hc Hr]. apply not_truthy in Hc. subst c.
  rewrite IH by assumption. reflexivity.
Qed.

(** The loop of part_001:914 ends with the chunks joined after the text it
    started from, and the message with the placeholder's id, once updated,
    holds exactly that text. *)
Lemma consume_001 aiMsgId cs acc w :
  Part001.consume aiMsgId cs acc w =
    Returned (acc +:+ Part001.joined cs)
      (if Part001.received cs
       then with_messages (setText aiMsgId (acc +:+ Part001.joined cs) (messages (ui w))) w
       else w).
Proof.
  revert acc w. induction cs as [| [c|] cs IH]; intros acc w.
  - cbn. rewrite append_nil_r. reflexivity.
  - cbn [Part001.consume Part001.joined Part001.received existsb].
    destruct (Js.truthy c) eqn:Hc.
    + unfold bind. rewrite setMessages_run, IH. cbn [orb].
      rewrite append_assoc. f_equal.
      change (existsb _ cs) with (Part001.received cs).
      destruct (Part001.received cs) eqn:Hr.
      * cbn [with_messages ui messages]. rewrite setText_twice. reflexivity.
      * rewrite (not_received_joined cs Hr), append_nil_r. reflexivity.
    + apply not_truthy in Hc. subst c. rewrite IH. reflexivity.
  - cbn [Part001.consume Part001.joined Part001.received existsb orb]. apply IH.
Qed.

(** The loop of part_000:718 appends every chunk. *)
Lemma consume_000 botMsgId cs acc w :
  Part000.consume botMsgId cs acc w =
    Returned (acc +:+ Part000.joined cs)
      (match cs with
       | [] => w
       | _ :: _ => with_messages (setText botMsgId (acc +:+ Part000.joined cs) (messages (ui w))) w
       end).
Proof.
  revert acc w. induction cs as [| c cs IH]; intros acc w.
  - cbn. rewrite append_nil_r. reflexivity.
  - cbn [Part000.consume Part000.joined]. unfold bind. rewrite setMessages_run, IH.
    rewrite append_assoc. f_equal.
    destruct cs as [| c' cs]; [cbn [Part000.joined]; rewrite append_nil_r; reflexivity |].
    cbn [with_messages ui messages]. rewrite setText_twice. reflexivity.
Qed.

(** ** The message handlers *)

Lemma liftDb_same {A} (m : M Store A) (a : A) w :
  m (db w) = Returned a (db w) -> liftDb m w = Returned a w.
Proof. unfold liftDb. intros ->. rewrite world_eta. reflexivity. Qed.

(** [handleSendMessage] of part_001:881, run with a signed-in user, a
    usable key and a settings table that answers: the request it makes and
    the conversation it leaves. *)
Lemma handleSendMessage_001_run apiKey fresh stream text formatId opts w u key :
  user (ui w) = Some u ->
  usable_key apiKey = Some key ->
  settings_reachable (db w) ->
  exists w' req mp,
    Part001.handleSendMessage apiKey fresh stream text formatId opts w = Returned (Some req) w'
    /\ req_prompt req = text
    /\ req_hist req = messages (ui w) ++ [userMessage (uuid1 fresh) text (now1 fresh)]
    /\ req_contents req = contents_of (req_hist req) text
    /\ req_sys req = assemble mp (include_doc opts (activeDocId (ui w)))
                       (find_active (docs (ui w)) (activeDocId (ui w))) formatId
    /\ messages (ui w') =
        (let started := messages (ui w) ++ [userMessage (uuid1 fresh) text (now1 fresh);
                                            Part001.placeholder (uuid2 fresh) (now2 fresh)] in
         if breaks stream
         then (if Part001.received (chunks stream)
               then setText (uuid2 fresh) (Part001.joined (chunks stream)) started
               else started)
              ++ [errorMessage (uuid3 fresh) ERROR_CONNECTING (now4 fresh)]
         else messages (ui w)
              ++ [userMessage (uuid1 fresh) text (now1 fresh);
                  modelMessage (uuid2 fresh) (Part001.joined (chunks stream)) (now3 fresh)
                    (Some (suggestionsFor opts text))])
    /\ (breaks stream = true -> supabase (db w) = None ->
        db w' = {| localStorage :=
                     <[CHAT_PREFIX +:+ user_id u :=
                         Json.of_messages (messages (ui w)
                                           ++ [userMessage (uuid1 fresh) text (now1 fresh)])]>
                       (localStorage (db w));
                   supabase := None |}).
Proof.
  intros Hu Hk Hr.
  unfold Part001.handleSendMessage. unfold bind at 1, get. rewrite Hu, Hk. cbv zeta.
  unfold bind at 1. rewrite setMessages_run.
  set (w1 := with_messages _ w).
  destruct (saved_000 (user_id u) (messages (ui w) ++ [userMessage (uuid1 fresh) text (now1 fresh)]) w1)
    as (w2 & E2 & Hui & Hr2 & Hloc).
  unfold bind at 1. rewrite E2.
  destruct (getMasterPrompt_000_returns (db w2) (Hr2 Hr)) as (mp & Em).
  unfold bind at 1. rewrite (liftDb_same _ _ _ Em).
  unfold tryCatch. unfold bind at 1. rewrite setMessages_run.
  unfold bind at 1. rewrite consume_001.
  assert (messages (ui w2) = messages (ui w) ++ [userMessage (uuid1 fresh) text (now1 fresh)])
    as Hm by (rewrite Hui; reflexivity).
  destruct (breaks stream).
  - destruct (Part001.received (chunks stream)); cbn;
      (eexists; eexists; exists mp; split; [reflexivity |]; cbn;
       repeat (split; [reflexivity |]);
       split; [rewrite Hm, <- ?app_assoc; reflexivity | intros _ Hn; apply Hloc; exact Hn]).
  - set (w3 := if Part001.received (chunks stream) then _ else _).
    unfold bind at 1, ret at 1. unfold bind at 1.
    assert (exists w4, (if lesson_turn opts text then setLessonCtx (EmptyString +:+ Part001.joined (chunks stream))
                        else ret tt) w3 = Returned tt w4) as (w4 & E4).
    { destruct (lesson_turn opts text); eexists; reflexivity. }
    rewrite E4. unfold bind at 1. rewrite setMessages_run.
    set (w5 := with_messages _ w4).
    destruct (saved_000 (user_id u)
                (messages (ui w) ++ [userMessage (uuid1 fresh) text (now1 fresh)]
                 ++ [modelMessage (uuid2 fresh) (EmptyString +:+ Part001.joined (chunks stream))
                       (now3 fresh) (Some (suggestionsFor opts text))]) w5)
      as (w6 & E6 & Hui6 & _).
    rewrite <- app_assoc. unfold bind at 1. rewrite E6.
    eexists; eexists; exists mp; split; [reflexivity |]; cbn.
    repeat (split; [reflexivity |]). split; [| intros Hbreaks; discriminate Hbreaks].
    rewrite Hui6. subst w5. cbn. rewrite <- app_assoc. reflexivity.
Qed.

(** [handleSendMessage] of index.tsx:614, run with a signed-in user, a
    usable key and a settings table that answers. *)
Lemma handleSendMessage_v1_run apiKey fresh ai text formatId opts w u key :
  user (ui w) = Some u ->
  usable_key apiKey = Some key ->
  settings_reachable (db w) ->
  exists w' req mp,
    IndexV1.handleSendMessage apiKey fresh ai text formatId opts w = Returned (Some req) w'
    /\ req_prompt req = text
    /\ req_hist req = messages (ui w)
    /\ req_contents req = contents_of (req_hist req) text
    /\ req_sys req = assemble mp (include_doc opts (activeDocId (ui w)))
                       (find_active (docs (ui w)) (activeDocId (ui w))) formatId
    /\ messages (ui w') =
         messages (ui w)
         ++ [userMessage (uuid1 fresh) text (now1 fresh);
             match ai with
             | Resolves response_text =>
                 modelMessage (uuid2 fresh) (IndexV1.reply response_text) (now2 fresh)
                   (Some (suggestionsFor opts text))
             | Rejects => errorMessage (uuid3 fresh) ERROR_CONNECTING (now3 fresh)
             end].
Proof.
  intros Hu Hk Hr.
  unfold IndexV1.handleSendMessage. unfold bind at 1, get. rewrite Hu, Hk. cbv zeta.
  unfold bind at 1. rewrite setMessages_run.
  set (w1 := with_messages _ w).
  destruct (saved_v1 (user_id u) (messages (ui w) ++ [userMessage (uuid1 fresh) text (now1 fresh)]) w1)
    as (w2 & E2 & Hui & Hr2 & _).
  unfold bind at 1. rewrite E2.
  destruct (getMasterPrompt_v1_returns (db w2) (Hr2 Hr)) as (mp & Em).
  unfold bind at 1. rewrite (liftDb_same _ _ _ Em).
  assert (messages (ui w2) = messages (ui w) ++ [userMessage (uuid1 fresh) text (now1 fresh)])
    as Hm by (rewrite Hui; reflexivity).
  unfold tryCatch. destruct ai as [rt |]; cbn [IndexV1.generateAI].
  - unfold bind at 1, ret at 1. unfold bind at 1.
    assert (exists w4, (if lesson_turn opts text then setLessonCtx (IndexV1.reply rt)
                        else ret tt) w2 = Returned tt w4 /\ ui w4 = ui w4) as (w4 & E4 & _).
    { destruct (lesson_turn opts text); eexists; split; reflexivity. }
    rewrite E4. unfold bind at 1. rewrite setMessages_run.
    set (w5 := with_messages _ w4).
    destruct (saved_v1 (user_id u)
                ((messages (ui w) ++ [userMessage (uuid1 fresh) text (now1 fresh)])
                 ++ [modelMessage (uuid2 fresh) (IndexV1.reply rt) (now2 fresh)
                       (Some (suggestionsFor opts text))]) w5)
      as (w6 & E6 & Hui6 & _).
    unfold bind at 1. rewrite E6.
    eexists; eexists; exists mp; split; [reflexivity |]; cbn.
    repeat (split; [reflexivity |]). rewrite Hui6. subst w5. cbn.
    rewrite <- app_assoc. reflexivity.
  - unfold bind at 1, throw at 1. unfold bind at 1. rewrite setMessages_run.
    eexists; eexists; exists mp; split; [reflexivity |]; cbn.
    repeat (split; [reflexivity |]). rewrite Hm, <- app_assoc. reflexivity.
Qed.

(** [handleSend] of part_000:675, run with something to send, a signed-in
    user, a usable key, an attachment that can be read (if any) and a
    settings table that answers. *)
Lemma handleSend_000_run apiKey fresh ext stream input fileToUpload outputFormat useThinking
    w u key added :
  Js.blank input && Part000.no_file fileToUpload = false ->
  user (ui w) = Some u ->
  usable_key apiKey = Some key ->
  Part000.suffix ext fileToUpload = Some added ->
  settings_reachable (db w) ->
  exists w' req,
    Part000.handleSend apiKey fresh ext stream input fileToUpload outputFormat useThinking w
      = Returned (Some req) w'
    /\ req_prompt req = input +:+ added
    /\ req_hist req = messages (ui w)
    /\ req_contents req = contents_of (req_hist req) (input +:+ added)
    /\ messages (ui w') =
        (let botMsgId := pretty (now3 fresh + 1) in
         let started := messages (ui w)
                        ++ [userMessage (pretty (now1 fresh)) (input +:+ added) (now2 fresh);
                            Part000.placeholder botMsgId (now4 fresh) useThinking] in
         if breaks stream
         then match chunks stream with
              | [] => started
              | _ :: _ => setText botMsgId (Part000.joined (chunks stream)) started
              end
              ++ [errorMessage (pretty (now6 fresh)) ERROR_GENERATING (now7 fresh)]
         else messages (ui w)
              ++ [userMessage (pretty (now1 fresh)) (input +:+ added) (now2 fresh);
                  modelMessage botMsgId (Part000.joined (chunks stream)) (now5 fresh) None])
    /\ (breaks stream = true -> db w' = db w).
Proof.
  intros Hb Hu Hk Ha Hr.
  unfold Part000.handleSend. unfold bind at 1, get. rewrite Hb, Hu, Hk, Ha. cbv zeta.
  unfold bind at 1. rewrite setMessages_run.
  set (w1 := with_messages _ w).
  destruct (getMasterPrompt_000_returns (db w1) Hr) as (mp & Em).
  unfold bind at 1. rewrite (liftDb_same _ _ _ Em).
  unfold tryCatch. unfold bind at 1. rewrite setMessages_run.
  unfold bind at 1. rewrite consume_000.
  destruct (breaks stream).
  - destruct (chunks stream); cbn;
      (eexists; eexists; split; [reflexivity |]; cbn;
       repeat (split; [reflexivity |]);
       split; [rewrite <- ?app_assoc; reflexivity | reflexivity]).
  - set (w3 := match chunks stream with [] => _ | _ :: _ => _ end).
    unfold bind at 1, ret at 1. unfold bind at 1.
    destruct (saved_000 (user_id u)
                ((messages (ui w) ++ [userMessage (pretty (now1 fresh)) (input +:+ added) (now2 fresh)])
                 ++ [modelMessage (pretty (now3 fresh + 1))
                       (EmptyString +:+ Part000.joined (chunks stream)) (now5 fresh) None]) w3)
      as (w6 & E6 & Hui6 & _).
    rewrite E6. unfold bind at 1. rewrite setMessages_run.
    eexists; eexists; split; [reflexivity |]; cbn.
    repeat (split; [reflexivity |]). split; [| intros Hbreaks; discriminate Hbreaks].
    rewrite <- app_assoc. reflexivity.
Qed.

Lemma error_turns_app l1 l2 : error_turns (l1 ++ l2) = error_turns l1 ++ error_turns l2.
Proof. unfold error_turns. apply List.filter_app. Qed.

(** C1, as the code has it. The history handed to the completion service
    is the conversation as it stands when the message is sent (in part_001
    with the new user turn appended), unfiltered: its messages flagged
    isError are exactly those of the conversation state, so the error
    message a failed turn left is part of the history of the next request.
    The history is free of error-flagged messages only when the state is. *)
Theorem history_is_unfiltered apiKey fresh ai stream ext text formatId opts
    fileToUpload useThinking w u key added :
  user (ui w) = Some u ->
  usable_key apiKey = Some key ->
  settings_reachable (db w) ->
  Js.blank text && Part000.no_file fileToUpload = false ->
  Part000.suffix ext fileToUpload = Some added ->
  (exists w' req,
      IndexV1.handleSendMessage apiKey fresh ai text formatId opts w = Returned (Some req) w'
      /\ req_hist req = messages (ui w)
      /\ req_contents req = contents_of (messages (ui w)) text)
  /\ (exists w' req,
      Part001.handleSendMessage apiKey fresh stream text formatId opts w = Returned (Some req) w'
      /\ req_hist req = messages (ui w) ++ [userMessage (uuid1 fresh) text (now1 fresh)]
      /\ error_turns (req_hist req) = error_turns (messages (ui w)))
  /\ (exists w' req,
      Part000.handleSend apiKey fresh ext stream text fileToUpload formatId useThinking w
        = Returned (Some req) w'
      /\ req_hist req = messages (ui w)
      /\ req_contents req = contents_of (messages (ui w)) (text +:+ added)).
Proof.
  intros Hu Hk Hr Hb Ha. split; [| split].
  - destruct (handleSendMessage_v1_run apiKey fresh ai text formatId opts w u key Hu Hk Hr)
      as (w' & req & mp & E & _ & Hh & Hc & _).
    exists w', req. rewrite Hh in Hc. auto.
  - destruct (handleSendMessage_001_run apiKey fresh stream text formatId opts w u key Hu Hk Hr)
      as (w' & req & mp & E & _ & Hh & _).
    exists w', req. split; [exact E |]. split; [exact Hh |].
    rewrite Hh, error_turns_app. cbn. apply app_nil_r.
  - destruct (handleSend_000_run apiKey fresh ext stream text fileToUpload formatId useThinking
                w u key added Hb Hu Hk Ha Hr)
      as (w' & req & E & _ & Hh & Hc & _).
    exists w', req. rewrite Hh in Hc. auto.
Qed.

Lemma history_is_unfiltered_witness :
  (exists w' req,
      IndexV1.handleSendMessage (Some "key") Sample.second_turn (Resolves (Some "Fine."))
        "Again" auto Sample.no_opts Sample.after_failure_001 = Returned (Some req) w'
      /\ req_hist req = messages (ui Sample.after_failure_001)
      /\ req_contents req = contents_of (messages (ui Sample.after_failure_001)) "Again")
  /\ (exists w' req,
      Part001.handleSendMessage (Some "key") Sample.second_turn Sample.answers_fine
        "Again" auto Sample.no_opts Sample.after_failure_001 = Returned (Some req) w'
      /\ req_hist req = messages (ui Sample.after_failure_001)
                        ++ [userMessage "u-2" "Again" 2001]
      /\ error_turns (req_hist req) = error_turns (messages (ui Sample.after_failure_001)))
  /\ (exists w' req,
      Part000.handleSend (Some "key") Sample.second_turn Sample.reads_hello Sample.answers_fine
        "Again" None auto false Sample.after_failure_001 = Returned (Some req) w'
      /\ req_hist req = messages (ui Sample.after_failure_001)
      /\ req_contents req
         = contents_of (messages (ui Sample.after_failure_001)) ("Again" +:+ EmptyString)).
Proof.
  apply (history_is_unfiltered (Some "key") Sample.second_turn (Resolves (Some "Fine."))
           Sample.answers_fine Sample.reads_hello "Again" auto Sample.no_opts None false
           Sample.after_failure_001 Sample.teacher "key" EmptyString).
  - vm_compute. reflexivity.
  - vm_compute. reflexivity.
  - vm_compute. exact I.
  - vm_compute. reflexivity.
  - vm_compute. reflexivity.
Defined.

(** C1 as stated fails: after a turn whose completion failed, the next
    request carries the error message in its history, flagged isError, and
    its text goes to the service as a turn of the model. *)
Lemma failed_turn_reaches_next_request :
  (exists w' req,
      Part001.handleSendMessage (Some "key") Sample.second_turn Sample.answers_fine
        "Again" auto Sample.no_opts Sample.after_failure_001 = Returned (Some req) w'
      /\ In (errorMessage "e-1" ERROR_CONNECTING 1004) (req_hist req)
      /\ isError (errorMessage "e-1" ERROR_CONNECTING 1004) = Some true
      /\ In {| c_role := RoleModel; c_text := ERROR_CONNECTING |} (req_contents req))
  /\ (exists w' req,
      IndexV1.handleSendMessage (Some "key") Sample.second_turn (Resolves (Some "Fine."))
        "Again" auto Sample.no_opts Sample.after_failure_v1 = Returned (Some req) w'
      /\ In (errorMessage "e-1" ERROR_CONNECTING 1003) (req_hist req)
      /\ isError (errorMessage "e-1" ERROR_CONNECTING 1003) = Some true
      /\ In {| c_role := RoleModel; c_text := ERROR_CONNECTING |} (req_contents req)).
Proof.
  split.
  - eexists. eexists. split; [vm_compute; reflexivity |].
    split; [| split; [reflexivity |]]; cbn; auto 10.
  - eexists. eexists. split; [vm_compute; reflexivity |].
    split; [| split; [reflexivity |]]; cbn; auto 10.
Qed.

(** With a fresh id the updates of the stream reach the placeholder alone. *)
Lemma setText_placeholder_001 i ts cs l :
  fresh_id i l = true ->
  (if Part001.received cs
   then setText i (Part001.joined cs) (l ++ [Part001.placeholder i ts])
   else l ++ [Part001.placeholder i ts])
  = l ++ [Part001.partial i ts cs].
Proof.
  intros Hf. unfold Part001.partial. destruct (Part001.received cs); [| reflexivity].
  rewrite setText_app, setText_fresh by assumption.
  cbn. rewrite String.eqb_refl. reflexivity.
Qed.

Lemma setText_placeholder_000 i ts th cs l :
  fresh_id i l = true ->
  match cs with
  | [] => l ++ [Part000.placeholder i ts th]
  | _ :: _ => setText i (Part000.joined cs) (l ++ [Part000.placeholder i ts th])
  end
  = l ++ [Part000.partial i ts th cs].
Proof.
  intros Hf. unfold Part000.partial. destruct cs as [| c cs]; [reflexivity |].
  rewrite setText_app, setText_fresh by assumption.
  cbn. rewrite String.eqb_refl. reflexivity.
Qed.

Lemma flagged_partial_001 i ts cs : flagged (Part001.partial i ts cs) = false.
Proof. unfold Part001.partial. destruct (Part001.received cs); reflexivity. Qed.

Lemma flagged_partial_000 i ts th cs : flagged (Part000.partial i ts th cs) = false.
Proof. unfold Part000.partial. destruct cs; reflexivity. Qed.

(** C2, as the code has it. When the stream yields chunks and then throws,
    the conversation state the handler leaves holds the user's turn, then
    the placeholder assistant message with the text of the chunks received
    before the failure (not flagged as an error), then one new assistant
    message flagged isError with the fixed error text: the error message is
    appended, the partial message is not replaced. The transcript that
    part_001 saved before the stream (local store) holds the user's turn
    and neither assistant message; part_000 saves nothing in such a turn. *)
Theorem broken_stream_keeps_partial apiKey fresh ext cs text formatId opts
    fileToUpload useThinking w u key added :
  user (ui w) = Some u ->
  usable_key apiKey = Some key ->
  settings_reachable (db w) ->
  Js.blank text && Part000.no_file fileToUpload = false ->
  Part000.suffix ext fileToUpload = Some added ->
  fresh_id (uuid2 fresh) (messages (ui w) ++ [userMessage (uuid1 fresh) text (now1 fresh)]) = true ->
  fresh_id (pretty (now3 fresh + 1))
    (messages (ui w) ++ [userMessage (pretty (now1 fresh)) (text +:+ added) (now2 fresh)]) = true ->
  (exists w' req,
      Part001.handleSendMessage apiKey fresh {| chunks := cs; breaks := true |}
        text formatId opts w = Returned (Some req) w'
      /\ messages (ui w') =
           messages (ui w)
           ++ [userMessage (uuid1 fresh) text (now1 fresh);
               Part001.partial (uuid2 fresh) (now2 fresh) cs;
               errorMessage (uuid3 fresh) ERROR_CONNECTING (now4 fresh)]
      /\ error_turns (messages (ui w')) =
           error_turns (messages (ui w))
           ++ [errorMessage (uuid3 fresh) ERROR_CONNECTING (now4 fresh)]
      /\ (supabase (db w) = None ->
          localStorage (db w') !! (CHAT_PREFIX +:+ user_id u) =
            Some (Json.of_messages
                    (messages (ui w) ++ [userMessage (uuid1 fresh) text (now1 fresh)]))))
  /\ (exists w' req,
      Part000.handleSend apiKey fresh ext {| chunks := cs; breaks := true |}
        text fileToUpload formatId useThinking w = Returned (Some req) w'
      /\ messages (ui w') =
           messages (ui w)
           ++ [userMessage (pretty (now1 fresh)) (text +:+ added) (now2 fresh);
               Part000.partial (pretty (now3 fresh + 1)) (now4 fresh) useThinking cs;
               errorMessage (pretty (now6 fresh)) ERROR_GENERATING (now7 fresh)]
      /\ error_turns (messages (ui w')) =
           error_turns (messages (ui w))
           ++ [errorMessage (pretty (now6 fresh)) ERROR_GENERATING (now7 fresh)]
      /\ db w' = db w).
Proof.
  intros Hu Hk Hr Hb Ha Hf1 Hf0. split.
  - destruct (handleSendMessage_001_run apiKey fresh {| chunks := cs; breaks := true |}
                text formatId opts w u key Hu Hk Hr)
      as (w' & req & mp & E & _ & _ & _ & _ & Hm & Hdb).
    cbn [breaks chunks] in Hm, Hdb. cbv zeta in Hm.
    change (messages (ui w) ++ [userMessage (uuid1 fresh) text (now1 fresh);
                               Part001.placeholder (uuid2 fresh) (now2 fresh)])
      with (messages (ui w) ++ [userMessage (uuid1 fresh) text (now1 fresh)]
                            ++ [Part001.placeholder (uuid2 fresh) (now2 fresh)]) in Hm.
    rewrite !(app_assoc (messages (ui w))) in Hm.
    rewrite (setText_placeholder_001 _ _ _ _ Hf1), <- !app_assoc in Hm.
    exists w', req. split; [exact E |]. split; [exact Hm |]. split.
    + rewrite Hm, error_turns_app. f_equal.
      unfold error_turns. cbn. rewrite flagged_partial_001. reflexivity.
    + intros Hn. rewrite (Hdb eq_refl Hn). cbn [localStorage].
      apply lookup_insert_eq.
  - destruct (handleSend_000_run apiKey fresh ext {| chunks := cs; breaks := true |}
                text fileToUpload formatId useThinking w u key added Hb Hu Hk Ha Hr)
      as (w' & req & E & _ & _ & _ & Hm & Hdb).
    cbn [breaks chunks] in Hm, Hdb. cbv zeta in Hm.
    change (messages (ui w) ++ [userMessage (pretty (now1 fresh)) (text +:+ added) (now2 fresh);
                               Part000.placeholder (pretty (now3 fresh + 1)) (now4 fresh) useThinking])
      with (messages (ui w) ++ [userMessage (pretty (now1 fresh)) (text +:+ added) (now2 fresh)]
                            ++ [Part000.placeholder (pretty (now3 fresh + 1)) (now4 fresh) useThinking])
      in Hm.
    rewrite !(app_assoc (messages (ui w))) in Hm.
    rewrite (setText_placeholder_000 _ _ _ _ _ Hf0), <- !app_assoc in Hm.
    exists w', req. split; [exact E |]. split; [exact Hm |]. split.
    + rewrite Hm, error_turns_app. f_equal.
      unfold error_turns. cbn. rewrite flagged_partial_000. reflexivity.
    + apply Hdb. reflexivity.
Qed.

Lemma broken_stream_keeps_partial_witness :
  (exists w' req,
      Part001.handleSendMessage (Some "key") Sample.first_turn
        {| chunks := [Some "Hello"; Some " world"]; breaks := true |}
        "Hi" auto Sample.no_opts Sample.start = Returned (Some req) w'
      /\ messages (ui w') =
           messages (ui Sample.start)
           ++ [userMessage "u-1" "Hi" 1001;
               Part001.partial "a-1" 1002 [Some "Hello"; Some " world"];
               errorMessage "e-1" ERROR_CONNECTING 1004]
      /\ error_turns (messages (ui w')) =
           error_turns (messages (ui Sample.start)) ++ [errorMessage "e-1" ERROR_CONNECTING 1004]
      /\ (supabase (db Sample.start) = None ->
          localStorage (db w') !! (CHAT_PREFIX +:+ user_id Sample.teacher) =
            Some (Json.of_messages
                    (messages (ui Sample.start) ++ [userMessage "u-1" "Hi" 1001]))))
  /\ (exists w' req,
      Part000.handleSend (Some "key") Sample.first_turn Sample.reads_hello
        {| chunks := [Some "Hello"; Some " world"]; breaks := true |}
        "Hi" None auto false Sample.start = Returned (Some req) w'
      /\ messages (ui w') =
           messages (ui Sample.start)
           ++ [userMessage (pretty 1001) ("Hi" +:+ EmptyString) 1002;
               Part000.partial (pretty (1003 + 1)) 1004 false [Some "Hello"; Some " world"];
               errorMessage (pretty 1006) ERROR_GENERATING 1007]
      /\ error_turns (messages (ui w')) =
           error_turns (messages (ui Sample.start)) ++ [errorMessage (pretty 1006) ERROR_GENERATING 1007]
      /\ db w' = db Sample.start).
Proof.
  apply (broken_stream_keeps_partial (Some "key") Sample.first_turn Sample.reads_hello
           [Some "Hello"; Some " world"] "Hi" auto Sample.no_opts None false
           Sample.start Sample.teacher "key" EmptyString).
  - vm_compute. reflexivity.
  - vm_compute. reflexivity.
  - vm_compute. exact I.
  - vm_compute. reflexivity.
  - vm_compute. reflexivity.
  - vm_compute. reflexivity.
  - vm_compute. reflexivity.
Defined.

(** C2 as stated fails: in the scenario of the claim the state holds, next
    to the user's turn and the error message, the assistant message built
    from the two chunks, so two assistant messages and not one. *)
Lemma partial_answer_survives_failure :
  exists w' req,
    Part001.handleSendMessage (Some "key") Sample.first_turn Sample.hello_then_throws
      "Hi" auto Sample.no_opts Sample.start = Returned (Some req) w'
    /\ messages (ui w') =
         [userMessage "u-1" "Hi" 1001;
          {| msg_id := "a-1"; role := RoleModel; text := "Hello world"; timestamp := 1002;
             isError := None; suggestions := None; isThinking := Some false |};
          errorMessage "e-1" ERROR_CONNECTING 1004]
    /\ List.filter (fun m => bool_decide (role m = RoleModel)) (messages (ui w')) =
         [{| msg_id := "a-1"; role := RoleModel; text := "Hello world"; timestamp := 1002;
             isError := None; suggestions := None; isThinking := Some false |};
          errorMessage "e-1" ERROR_CONNECTING 1004].
Proof.
  eexists. eexists. split; [vm_compute; reflexivity |]. split; reflexivity.
Qed.

Lemma last_two {A} (l : list A) a b : last (l ++ [a; b]) = Some b.
Proof. change (l ++ [a; b]) with (l ++ [a] ++ [b]). rewrite app_assoc. apply last_snoc. Qed.

(** C6. Applied to a fresh empty placeholder, a chunk sequence always
    leaves the same text, the chunks joined in order, whatever the
    conversation, the id and the time; and applying the same sequence once
    more to the message so filled leaves that text again, since every
    update sets the message text to the whole accumulated text. This holds
    for the loop of part_001:914 and for the loop of part_000:718. *)
Theorem chunk_replay_same_text (i : string) (ts : Z) (th : bool)
    (cs : list (option string)) (w : World) :
  (exists w1 m,
      Part001.consume i cs EmptyString
        (with_messages (messages (ui w) ++ [Part001.placeholder i ts]) w)
        = Returned (Part001.joined cs) w1
      /\ last (messages (ui w1)) = Some m /\ msg_id m = i /\ text m = Part001.joined cs
      /\ Part001.consume i cs EmptyString w1 = Returned (Part001.joined cs) w1)
  /\ (exists w1 m,
      Part000.consume i cs EmptyString
        (with_messages (messages (ui w) ++ [Part000.placeholder i ts th]) w)
        = Returned (Part000.joined cs) w1
      /\ last (messages (ui w1)) = Some m /\ msg_id m = i /\ text m = Part000.joined cs
      /\ Part000.consume i cs EmptyString w1 = Returned (Part000.joined cs) w1).
Proof.
  split.
  - rewrite consume_001. destruct (Part001.received cs) eqn:Hr.
    + eexists. eexists. split; [reflexivity |]. split; [| split; [| split]].
      * cbn [with_messages ui messages]. rewrite setText_app. cbn [setText List.map].
        rewrite String.eqb_refl. apply last_snoc.
      * reflexivity.
      * reflexivity.
      * rewrite consume_001, Hr. cbn [with_messages ui messages db].
        rewrite setText_twice. reflexivity.
    + eexists. eexists. split; [reflexivity |]. split; [| split; [| split]].
      * cbn [with_messages ui messages]. apply last_snoc.
      * reflexivity.
      * cbn. symmetry. apply not_received_joined. exact Hr.
      * rewrite consume_001, Hr. reflexivity.
  - rewrite consume_000. destruct cs as [| c cs].
    + eexists. eexists. split; [reflexivity |]. split; [| split; [| split]].
      * cbn [with_messages ui messages]. apply last_snoc.
      * reflexivity.
      * reflexivity.
      * reflexivity.
    + eexists. eexists. split; [reflexivity |]. split; [| split; [| split]].
      * cbn [with_messages ui messages]. rewrite setText_app. cbn [setText List.map].
        rewrite String.eqb_refl. apply last_snoc.
      * reflexivity.
      * reflexivity.
      * rewrite consume_000. cbn [with_messages ui messages db].
        rewrite setText_twice. reflexivity.
Qed.

(** C7. The document segment of the assembled context is
    [content.substring(0, 30000)]: for a content of more than 30,000
    characters it is exactly the first 30,000 of them, for a content of at
    most 30,000 characters it is the content unmodified; the assembled
    instruction holds this segment after the context header and before the
    format clause. *)
Theorem document_segment_is_first_30000 (d : DocumentFile) :
  (30000 < Js.strlen (doc_content d) ->
     Js.strlen (document_segment d) = 30000
     /\ document_segment d = Js.take (Z.to_nat 30000) (doc_content d)
     /\ doc_content d = document_segment d +:+ Js.drop (Z.to_nat 30000) (doc_content d))
  /\ (Js.strlen (doc_content d) <= 30000 -> document_segment d = doc_content d)
  /\ (forall sys formatId,
        exists fmt,
          find_format formatId = Some fmt
          /\ assemble sys true (Some d) formatId =
               (sys +:+ Js.nl +:+ Js.nl +:+ "=== CONTEXT: " +:+ doc_name d +:+ " ===" +:+ Js.nl
                    +:+ document_segment d)
               +:+ Js.nl +:+ Js.nl +:+ "FORMAT: " +:+ instruction fmt).
Proof.
  unfold document_segment. split; [| split].
  - intros H. apply substring_prefix_length; lia.
  - intros H. apply substring_short; lia.
  - intros sys formatId. unfold assemble.
    destruct formatId; eexists; split; reflexivity.
Qed.

Lemma document_segment_is_first_30000_witness :
  Js.strlen (document_segment Sample.long_doc) = 30000
  /\ document_segment Sample.notes_doc = doc_content Sample.notes_doc.
Proof.
  split.
  - apply (document_segment_is_first_30000 Sample.long_doc). vm_compute. reflexivity.
  - apply (document_segment_is_first_30000 Sample.notes_doc). vm_compute. congruence.
Defined.

(** ** Follow-up actions *)

Lemma is_type_true opts t : is_type opts t = true <-> opt_type opts = Some t.
Proof.
  unfold is_type. destruct (opt_type opts) as [s|]; [| split; discriminate].
  rewrite String.eqb_eq. split; congruence.
Qed.

Lemma is_type_false opts t : opt_type opts <> Some t -> is_type opts t = false.
Proof.
  intros H. destruct (is_type opts t) eqn:E; [| reflexivity].
  apply is_type_true in E. contradiction.
Qed.

Lemma lesson_turn_true opts text :
  opt_type opts = Some "lesson" \/ (exists a b, text = a +:+ "lesson plan" +:+ b) ->
  lesson_turn opts text = true.
Proof.
  unfold lesson_turn. intros [H | (a & b & ->)].
  - apply is_type_true in H. rewrite H. reflexivity.
  - rewrite includes_lowered by reflexivity. apply orb_true_r.
Qed.

(** C9. A turn that succeeds ends with an assistant message that carries
    the suggestions of the rule table for the turn's intent and text, in
    index.tsx:640 and in part_001:923. For the intent lesson, or a user
    text that contains "lesson plan", these are exactly two suggestions,
    with target actions quiz and rubric; a turn that matches no intent and
    no keyword carries none. *)
Theorem lesson_turn_offers_quiz_and_rubric apiKey fresh response_text cs text formatId opts
    w u key :
  user (ui w) = Some u ->
  usable_key apiKey = Some key ->
  settings_reachable (db w) ->
  (exists w' req answer,
      IndexV1.handleSendMessage apiKey fresh (Resolves response_text) text formatId opts w
        = Returned (Some req) w'
      /\ last (messages (ui w')) = Some answer
      /\ role answer = RoleModel /\ isError answer = None
      /\ suggestions answer = Some (suggestionsFor opts text))
  /\ (exists w' req answer,
      Part001.handleSendMessage apiKey fresh {| chunks := cs; breaks := false |}
        text formatId opts w = Returned (Some req) w'
      /\ last (messages (ui w')) = Some answer
      /\ role answer = RoleModel /\ isError answer = None
      /\ suggestions answer = Some (suggestionsFor opts text))
  /\ (opt_type opts = Some "lesson" \/ (exists a b, text = a +:+ "lesson plan" +:+ b) ->
      exists s1 s2, suggestionsFor opts text = [s1; s2]
                    /\ sg_action s1 = quiz /\ sg_action s2 = rubric)
  /\ (opt_type opts <> Some "lesson" -> opt_type opts <> Some "quiz" ->
      Js.includes (Js.toLowerCase text) "lesson plan" = false ->
      Js.includes (Js.toLowerCase text) "quiz" = false ->
      suggestionsFor opts text = []).
Proof.
  intros Hu Hk Hr. split; [| split; [| split]].
  - destruct (handleSendMessage_v1_run apiKey fresh (Resolves response_text) text formatId opts
                w u key Hu Hk Hr) as (w' & req & mp & E & _ & _ & _ & _ & Hm).
    exists w', req. eexists. split; [exact E |]. rewrite Hm, last_two.
    repeat split.
  - destruct (handleSendMessage_001_run apiKey fresh {| chunks := cs; breaks := false |}
                text formatId opts w u key Hu Hk Hr)
      as (w' & req & mp & E & _ & _ & _ & _ & Hm & _).
    cbn [breaks chunks] in Hm. cbv zeta in Hm.
    exists w', req. eexists. split; [exact E |]. rewrite Hm, last_two.
    repeat split.
  - intros H. apply lesson_turn_true in H. unfold suggestionsFor. rewrite H.
    eexists. eexists. repeat split.
  - intros H1 H2 H3 H4. unfold suggestionsFor, lesson_turn, quiz_turn.
    rewrite (is_type_false _ _ H1), (is_type_false _ _ H2), H3, H4. reflexivity.
Qed.

Lemma lesson_turn_offers_quiz_and_rubric_witness :
  (exists w' req answer,
      IndexV1.handleSendMessage (Some "key") Sample.first_turn (Resolves (Some "Plan."))
        "Fractions" report Sample.lesson_opts Sample.start = Returned (Some req) w'
      /\ last (messages (ui w')) = Some answer
      /\ role answer = RoleModel /\ isError answer = None
      /\ suggestions answer = Some (suggestionsFor Sample.lesson_opts "Fractions"))
  /\ (exists s1 s2, suggestionsFor Sample.lesson_opts "Fractions" = [s1; s2]
                    /\ sg_action s1 = quiz /\ sg_action s2 = rubric)
  /\ suggestionsFor Sample.no_opts "Fractions" = [].
Proof.
  pose proof (lesson_turn_offers_quiz_and_rubric (Some "key") Sample.first_turn (Some "Plan.")
                [Some "Plan."] "Fractions" report Sample.lesson_opts Sample.start
                Sample.teacher "key" eq_refl eq_refl I) as (H1 & _ & H3 & _).
  pose proof (lesson_turn_offers_quiz_and_rubric (Some "key") Sample.first_turn (Some "Plan.")
                [Some "Plan."] "Fractions" report Sample.no_opts Sample.start
                Sample.teacher "key" eq_refl eq_refl I) as (_ & _ & _ & H4).
  split; [exact H1 |]. split.
  - apply H3. left. reflexivity.
  - apply H4; vm_compute; congruence.
Defined.

(** ** Stored transcripts *)

Lemma read_all_suggestions l :
  Json.read_all Json.to_suggestion (Json.of_suggestion <$> l) = Some l.
Proof.
  induction l as [| s l IH]; [reflexivity |].
  cbn [fmap list_fmap Json.read_all]. fold (Json.of_suggestion <$> l). rewrite IH.
  destruct s as [lbl [| |] [p|]]; reflexivity.
Qed.

Lemma to_message_of_message m : Json.to_message (Json.of_message m) = Some m.
Proof.
  destruct m as [i r t ts e sg th].
  destruct r, e as [e|], sg as [sg|], th as [th|];
    cbn; rewrite ?read_all_suggestions; reflexivity.
Qed.

(** A transcript read back from the value it is stored as is the transcript. *)
Lemma to_messages_of_messages ms : Json.to_messages (Json.of_messages ms) = Some ms.
Proof.
  unfold Json.to_messages, Json.of_messages, Json.as_arr.
  induction ms as [| m ms IH]; [reflexivity |].
  cbn [fmap list_fmap Json.read_all]. fold (Json.of_message <$> ms).
  rewrite to_message_of_message, IH. reflexivity.
Qed.

Lemma filter_map_same {A} (p : A -> bool) (g : A -> A) l :
  (forall a, p (g a) = p a) -> List.filter p (List.map g l) = List.map g (List.filter p l).
Proof.
  intros H. induction l as [| a l IH]; cbn; [reflexivity |].
  rewrite H. destruct (p a); cbn; rewrite IH; reflexivity.
Qed.

Lemma existsb_filter_nil {A} (p : A -> bool) l :
  existsb p l = false <-> List.filter p l = [].
Proof.
  induction l as [| a l IH]; cbn; [tauto |].
  destruct (p a); cbn; [split; discriminate | exact IH].
Qed.

Lemma of_user_refl userId i j :
  of_user userId {| chat_row_id := i; chat_user_id := userId; chat_messages := j |} = true.
Proof. unfold of_user. cbn. apply String.eqb_refl. Qed.

(** Reading the transcript when the table holds one row of the owner. *)
Lemma getChat_one_row userId s r rows row :
  supabase s = Some r -> chats r = Present rows ->
  List.filter (of_user userId) rows = [row] ->
  Api000.getChat userId s = Returned (messages_or_empty (Some row)) s.
Proof.
  intros Hs Hc Hf. unfold Api000.getChat, bind at 1, get. rewrite Hs.
  unfold bind, Supabase.from, Supabase.single, ret. rewrite Hs, Hc, Hf.
  rewrite <- Hc, set_chats_id, <- Hs, store_eta. reflexivity.
Qed.

(** Saving with part_000:187 leaves one row of the owner, with the
    transcript in it. *)
Lemma saveChat_000_one_row userId ms s r rows :
  supabase s = Some r -> chats r = Present rows ->
  (length (List.filter (of_user userId) rows) <= 1)%nat ->
  exists s1 r1 rows1 row1,
    Api000.saveChat userId ms s = Returned tt s1
    /\ supabase s1 = Some r1 /\ chats r1 = Present rows1
    /\ List.filter (of_user userId) rows1 = [row1]
    /\ chat_messages row1 = Json.of_messages ms.
Proof.
  intros Hs Hc Hlen. unfold Api000.saveChat, bind at 1, get. rewrite Hs.
  unfold tryCatch, bind, Supabase.from, Supabase.maybeSingle, Supabase.update,
    Supabase.insert, ret. rewrite Hs, Hc.
  destruct (List.filter (of_user userId) rows) as [| row [| row' rest]] eqn:Hf;
    cbn [data ok no_row supabase localStorage chats set_chats].
  - do 4 eexists. split; [reflexivity |]. split; [reflexivity |]. split; [reflexivity |].
    split.
    + rewrite List.filter_app, Hf. cbn. rewrite String.eqb_refl. reflexivity.
    + reflexivity.
  - do 4 eexists. split; [reflexivity |]. split; [reflexivity |]. split; [reflexivity |].
    rewrite filter_map_same.
    + rewrite Hf. cbn. rewrite Z.eqb_refl. split; reflexivity.
    + intros a. destruct (chat_row_id a =? chat_row_id row); reflexivity.
  - cbn in Hlen. lia.
Qed.

(** Saving with index.tsx:165 does the same. *)
Lemma saveChat_v1_one_row userId ms s r rows :
  supabase s = Some r -> chats r = Present rows ->
  (length (List.filter (of_user userId) rows) <= 1)%nat ->
  exists s1 r1 rows1 row1,
    ApiV1.saveChat userId ms s = Returned tt s1
    /\ supabase s1 = Some r1 /\ chats r1 = Present rows1
    /\ List.filter (of_user userId) rows1 = [row1]
    /\ chat_messages row1 = Json.of_messages ms.
Proof.
  intros Hs Hc Hlen. unfold ApiV1.saveChat, bind at 1, get. rewrite Hs.
  unfold bind, Supabase.from, Supabase.upsert, ret. rewrite Hs, Hc.
  destruct (existsb (of_user userId) rows) eqn:He;
    cbn [data ok no_row supabase localStorage chats set_chats].
  - destruct (List.filter (of_user userId) rows) as [| row [| row' rest]] eqn:Hf.
    + apply existsb_filter_nil in Hf. congruence.
    + assert (of_user userId row = true) as Hrow.
      { assert (In row (List.filter (of_user userId) rows)) as Hin by (rewrite Hf; left; reflexivity).
        apply List.filter_In in Hin. tauto. }
      do 4 eexists. split; [reflexivity |]. split; [reflexivity |]. split; [reflexivity |].
      rewrite filter_map_same.
      * rewrite Hf. cbn. rewrite Hrow. split; reflexivity.
      * intros a. destruct (of_user userId a) eqn:Ha; [apply of_user_refl | exact Ha].
    + cbn in Hlen. lia.
  - apply existsb_filter_nil in He.
    do 4 eexists. split; [reflexivity |]. split; [reflexivity |]. split; [reflexivity |].
    split.
    + rewrite List.filter_app, He. cbn. rewrite String.eqb_refl. reflexivity.
    + reflexivity.
Qed.

Lemma getChat_local_after_save userId ms ls :
  Api000.getChat userId
    {| localStorage := <[CHAT_PREFIX +:+ userId := Json.of_messages ms]> ls; supabase := None |}
  = Returned (Json.of_messages ms)
      {| localStorage := <[CHAT_PREFIX +:+ userId := Json.of_messages ms]> ls; supabase := None |}.
Proof.
  unfold Api000.getChat, bind at 1, get. cbn [supabase].
  unfold ApiLocal.getChat, bind, LocalStorage.getItem, ret. cbn [localStorage].
  rewrite lookup_insert_eq. reflexivity.
Qed.

(** C8. Saving a transcript and reading it back gives the transcript: the
    value read is the stored form of the list M itself, the same messages
    in the same order with the same content. This holds with the local
    store and with the remote store whose [chats] table is present and
    holds at most one row of the owner (which every save keeps), for the
    functions of part_000:187-211 and of index.tsx:165-180. *)
Theorem transcript_round_trip (userId : string) (M : list Message) (s : Store) :
  chats_usable userId s ->
  (exists s1 j,
      Api000.saveChat userId M s = Returned tt s1
      /\ Api000.getChat userId s1 = Returned j s1
      /\ j = Json.of_messages M /\ Json.to_messages j = Some M
      /\ chats_usable userId s1)
  /\ (exists s1 j,
      ApiV1.saveChat userId M s = Returned tt s1
      /\ ApiV1.getChat userId s1 = Returned j s1
      /\ j = Json.of_messages M /\ Json.to_messages j = Some M
      /\ chats_usable userId s1).
Proof.
  unfold chats_usable. intros H.
  destruct (supabase s) as [r|] eqn:Hs.
  - destruct (chats r) as [rows | |] eqn:Hc; try contradiction. split.
    + destruct (saveChat_000_one_row userId M s r rows Hs Hc H)
        as (s1 & r1 & rows1 & row1 & E & Hs1 & Hc1 & Hf1 & Hm).
      exists s1, (Json.of_messages M). split; [exact E |].
      rewrite (getChat_one_row userId s1 r1 rows1 row1 Hs1 Hc1 Hf1).
      unfold messages_or_empty. rewrite Hm. cbn [Json.truthy Json.of_messages].
      split; [reflexivity |]. split; [reflexivity |].
      split; [apply to_messages_of_messages |].
      rewrite Hs1, Hc1, Hf1. cbn. lia.
    + destruct (saveChat_v1_one_row userId M s r rows Hs Hc H)
        as (s1 & r1 & rows1 & row1 & E & Hs1 & Hc1 & Hf1 & Hm).
      exists s1, (Json.of_messages M). split; [exact E |].
      unfold ApiV1.getChat. rewrite (getChat_one_row userId s1 r1 rows1 row1 Hs1 Hc1 Hf1).
      unfold messages_or_empty. rewrite Hm. cbn [Json.truthy Json.of_messages].
      split; [reflexivity |]. split; [reflexivity |].
      split; [apply to_messages_of_messages |].
      rewrite Hs1, Hc1, Hf1. cbn. lia.
  - split.
    + destruct (saveChat_000_returns userId M s) as (s1 & E & Hs1). rewrite Hs in Hs1. subst s1.
      do 2 eexists. split; [exact E |]. rewrite getChat_local_after_save.
      split; [reflexivity |]. split; [reflexivity |].
      split; [apply to_messages_of_messages | exact I].
    + pose proof (saveChat_v1_state userId M s) as E. rewrite Hs in E.
      do 2 eexists. split; [exact E |]. unfold ApiV1.getChat. rewrite getChat_local_after_save.
      split; [reflexivity |]. split; [reflexivity |].
      split; [apply to_messages_of_messages | exact I].
Qed.

Lemma transcript_round_trip_witness :
  (exists s1 j,
      Api000.saveChat "local-user" Sample.transcript Sample.local_store = Returned tt s1
      /\ Api000.getChat "local-user" s1 = Returned j s1
      /\ Json.to_messages j = Some Sample.transcript)
  /\ (exists s1 j,
      ApiV1.saveChat "local-user" Sample.transcript Sample.remote_empty = Returned tt s1
      /\ ApiV1.getChat "local-user" s1 = Returned j s1
      /\ Json.to_messages j = Some Sample.transcript).
Proof.
  split.
  - assert (chats_usable "local-user" Sample.local_store) as H by (vm_compute; exact I).
    destruct (transcript_round_trip "local-user" Sample.transcript Sample.local_store H)
      as ((s1 & j & E1 & E2 & _ & E3 & _) & _).
    exists s1, j. auto.
  - assert (chats_usable "local-user" Sample.remote_empty) as H by (vm_compute; lia).
    destruct (transcript_round_trip "local-user" Sample.transcript Sample.remote_empty H)
      as (_ & (s1 & j & E1 & E2 & _ & E3 & _)).
    exists s1, j. auto.
Defined.

(** ** Writes when the remote store fails *)

Lemma from_failing {R D} (tbl : Remote -> remote_table R) upd
    (q : list R -> response D * list R) s r :
  supabase s = Some r -> failing (tbl r) ->
  Supabase.from tbl upd q s =
    match tbl r with
    | Unreachable => Thrown s
    | _ => Returned failed s
    end.
Proof.
  intros Hs Hf. unfold Supabase.from. rewrite Hs.
  destruct (tbl r); [contradiction | reflexivity | reflexivity].
Qed.

(** C5, as the code has it. With the remote store failing (table missing
    or unreachable): in part_000 and part_001 no write lets the failure
    reach the caller as an exception, and [saveEvent] alone falls back to
    the local store, where the event is appended and read back by
    [getEvents]; [saveDoc], [saveChat] and [setMasterPrompt] return with
    both stores as they were. In index.tsx [saveDoc] and [setMasterPrompt]
    reject, [saveChat] rejects when the table is unreachable, and none of
    them writes to the local store. *)
Theorem writes_on_remote_failure (s : Store) (r : Remote) (doc : DocumentFile)
    (userId : string) (ms : list Message) (event : CalendarEvent) (prompt : string)
    (current : list json) :
  supabase s = Some r ->
  (failing (events r) ->
   local_array s (EVENTS_PREFIX +:+ userId) = Some current ->
   let s' := {| localStorage := <[EVENTS_PREFIX +:+ userId := JArr (current ++ [of_event event])]>
                                  (localStorage s);
                supabase := supabase s |} in
   Api000.saveEvent userId event s = Returned tt s'
   /\ Api000.getEvents userId s' = Returned (JArr (current ++ [of_event event])) s')
  /\ (failing (documents r) ->
      Api000.saveDoc doc s = Returned tt s /\ ApiV1.saveDoc doc s = Thrown s)
  /\ (failing (chats r) ->
      Api000.saveChat userId ms s = Returned tt s
      /\ ApiV1.saveChat userId ms s = match chats r with
                                      | Unreachable => Thrown s
                                      | _ => Returned tt s
                                      end)
  /\ (failing (system_settings r) ->
      Api000.setMasterPrompt prompt s = Returned tt s
      /\ ApiV1.setMasterPrompt prompt s = Thrown s).
Proof.
  intros Hs. split; [| split; [| split]].
  - intros He Hl s'.
    assert (ApiLocal.saveEvent userId event s = Returned tt s') as Hlocal.
    { unfold ApiLocal.saveEvent, bind, LocalStorage.getItem, LocalStorage.push,
        LocalStorage.setItem, parsed_or_empty, ret, throw.
      unfold local_array in Hl.
      destruct (localStorage s !! (EVENTS_PREFIX +:+ userId)) as [[| | | | l |] |];
        try discriminate Hl; inversion Hl; subst; reflexivity. }
    assert (ApiLocal.getEvents userId s' = Returned (JArr (current ++ [of_event event])) s')
      as Hread.
    { unfold ApiLocal.getEvents, bind, LocalStorage.getItem, ret. subst s'. cbn [localStorage].
      rewrite lookup_insert_eq. reflexivity. }
    split.
    + unfold Api000.saveEvent, bind at 1, get. rewrite Hs.
      unfold tryCatch, bind at 1. rewrite (from_failing _ _ _ s r Hs He).
      destruct (events r); [contradiction | exact Hlocal | exact Hlocal].
    + assert (supabase s' = Some r) as Hs' by exact Hs.
      unfold Api000.getEvents, bind at 1, get. rewrite Hs'.
      unfold tryCatch, bind at 1. rewrite (from_failing _ _ _ s' r Hs' He).
      destruct (events r); [contradiction | exact Hread | exact Hread].
  - intros Hd. split.
    + unfold Api000.saveDoc, bind at 1, get. rewrite Hs.
      unfold tryCatch, bind at 1. rewrite (from_failing _ _ _ s r Hs Hd).
      destruct (documents r); [contradiction | reflexivity | reflexivity].
    + unfold ApiV1.saveDoc, bind at 1, get. rewrite Hs.
      unfold bind at 1. rewrite (from_failing _ _ _ s r Hs Hd).
      destruct (documents r); [contradiction | reflexivity | reflexivity].
  - intros Hc.
    assert (forall D (q : list ChatRow -> response D * list ChatRow),
               Supabase.from chats set_chats q s
               = match chats r with Unreachable => Thrown s | _ => Returned failed s end)
      as Hfrom by (intros; apply from_failing; assumption).
    split.
    + unfold Api000.saveChat, bind at 1, get. rewrite Hs.
      unfold tryCatch, bind at 1. rewrite Hfrom.
      destruct (chats r) eqn:E; [contradiction | | reflexivity].
      cbn [data failed]. unfold bind at 1. rewrite Hfrom. reflexivity.
    + unfold ApiV1.saveChat, bind at 1, get. rewrite Hs.
      unfold bind at 1. rewrite Hfrom.
      destruct (chats r); [contradiction | reflexivity | reflexivity].
  - intros Hp.
    assert (forall D (q : list SettingRow -> response D * list SettingRow),
               Supabase.from system_settings set_system_settings q s
               = match system_settings r with Unreachable => Thrown s | _ => Returned failed s end)
      as Hfrom by (intros; apply from_failing; assumption).
    split.
    + unfold Api000.setMasterPrompt, bind at 1, get. rewrite Hs.
      unfold tryCatch, bind at 1. rewrite Hfrom.
      destruct (system_settings r) eqn:E; [contradiction | | reflexivity].
      cbn [data failed]. unfold bind at 1. rewrite Hfrom. reflexivity.
    + unfold ApiV1.setMasterPrompt, bind at 1, get. rewrite Hs.
      unfold bind at 1. rewrite Hfrom.
      destruct (system_settings r); [contradiction | reflexivity | reflexivity].
Qed.

Lemma writes_on_remote_failure_witness :
  Api000.saveEvent "local-user" Sample.staff_meeting Sample.remote_missing
  = Returned tt {| localStorage := <[EVENTS_PREFIX +:+ "local-user" := JArr ([] ++ [of_event Sample.staff_meeting])]>
                                     (localStorage Sample.remote_missing);
                   supabase := supabase Sample.remote_missing |}
  /\ Api000.saveDoc Sample.notes_doc Sample.remote_missing = Returned tt Sample.remote_missing
  /\ ApiV1.saveDoc Sample.notes_doc Sample.remote_missing = Thrown Sample.remote_missing
  /\ Api000.saveChat "local-user" Sample.transcript Sample.remote_missing
     = Returned tt Sample.remote_missing
  /\ ApiV1.setMasterPrompt "Be brief." Sample.remote_missing = Thrown Sample.remote_missing.
Proof.
  pose proof (writes_on_remote_failure Sample.remote_missing
                {| documents := Missing; chats := Missing; events := Missing;
                   system_settings := Missing |}
                Sample.notes_doc "local-user" Sample.transcript Sample.staff_meeting
                "Be brief." [] eq_refl)
    as (He & Hd & Hc & Hp).
  split; [apply (He I eq_refl) |].
  split; [apply (Hd I) |]. split; [apply (Hd I) |].
  split; [apply (Hc I) | apply (Hp I)].
Defined.

(** C5 as stated fails: with the [documents] table missing, [saveDoc] of
    part_000:162 returns with the document in neither store (a later
    [getDocs] finds nothing), and [saveDoc] of index.tsx:141 rejects. *)
Lemma remote_failure_loses_document :
  Api000.saveDoc Sample.notes_doc Sample.remote_missing = Returned tt Sample.remote_missing
  /\ localStorage Sample.remote_missing !! (DOCS_PREFIX +:+ doc_user_id Sample.notes_doc) = None
  /\ Api000.getDocs (doc_user_id Sample.notes_doc) Sample.remote_missing
     = Returned (JArr []) Sample.remote_missing
  /\ ApiV1.saveDoc Sample.notes_doc Sample.remote_missing = Thrown Sample.remote_missing.
Proof. repeat split. Qed.

(** * Further properties *)

(** ** The system instruction *)

Lemma getMasterPrompt_000_one_row s r rows row :
  supabase s = Some r -> system_settings r = Present rows ->
  List.filter is_master_prompt rows = [row] ->
  Api000.getMasterPrompt s = Returned (value_or_default (Some row)) s.
Proof.
  intros Hs Hc Hf. unfold Api000.getMasterPrompt, bind at 1, get. rewrite Hs.
  unfold bind, Supabase.from, Supabase.maybeSingle, ret. rewrite Hs, Hc, Hf.
  rewrite <- Hc, set_system_settings_id, <- Hs, store_eta. reflexivity.
Qed.

Lemma getMasterPrompt_v1_one_row s r rows row :
  supabase s = Some r -> system_settings r = Present rows ->
  List.filter is_master_prompt rows = [row] ->
  ApiV1.getMasterPrompt s = Returned (value_or_default (Some row)) s.
Proof.
  intros Hs Hc Hf. unfold ApiV1.getMasterPrompt, bind at 1, get. rewrite Hs.
  unfold bind, Supabase.from, Supabase.single, ret. rewrite Hs, Hc, Hf.
  rewrite <- Hc, set_system_settings_id, <- Hs, store_eta. reflexivity.
Qed.

(** Saving with part_000:281 leaves one row with the key of the master
    prompt, with the prompt in it. *)
Lemma setMasterPrompt_000_one_row prompt s r rows :
  supabase s = Some r -> system_settings r = Present rows ->
  (length (List.filter is_master_prompt rows) <= 1)%nat ->
  exists s1 r1 rows1 row1,
    Api000.setMasterPrompt prompt s = Returned tt s1
    /\ supabase s1 = Some r1 /\ system_settings r1 = Present rows1
    /\ List.filter is_master_prompt rows1 = [row1]
    /\ setting_value row1 = prompt.
Proof.
  intros Hs Hc Hlen. unfold Api000.setMasterPrompt, bind at 1, get. rewrite Hs.
  unfold tryCatch, bind, Supabase.from, Supabase.maybeSingle, Supabase.update,
    Supabase.insert, ret. rewrite Hs, Hc.
  destruct (List.filter is_master_prompt rows) as [| row [| row' rest]] eqn:Hf;
    cbn [data ok no_row supabase localStorage system_settings set_system_settings].
  - do 4 eexists. split; [reflexivity |]. split; [reflexivity |]. split; [reflexivity |].
    split.
    + rewrite List.filter_app, Hf. reflexivity.
    + reflexivity.
  - assert (is_master_prompt row = true) as Hrow.
    { assert (In row (List.filter is_master_prompt rows)) as Hin by (rewrite Hf; left; reflexivity).
      apply List.filter_In in Hin. tauto. }
    do 4 eexists. split; [reflexivity |]. split; [reflexivity |]. split; [reflexivity |].
    rewrite filter_map_same.
    + rewrite Hf. cbn. rewrite Hrow. split; reflexivity.
    + intros a. destruct (is_master_prompt a) eqn:Ha; [exact Ha | exact Ha].
  - cbn in Hlen. lia.
Qed.

(** Saving with index.tsx:191 does the same. *)
Lemma setMasterPrompt_v1_one_row prompt s r rows :
  supabase s = Some r -> system_settings r = Present rows ->
  (length (List.filter is_master_prompt rows) <= 1)%nat ->
  exists s1 r1 rows1 row1,
    ApiV1.setMasterPrompt prompt s = Returned tt s1
    /\ supabase s1 = Some r1 /\ system_settings r1 = Present rows1
    /\ List.filter is_master_prompt rows1 = [row1]
    /\ setting_value row1 = prompt.
Proof.
  intros Hs Hc Hlen. unfold ApiV1.setMasterPrompt, bind at 1, get. rewrite Hs.
  unfold bind, Supabase.from, Supabase.upsert, ret. rewrite Hs, Hc.
  destruct (existsb is_master_prompt rows) eqn:He;
    cbn [data ok no_row error supabase localStorage system_settings set_system_settings].
  - destruct (List.filter is_master_prompt rows) as [| row [| row' rest]] eqn:Hf.
    + apply existsb_filter_nil in Hf. congruence.
    + assert (is_master_prompt row = true) as Hrow.
      { assert (In row (List.filter is_master_prompt rows)) as Hin by (rewrite Hf; left; reflexivity).
        apply List.filter_In in Hin. tauto. }
      do 4 eexists. split; [reflexivity |]. split; [reflexivity |]. split; [reflexivity |].
      rewrite filter_map_same.
      * rewrite Hf. cbn. rewrite Hrow. split; reflexivity.
      * intros a. destruct (is_master_prompt a) eqn:Ha; [reflexivity | exact Ha].
    + cbn in Hlen. lia.
  - apply existsb_filter_nil in He.
    do 4 eexists. split; [reflexivity |]. split; [reflexivity |]. split; [reflexivity |].
    split.
    + rewrite List.filter_app, He. reflexivity.
    + reflexivity.
Qed.

Lemma master_prompt_local prompt ls :
  let s1 := {| localStorage := <[MASTER_PROMPT_KEY := JStr prompt]> ls; supabase := None |} in
  ApiLocal.getMasterPrompt s1
  = Returned (if Js.truthy prompt then prompt else DEFAULT_SYSTEM_INSTRUCTION) s1.
Proof.
  intros s1. unfold ApiLocal.getMasterPrompt, bind, LocalStorage.getItem, ret. subst s1.
  cbn [localStorage]. rewrite lookup_insert_eq. reflexivity.
Qed.

(** X1. The system instruction an administrator saves is the one every
    later request is built from: [getMasterPrompt] after
    [setMasterPrompt p] returns [p], in the local store and in a remote
    store whose settings table holds at most one master-prompt row (which
    the save keeps). The empty instruction is the exception: saving it
    makes the default instruction come back. *)
Theorem master_prompt_round_trip (prompt : string) (s : Store) :
  settings_usable s ->
  let shown := if Js.truthy prompt then prompt else DEFAULT_SYSTEM_INSTRUCTION in
  (exists s1, Api000.setMasterPrompt prompt s = Returned tt s1
      /\ Api000.getMasterPrompt s1 = Returned shown s1
      /\ settings_usable s1)
  /\ (exists s1, ApiV1.setMasterPrompt prompt s = Returned tt s1
      /\ ApiV1.getMasterPrompt s1 = Returned shown s1
      /\ settings_usable s1).
Proof.
  intros H shown. subst shown. unfold settings_usable in *.
  destruct (supabase s) as [r|] eqn:Hs.
  - destruct (system_settings r) as [rows | |] eqn:Hc; try contradiction. split.
    + destruct (setMasterPrompt_000_one_row prompt s r rows Hs Hc H)
        as (s1 & r1 & rows1 & row1 & E & Hs1 & Hc1 & Hf1 & Hv).
      exists s1. split; [exact E |].
      rewrite (getMasterPrompt_000_one_row s1 r1 rows1 row1 Hs1 Hc1 Hf1).
      unfold value_or_default. rewrite Hv. split; [reflexivity |].
      rewrite Hs1, Hc1, Hf1. cbn. lia.
    + destruct (setMasterPrompt_v1_one_row prompt s r rows Hs Hc H)
        as (s1 & r1 & rows1 & row1 & E & Hs1 & Hc1 & Hf1 & Hv).
      exists s1. split; [exact E |].
      rewrite (getMasterPrompt_v1_one_row s1 r1 rows1 row1 Hs1 Hc1 Hf1).
      unfold value_or_default. rewrite Hv. split; [reflexivity |].
      rewrite Hs1, Hc1, Hf1. cbn. lia.
  - destruct s as [ls sb]. cbn in Hs. subst sb. split.
    + eexists. split; [reflexivity |]. split; [| exact I].
      exact (master_prompt_local prompt ls).
    + eexists. split; [reflexivity |]. split; [| exact I].
      exact (master_prompt_local prompt ls).
Qed.

Lemma master_prompt_round_trip_witness :
  (exists s1, Api000.setMasterPrompt "Be brief." Sample.remote_empty = Returned tt s1
      /\ Api000.getMasterPrompt s1 = Returned "Be brief." s1)
  /\ (exists s1, ApiV1.setMasterPrompt EmptyString Sample.local_store = Returned tt s1
      /\ ApiV1.getMasterPrompt s1 = Returned DEFAULT_SYSTEM_INSTRUCTION s1).
Proof.
  split.
  - assert (settings_usable Sample.remote_empty) as H by (vm_compute; lia).
    destruct (master_prompt_round_trip "Be brief." Sample.remote_empty H)
      as ((s1 & E1 & E2 & _) & _).
    exists s1. split; assumption.
  - assert (settings_usable Sample.local_store) as H by (vm_compute; exact I).
    destruct (master_prompt_round_trip EmptyString Sample.local_store H)
      as (_ & (s1 & E1 & E2 & _)).
    exists s1. split; assumption.
Defined.

(** ** What the reads answer *)

Lemma set_documents_id r : set_documents (documents r) r = r.
Proof. destruct r; reflexivity. Qed.

Lemma set_events_id r : set_events (events r) r = r.
Proof. destruct r; reflexivity. Qed.

(** A query that leaves the rows as they are leaves the store as it is. *)
Lemma from_read {R D} (tbl : Remote -> remote_table R) upd
    (q : list R -> response D * list R) s r :
  supabase s = Some r ->
  (forall rows, snd (q rows) = rows) ->
  (forall r, upd (tbl r) r = r) ->
  Supabase.from tbl upd q s =
    match tbl r with
    | Present rows => Returned (fst (q rows)) s
    | Missing => Returned failed s
    | Unreachable => Thrown s
    end.
Proof.
  intros Hs Hq Hupd. unfold Supabase.from. rewrite Hs.
  destruct (tbl r) as [rows | |] eqn:Ht; try reflexivity.
  specialize (Hq rows). destruct (q rows) as [resp rows']. cbn in Hq. subst rows'.
  rewrite <- Ht, Hupd, <- Hs, store_eta. reflexivity.
Qed.

(** [getDocs] of part_000:177, read off the stores. *)
Lemma getDocs_answer userId s :
  Api000.getDocs userId s =
    match supabase s with
    | None => Returned (parsed_or_empty (localStorage s !! (DOCS_PREFIX +:+ userId))) s
    | Some r =>
        match documents r with
        | Present rows =>
            Returned (JArr (Json.of_doc <$>
                              List.filter (fun d => String.eqb (doc_user_id d) userId) rows)) s
        | Missing => Returned (JArr []) s
        | Unreachable => Thrown s
        end
    end.
Proof.
  unfold Api000.getDocs, bind at 1, get.
  destruct (supabase s) as [r|] eqn:Hs; [| reflexivity].
  unfold bind. rewrite (from_read _ _ _ s r Hs); [| reflexivity | apply set_documents_id].
  destruct (documents r); reflexivity.
Qed.

(** [getChat] of part_000:204 and index.tsx:173. *)
Lemma getChat_answer userId s :
  Api000.getChat userId s =
    match supabase s with
    | None => Returned (parsed_or_empty (localStorage s !! (CHAT_PREFIX +:+ userId))) s
    | Some r =>
        match chats r with
        | Present rows =>
            Returned (messages_or_empty (data (fst (Supabase.single (of_user userId) rows)))) s
        | Missing => Returned (JArr []) s
        | Unreachable => Thrown s
        end
    end.
Proof.
  unfold Api000.getChat, bind at 1, get.
  destruct (supabase s) as [r|] eqn:Hs; [| reflexivity].
  unfold bind. rewrite (from_read _ _ _ s r Hs); [| | apply set_chats_id].
  - destruct (chats r); reflexivity.
  - intros rows. unfold Supabase.single.
    destruct (List.filter (of_user userId) rows) as [| row [| row' rest]]; reflexivity.
Qed.

(** [getEvents] of part_000:214. *)
Lemma getEvents_answer userId s :
  Api000.getEvents userId s =
    match supabase s with
    | None => Returned (parsed_or_empty (localStorage s !! (EVENTS_PREFIX +:+ userId))) s
    | Some r =>
        match events r with
        | Present rows =>
            Returned (JArr (of_event_row <$>
                              List.filter (fun e => String.eqb (evr_user_id e) userId) rows)) s
        | _ => Returned (parsed_or_empty (localStorage s !! (EVENTS_PREFIX +:+ userId))) s
        end
    end.
Proof.
  unfold Api000.getEvents, bind at 1, get.
  destruct (supabase s) as [r|] eqn:Hs; [| reflexivity].
  unfold tryCatch, bind at 1. rewrite (from_read _ _ _ s r Hs); [| reflexivity | apply set_events_id].
  destruct (events r); reflexivity.
Qed.

(** [getMasterPrompt] of part_000:273. *)
Lemma getMasterPrompt_answer s :
  Api000.getMasterPrompt s =
    match supabase s with
    | None => ApiLocal.getMasterPrompt s
    | Some r =>
        match system_settings r with
        | Present rows =>
            Returned (value_or_default (data (fst (Supabase.maybeSingle is_master_prompt rows)))) s
        | Missing => Returned DEFAULT_SYSTEM_INSTRUCTION s
        | Unreachable => Thrown s
        end
    end.
Proof.
  unfold Api000.getMasterPrompt, bind at 1, get.
  destruct (supabase s) as [r|] eqn:Hs; [| reflexivity].
  unfold bind. rewrite (from_read _ _ _ s r Hs); [| | apply set_system_settings_id].
  - destruct (system_settings r); reflexivity.
  - intros rows. unfold Supabase.maybeSingle.
    destruct (List.filter is_master_prompt rows) as [| row [| row' rest]]; reflexivity.
Qed.

(** [getMasterPrompt] of index.tsx:183. *)
Lemma getMasterPrompt_v1_answer s :
  ApiV1.getMasterPrompt s =
    match supabase s with
    | None => ApiLocal.getMasterPrompt s
    | Some r =>
        match system_settings r with
        | Present rows =>
            Returned (value_or_default (data (fst (Supabase.single is_master_prompt rows)))) s
        | Missing => Returned DEFAULT_SYSTEM_INSTRUCTION s
        | Unreachable => Thrown s
        end
    end.
Proof.
  unfold ApiV1.getMasterPrompt, bind at 1, get.
  destruct (supabase s) as [r|] eqn:Hs; [| reflexivity].
  unfold bind. rewrite (from_read _ _ _ s r Hs); [| | apply set_system_settings_id].
  - destruct (system_settings r); reflexivity.
  - intros rows. unfold Supabase.single.
    destruct (List.filter is_master_prompt rows) as [| row [| row' rest]]; reflexivity.
Qed.

(** X2. Reads when the remote store fails. With a table missing (the call
    resolves with an error), [getDocs] and [getChat] answer the empty list
    and [getMasterPrompt] the default instruction, whatever the local
    store holds; with the store unreachable they reject, since no read but
    [getEvents] is wrapped in a try block. [getEvents] answers in both
    cases, with the events of the local store. No read changes a store. *)
Theorem reads_on_remote_failure (s : Store) (r : Remote) (userId : string) :
  supabase s = Some r ->
  (failing (documents r) ->
   Api000.getDocs userId s = match documents r with
                             | Unreachable => Thrown s
                             | _ => Returned (JArr []) s
                             end)
  /\ (failing (chats r) ->
      Api000.getChat userId s = match chats r with
                                | Unreachable => Thrown s
                                | _ => Returned (JArr []) s
                                end)
  /\ (failing (system_settings r) ->
      Api000.getMasterPrompt s = match system_settings r with
                                 | Unreachable => Thrown s
                                 | _ => Returned DEFAULT_SYSTEM_INSTRUCTION s
                                 end
      /\ ApiV1.getMasterPrompt s = Api000.getMasterPrompt s)
  /\ (failing (events r) ->
      Api000.getEvents userId s
      = Returned (parsed_or_empty (localStorage s !! (EVENTS_PREFIX +:+ userId))) s).
Proof.
  intros Hs. split; [| split; [| split]].
  - intros Hf. rewrite getDocs_answer, Hs. destruct (documents r); [contradiction | |]; reflexivity.
  - intros Hf. rewrite getChat_answer, Hs. destruct (chats r); [contradiction | |]; reflexivity.
  - intros Hf. rewrite getMasterPrompt_v1_answer, getMasterPrompt_answer, Hs.
    destruct (system_settings r); [contradiction | |]; split; reflexivity.
  - intros Hf. rewrite getEvents_answer, Hs.
    destruct (events r); [contradiction | |]; reflexivity.
Qed.

Lemma reads_on_remote_failure_witness :
  Api000.getDocs "local-user" Sample.remote_missing = Returned (JArr []) Sample.remote_missing
  /\ Api000.getChat "local-user" Sample.remote_missing = Returned (JArr []) Sample.remote_missing
  /\ Api000.getMasterPrompt Sample.remote_missing
     = Returned DEFAULT_SYSTEM_INSTRUCTION Sample.remote_missing
  /\ Api000.getEvents "local-user" Sample.remote_missing
     = Returned (JArr []) Sample.remote_missing.
Proof.
  pose proof (reads_on_remote_failure Sample.remote_missing
                {| documents := Missing; chats := Missing; events := Missing;
                   system_settings := Missing |} "local-user" eq_refl)
    as (Hd & Hc & Hp & He).
  split; [apply (Hd I) |]. split; [apply (Hc I) |].
  split; [apply (Hp I) | apply (He I)].
Defined.

(** ** Transcripts: rows of the owner *)

Lemma filter_update_same {A} (p q : A -> bool) (g : A -> A) l :
  (forall a, q a = true -> p (g a) = p a) ->
  List.filter p (List.map (fun a => if q a then g a else a) l)
  = List.map (fun a => if q a then g a else a) (List.filter p l).
Proof.
  intros H. induction l as [| a l IH]; cbn; [reflexivity |].
  destruct (q a) eqn:Hq.
  - rewrite (H a Hq). destruct (p a); cbn; rewrite ?Hq, IH; reflexivity.
  - destruct (p a); cbn; rewrite ?Hq, IH; reflexivity.
Qed.

(** The rows [saveChat] of part_000:187 leaves in a present table: the
    rows with the key of the owner's single row updated, or a row added. *)
Lemma saveChat_000_rows userId ms s r rows :
  supabase s = Some r -> chats r = Present rows ->
  Api000.saveChat userId ms s =
    Returned tt
      {| localStorage := localStorage s;
         supabase := Some (set_chats
           (Present
              match List.filter (of_user userId) rows with
              | [row] =>
                  List.map (fun c => if chat_row_id c =? chat_row_id row
                                     then {| chat_row_id := chat_row_id c;
                                             chat_user_id := chat_user_id c;
                                             chat_messages := Json.of_messages ms |}
                                     else c) rows
              | _ => rows ++ [{| chat_row_id := Supabase.next_id rows;
                                 chat_user_id := userId;
                                 chat_messages := Json.of_messages ms |}]
              end) r) |}.
Proof.
  intros Hs Hc. unfold Api000.saveChat, bind at 1, get. rewrite Hs.
  unfold tryCatch, bind, Supabase.from, Supabase.maybeSingle, Supabase.update,
    Supabase.insert, ret. rewrite Hs, Hc.
  destruct (List.filter (of_user userId) rows) as [| row [| row' rest]] eqn:Hf;
    cbn [data ok no_row failed supabase localStorage chats set_chats]; destruct r; reflexivity.
Qed.

(** The rows [saveChat] of index.tsx:165 leaves in a present table. *)
Lemma saveChat_v1_rows userId ms s r rows :
  supabase s = Some r -> chats r = Present rows ->
  ApiV1.saveChat userId ms s =
    Returned tt
      {| localStorage := localStorage s;
         supabase := Some (set_chats
           (Present
              (if existsb (of_user userId) rows
               then List.map (fun c => if of_user userId c
                                       then {| chat_row_id := chat_row_id c;
                                               chat_user_id := userId;
                                               chat_messages := Json.of_messages ms |}
                                       else c) rows
               else rows ++ [{| chat_row_id := Supabase.next_id rows;
                                chat_user_id := userId;
                                chat_messages := Json.of_messages ms |}])) r) |}.
Proof.
  intros Hs Hc. unfold ApiV1.saveChat, bind at 1, get. rewrite Hs.
  unfold bind, Supabase.from, Supabase.upsert, ret. rewrite Hs, Hc.
  destruct (existsb (of_user userId) rows); reflexivity.
Qed.

(** X3. The transcript of an owner with several rows in the [chats] table
    cannot be read: [getChat] asks for a single row, so it answers the
    empty list, and it still does after a save, which in part_000 adds one
    more row of the owner and in index.tsx updates all of them. *)
Theorem duplicate_rows_hide_transcript (userId : string) (ms : list Message)
    (s : Store) (r : Remote) (rows : list ChatRow) :
  supabase s = Some r -> chats r = Present rows ->
  (2 <= length (List.filter (of_user userId) rows))%nat ->
  Api000.getChat userId s = Returned (JArr []) s
  /\ (exists s1, Api000.saveChat userId ms s = Returned tt s1
                 /\ Api000.getChat userId s1 = Returned (JArr []) s1)
  /\ (exists s1, ApiV1.saveChat userId ms s = Returned tt s1
                 /\ ApiV1.getChat userId s1 = Returned (JArr []) s1).
Proof.
  intros Hs Hc Hlen.
  assert (forall s' r' rows', supabase s' = Some r' -> chats r' = Present rows' ->
            (2 <= length (List.filter (of_user userId) rows'))%nat ->
            Api000.getChat userId s' = Returned (JArr []) s') as Hread.
  { intros s' r' rows' Hs' Hc' Hl. rewrite getChat_answer, Hs', Hc'.
    unfold Supabase.single.
    destruct (List.filter (of_user userId) rows') as [| a [| b l]]; cbn in Hl; try lia.
    reflexivity. }
  split; [eapply Hread; eauto |]. split.
  - eexists. split; [apply (saveChat_000_rows userId ms s r rows Hs Hc) |].
    eapply Hread; [reflexivity | reflexivity |].
    destruct (List.filter (of_user userId) rows) as [| a [| b l]] eqn:Hf; cbn in Hlen; try lia.
    rewrite List.filter_app, Hf. cbn. rewrite length_app. cbn. lia.
  - eexists. split; [apply (saveChat_v1_rows userId ms s r rows Hs Hc) |].
    unfold ApiV1.getChat. eapply Hread; [reflexivity | reflexivity |].
    destruct (existsb (of_user userId) rows) eqn:He.
    + rewrite filter_update_same.
      * rewrite length_map. exact Hlen.
      * intros a Ha. rewrite Ha. apply of_user_refl.
    + apply existsb_filter_nil in He. rewrite He in Hlen. cbn in Hlen. lia.
Qed.

Lemma duplicate_rows_hide_transcript_witness :
  Api000.getChat "local-user" Sample.remote_two_rows = Returned (JArr []) Sample.remote_two_rows
  /\ (exists s1, Api000.saveChat "local-user" Sample.transcript Sample.remote_two_rows
                 = Returned tt s1
                 /\ Api000.getChat "local-user" s1 = Returned (JArr []) s1)
  /\ (exists s1, ApiV1.saveChat "local-user" Sample.transcript Sample.remote_two_rows
                 = Returned tt s1
                 /\ ApiV1.getChat "local-user" s1 = Returned (JArr []) s1).
Proof.
  apply (duplicate_rows_hide_transcript "local-user" Sample.transcript Sample.remote_two_rows
           {| documents := Present []; chats := Present Sample.two_rows;
              events := Present []; system_settings := Present [] |}
           Sample.two_rows eq_refl eq_refl).
  vm_compute. lia.
Defined.

(** ** Keys of the local store *)

Lemma append_inv_head a b c : a +:+ b = a +:+ c -> b = c.
Proof.
  induction a as [| x a IH]; intros H; [exact H |].
  change (String x (a +:+ b) = String x (a +:+ c)) in H.
  injection H as H. auto.
Qed.

Lemma chat_key_not_docs a b : CHAT_PREFIX +:+ a <> DOCS_PREFIX +:+ b.
Proof. intros H. vm_compute in H. discriminate H. Qed.

Lemma chat_key_not_events a b : CHAT_PREFIX +:+ a <> EVENTS_PREFIX +:+ b.
Proof. intros H. vm_compute in H. discriminate H. Qed.

Lemma chat_key_not_prompt a : CHAT_PREFIX +:+ a <> MASTER_PROMPT_KEY.
Proof. intros H. vm_compute in H. discriminate H. Qed.

Lemma docs_key_not_events a b : DOCS_PREFIX +:+ a <> EVENTS_PREFIX +:+ b.
Proof. intros H. vm_compute in H. discriminate H. Qed.

Lemma docs_key_not_prompt a : DOCS_PREFIX +:+ a <> MASTER_PROMPT_KEY.
Proof. intros H. vm_compute in H. discriminate H. Qed.

Lemma events_key_not_prompt a : EVENTS_PREFIX +:+ a <> MASTER_PROMPT_KEY.
Proof. intros H. vm_compute in H. discriminate H. Qed.

(** ** A save of a transcript and the other entities *)

Lemma NoDup_map_same {A B} (f : A -> B) l a b :
  NoDup (List.map f l) -> In a l -> In b l -> f a = f b -> a = b.
Proof.
  induction l as [| x l IH]; cbn; intros Hnd Ha Hb Hf; [contradiction |].
  apply NoDup_cons in Hnd as [Hx Hnd].
  destruct Ha as [-> | Ha], Hb as [-> | Hb]; auto.
  - exfalso. apply Hx, list_elem_of_In. rewrite Hf. apply List.in_map. exact Hb.
  - exfalso. apply Hx, list_elem_of_In. rewrite <- Hf. apply List.in_map. exact Ha.
Qed.

Lemma of_user_other userId other c :
  other <> userId -> of_user userId c = true -> of_user other c = false.
Proof.
  unfold of_user. intros Hne H. apply String.eqb_eq in H.
  apply String.eqb_neq. congruence.
Qed.

Lemma of_user_other_new userId other i j :
  other <> userId ->
  of_user other {| chat_row_id := i; chat_user_id := userId; chat_messages := j |} = false.
Proof. intros Hne. exact (of_user_other userId other _ Hne (of_user_refl userId i j)). Qed.

(** The rows of another owner after [saveChat] of part_000:187. *)
Lemma saveChat_000_other_rows userId other ms rows :
  other <> userId -> NoDup (List.map chat_row_id rows) ->
  List.filter (of_user other)
    match List.filter (of_user userId) rows with
    | [row] =>
        List.map (fun c => if chat_row_id c =? chat_row_id row
                           then {| chat_row_id := chat_row_id c;
                                   chat_user_id := chat_user_id c;
                                   chat_messages := Json.of_messages ms |}
                           else c) rows
    | _ => rows ++ [{| chat_row_id := Supabase.next_id rows;
                       chat_user_id := userId;
                       chat_messages := Json.of_messages ms |}]
    end
  = List.filter (of_user other) rows.
Proof.
  intros Hne Hnd.
  assert (List.filter (of_user other)
            (rows ++ [{| chat_row_id := Supabase.next_id rows; chat_user_id := userId;
                         chat_messages := Json.of_messages ms |}])
          = List.filter (of_user other) rows) as Happ.
  { rewrite List.filter_app. cbn [List.filter].
    rewrite of_user_other_new by assumption.
    apply app_nil_r. }
  destruct (List.filter (of_user userId) rows) as [| row [| row' rest]] eqn:Hf; try exact Happ.
  assert (In row rows /\ of_user userId row = true) as [Hin Hrow].
  { apply List.filter_In. rewrite Hf. left. reflexivity. }
  rewrite filter_update_same by (intros a _; reflexivity).
  rewrite <- (List.map_id (List.filter (of_user other) rows)) at 2.
  apply List.map_ext_in. intros c Hc. apply List.filter_In in Hc as [Hc Hoc].
  destruct (Z.eqb_spec (chat_row_id c) (chat_row_id row)) as [E |]; [| reflexivity].
  assert (c = row) by (eapply NoDup_map_same; eauto). subst c.
  rewrite (of_user_other userId other row Hne Hrow) in Hoc. discriminate Hoc.
Qed.

(** The rows of another owner after [saveChat] of index.tsx:165. *)
Lemma saveChat_v1_other_rows userId other ms rows :
  other <> userId ->
  List.filter (of_user other)
    (if existsb (of_user userId) rows
     then List.map (fun c => if of_user userId c
                             then {| chat_row_id := chat_row_id c;
                                     chat_user_id := userId;
                                     chat_messages := Json.of_messages ms |}
                             else c) rows
     else rows ++ [{| chat_row_id := Supabase.next_id rows;
                      chat_user_id := userId;
                      chat_messages := Json.of_messages ms |}])
  = List.filter (of_user other) rows.
Proof.
  intros Hne. destruct (existsb (of_user userId) rows).
  - induction rows as [| c rows IH]; [reflexivity |]. cbn [List.filter List.map].
    destruct (of_user userId c) eqn:Hc.
    + rewrite of_user_other_new by assumption.
      rewrite (of_user_other userId other c Hne Hc). exact IH.
    + destruct (of_user other c); rewrite IH; reflexivity.
  - rewrite List.filter_app. cbn [List.filter].
    rewrite of_user_other_new by assumption.
    apply app_nil_r.
Qed.

Lemma single_fst {R} (p : R -> bool) (rows rows' : list R) :
  List.filter p rows' = List.filter p rows ->
  fst (Supabase.single p rows') = fst (Supabase.single p rows).
Proof.
  unfold Supabase.single. intros ->.
  destruct (List.filter p rows) as [| a [| b l]]; reflexivity.
Qed.

Lemma saveChat_000_failing userId ms s r :
  supabase s = Some r -> failing (chats r) -> Api000.saveChat userId ms s = Returned tt s.
Proof.
  intros Hs Hc.
  assert (forall D (q : list ChatRow -> response D * list ChatRow),
             Supabase.from chats set_chats q s
             = match chats r with Unreachable => Thrown s | _ => Returned failed s end)
    as Hfrom by (intros; apply from_failing; assumption).
  unfold Api000.saveChat, bind at 1, get. rewrite Hs.
  unfold tryCatch, bind at 1. rewrite Hfrom.
  destruct (chats r) eqn:E; [contradiction | | reflexivity].
  cbn [data failed]. unfold bind at 1. rewrite Hfrom. reflexivity.
Qed.

Lemma saveChat_v1_failing userId ms s r :
  supabase s = Some r -> failing (chats r) -> state_of (ApiV1.saveChat userId ms s) = s.
Proof.
  intros Hs Hc. unfold ApiV1.saveChat, bind at 1, get. rewrite Hs.
  unfold bind at 1. rewrite (from_failing _ _ _ s r Hs Hc).
  destruct (chats r); [contradiction | reflexivity | reflexivity].
Qed.

(** X4. A save of one owner's transcript changes nothing else: another
    owner's transcript, the documents, the events and the system
    instruction read as before, in either store. With [saveChat] of
    part_000, which updates by the key of the row, this needs the rows of
    the table to bear different keys; [saveChat] of index.tsx, which
    upserts on the owner, needs nothing. *)
Theorem saveChat_touches_one_transcript (userId other anyone : string)
    (ms : list Message) (s : Store) :
  other <> userId ->
  (chat_ids_differ s ->
   value_of (Api000.getChat other (state_of (Api000.saveChat userId ms s)))
   = value_of (Api000.getChat other s))
  /\ value_of (ApiV1.getChat other (state_of (ApiV1.saveChat userId ms s)))
     = value_of (ApiV1.getChat other s)
  /\ value_of (Api000.getDocs anyone (state_of (Api000.saveChat userId ms s)))
     = value_of (Api000.getDocs anyone s)
  /\ value_of (Api000.getEvents anyone (state_of (Api000.saveChat userId ms s)))
     = value_of (Api000.getEvents anyone s)
  /\ value_of (Api000.getMasterPrompt (state_of (Api000.saveChat userId ms s)))
     = value_of (Api000.getMasterPrompt s).
Proof.
  intros Hne. unfold ApiV1.getChat, chat_ids_differ.
  destruct s as [ls [r|]]; cbn [supabase].
  - destruct (chats r) as [rows | |] eqn:Hc.
    + rewrite (saveChat_000_rows userId ms {| localStorage := ls; supabase := Some r |} r rows eq_refl Hc).
      rewrite (saveChat_v1_rows userId ms {| localStorage := ls; supabase := Some r |} r rows eq_refl Hc).
      cbn [state_of localStorage]. rewrite !getChat_answer, getDocs_answer, getEvents_answer,
        getMasterPrompt_answer, (getDocs_answer anyone), (getEvents_answer anyone),
        (getMasterPrompt_answer {| localStorage := ls; supabase := Some r |}).
      cbn [supabase localStorage set_chats chats documents events system_settings].
      rewrite Hc.
      split; [| split; [| split; [| split]]].
      * intros Hnd.
        rewrite (single_fst _ _ _ (saveChat_000_other_rows userId other ms rows Hne Hnd)).
        reflexivity.
      * rewrite (single_fst _ _ _ (saveChat_v1_other_rows userId other ms rows Hne)).
        reflexivity.
      * destruct (documents r); reflexivity.
      * destruct (events r); reflexivity.
      * destruct (system_settings r); reflexivity.
    + rewrite (saveChat_000_failing userId ms {| localStorage := ls; supabase := Some r |} r eq_refl) by (rewrite Hc; exact I).
      rewrite (saveChat_v1_failing userId ms {| localStorage := ls; supabase := Some r |} r eq_refl) by (rewrite Hc; exact I).
      cbn [state_of]. repeat split; reflexivity.
    + rewrite (saveChat_000_failing userId ms {| localStorage := ls; supabase := Some r |} r eq_refl) by (rewrite Hc; exact I).
      rewrite (saveChat_v1_failing userId ms {| localStorage := ls; supabase := Some r |} r eq_refl) by (rewrite Hc; exact I).
      cbn [state_of]. repeat split; reflexivity.
  - change (Api000.saveChat userId ms {| localStorage := ls; supabase := None |})
      with (Returned (S := Store) tt
              {| localStorage := <[CHAT_PREFIX +:+ userId := Json.of_messages ms]> ls;
                 supabase := None |}).
    change (ApiV1.saveChat userId ms {| localStorage := ls; supabase := None |})
      with (Returned (S := Store) tt
              {| localStorage := <[CHAT_PREFIX +:+ userId := Json.of_messages ms]> ls;
                 supabase := None |}).
    cbn [state_of]. rewrite !getChat_answer, !getDocs_answer, !getEvents_answer,
      !getMasterPrompt_answer.
    cbn [supabase localStorage]. unfold ApiLocal.getMasterPrompt, bind, LocalStorage.getItem, ret.
    cbn [localStorage value_of].
    assert (CHAT_PREFIX +:+ userId <> CHAT_PREFIX +:+ other) as Hk
      by (intros H; apply append_inv_head in H; congruence).
    rewrite !lookup_insert_ne
      by first [exact Hk | apply chat_key_not_docs | apply chat_key_not_events
               | apply chat_key_not_prompt].
    repeat split; reflexivity.
Qed.

Lemma saveChat_touches_one_transcript_witness :
  value_of (Api000.getChat "other-user"
              (state_of (Api000.saveChat "local-user" [] Sample.remote_other)))
  = Some (Json.of_messages Sample.transcript)
  /\ value_of (ApiV1.getChat "other-user"
                 (state_of (ApiV1.saveChat "local-user" [] Sample.remote_other)))
     = Some (Json.of_messages Sample.transcript).
Proof.
  assert ("other-user" <> "local-user") as Hne by discriminate.
  destruct (saveChat_touches_one_transcript "local-user" "other-user" "other-user" []
              Sample.remote_other Hne) as (H0 & H1 & _).
  split.
  - rewrite H0; [reflexivity |]. vm_compute. apply NoDup_singleton.
  - rewrite H1. reflexivity.
Defined.

(** ** Documents *)

Lemma local_push s key current x :
  local_array s key = Some current ->
  LocalStorage.push (parsed_or_empty (localStorage s !! key)) x s
  = Returned (JArr (current ++ [x])) s.
Proof.
  unfold local_array, parsed_or_empty, LocalStorage.push, ret.
  destruct (localStorage s !! key) as [[| | | | l |] |]; intros H;
    try discriminate H; inversion H; subst; reflexivity.
Qed.

Lemma local_push_throws s key x :
  local_array s key = None ->
  LocalStorage.push (parsed_or_empty (localStorage s !! key)) x s = Thrown s.
Proof.
  unfold local_array, parsed_or_empty, LocalStorage.push, throw.
  destruct (localStorage s !! key) as [[| | | | l |] |]; intros H;
    try discriminate H; reflexivity.
Qed.

Lemma saveDoc_local doc s current :
  local_array s (DOCS_PREFIX +:+ doc_user_id doc) = Some current ->
  ApiLocal.saveDoc doc s
  = Returned tt {| localStorage := <[DOCS_PREFIX +:+ doc_user_id doc :=
                                       JArr (current ++ [Json.of_doc doc])]> (localStorage s);
                   supabase := supabase s |}.
Proof.
  intros H. unfold ApiLocal.saveDoc. cbv zeta. unfold bind at 1, LocalStorage.getItem.
  unfold bind at 1. rewrite (local_push s _ current _ H). reflexivity.
Qed.

(** X5. A document that is saved is listed: in the local store
    [getDocs] of the owner then answers the stored list with the document
    at its end, and in a remote store with the [documents] table present
    the owner's rows with the document at their end. When the value under
    the owner's key of the local store is not a list, the save rejects and
    writes nothing. [saveDoc] of index.tsx:141 does the same in these
    cases. *)
Theorem saved_document_is_listed (doc : DocumentFile) (s : Store) :
  (supabase s = None ->
   match local_array s (DOCS_PREFIX +:+ doc_user_id doc) with
   | Some current =>
       exists s1, Api000.saveDoc doc s = Returned tt s1
         /\ ApiV1.saveDoc doc s = Returned tt s1
         /\ Api000.getDocs (doc_user_id doc) s1
            = Returned (JArr (current ++ [Json.of_doc doc])) s1
   | None => Api000.saveDoc doc s = Thrown s /\ ApiV1.saveDoc doc s = Thrown s
   end)
  /\ (forall r rows, supabase s = Some r -> documents r = Present rows ->
      exists s1, Api000.saveDoc doc s = Returned tt s1
        /\ ApiV1.saveDoc doc s = Returned tt s1
        /\ Api000.getDocs (doc_user_id doc) s1
           = Returned (JArr (Json.of_doc <$>
                (List.filter (fun d => String.eqb (doc_user_id d) (doc_user_id doc)) rows
                 ++ [doc]))) s1).
Proof.
  split.
  - intros Hs. destruct s as [ls sb]. cbn [supabase] in Hs. subst sb.
    set (s := {| localStorage := ls; supabase := None |}).
    destruct (local_array s (DOCS_PREFIX +:+ doc_user_id doc)) as [current|] eqn:Hl.
    + eexists. split; [| split].
      * exact (saveDoc_local doc s current Hl).
      * exact (saveDoc_local doc s current Hl).
      * rewrite getDocs_answer. cbn [supabase localStorage s]. rewrite lookup_insert_eq.
        reflexivity.
    + assert (ApiLocal.saveDoc doc s = Thrown s) as E.
      { unfold ApiLocal.saveDoc. cbv zeta. unfold bind at 1, LocalStorage.getItem.
        unfold bind at 1. rewrite (local_push_throws s _ _ Hl). reflexivity. }
      split; exact E.
  - intros r rows Hs Hd. eexists. split; [| split].
    + unfold Api000.saveDoc, bind at 1, get. rewrite Hs.
      unfold tryCatch, bind, Supabase.from, Supabase.insert, ret. rewrite Hs, Hd. reflexivity.
    + unfold ApiV1.saveDoc, bind at 1, get. rewrite Hs.
      unfold bind, Supabase.from, Supabase.insert, ret. rewrite Hs, Hd. reflexivity.
    + rewrite getDocs_answer. cbn [supabase set_documents documents].
      rewrite List.filter_app. cbn [List.filter]. rewrite String.eqb_refl. reflexivity.
Qed.

Lemma saved_document_is_listed_witness :
  exists s1, Api000.saveDoc Sample.notes_doc Sample.local_store = Returned tt s1
    /\ ApiV1.saveDoc Sample.notes_doc Sample.local_store = Returned tt s1
    /\ Api000.getDocs "local-user" s1 = Returned (JArr [Json.of_doc Sample.notes_doc]) s1.
Proof.
  exact (proj1 (saved_document_is_listed Sample.notes_doc Sample.local_store) eq_refl).
Defined.

(** ** Events *)

(** Filtering stored events by id keeps the events with another id. *)
Lemma array_filter_events eventId evs :
  array_filter (ApiLocal.id_differs eventId) (of_event <$> evs)
  = Some (of_event <$> List.filter (fun e => negb (String.eqb (ev_id e) eventId)) evs).
Proof.
  induction evs as [| e evs IH]; [reflexivity |].
  cbn [fmap list_fmap array_filter List.filter]. fold (of_event <$> evs). rewrite IH.
  change (ApiLocal.id_differs eventId (of_event e))
    with (Some (negb (String.eqb (ev_id e) eventId))).
  destruct (negb (String.eqb (ev_id e) eventId)); reflexivity.
Qed.

Lemma deleteEvent_local userId eventId s l l' :
  local_array s (EVENTS_PREFIX +:+ userId) = Some l ->
  array_filter (ApiLocal.id_differs eventId) l = Some l' ->
  ApiLocal.deleteEvent userId eventId s
  = Returned tt {| localStorage := <[EVENTS_PREFIX +:+ userId := JArr l']> (localStorage s);
                   supabase := supabase s |}.
Proof.
  intros Hl Hf. unfold ApiLocal.deleteEvent, bind at 1, LocalStorage.getItem.
  unfold bind at 1, LocalStorage.filter, parsed_or_empty. unfold local_array in Hl.
  destruct (localStorage s !! (EVENTS_PREFIX +:+ userId)) as [[| | | | items |] |];
    try discriminate Hl; inversion Hl; subst; rewrite Hf; reflexivity.
Qed.

(** With the [events] table failing, the calls on events are the calls
    on the local store. *)
Lemma deleteEvent_falls_back userId eventId s :
  match supabase s with
  | None => True
  | Some r => failing (events r)
  end ->
  Api000.deleteEvent userId eventId s = ApiLocal.deleteEvent userId eventId s.
Proof.
  intros H. unfold Api000.deleteEvent, bind at 1, get.
  destruct (supabase s) as [r|] eqn:Hs; [| reflexivity].
  unfold tryCatch, bind at 1. rewrite (from_failing _ _ _ s r Hs H).
  destruct (events r); [contradiction | reflexivity | reflexivity].
Qed.

Lemma saveEvent_falls_back userId event s :
  match supabase s with
  | None => True
  | Some r => failing (events r)
  end ->
  Api000.saveEvent userId event s = ApiLocal.saveEvent userId event s.
Proof.
  intros H. unfold Api000.saveEvent, bind at 1, get.
  destruct (supabase s) as [r|] eqn:Hs; [| reflexivity].
  unfold tryCatch, bind at 1. rewrite (from_failing _ _ _ s r Hs H).
  destruct (events r); [contradiction | reflexivity | reflexivity].
Qed.

Lemma getEvents_local userId s l :
  match supabase s with
  | None => True
  | Some r => failing (events r)
  end ->
  Api000.getEvents userId
    {| localStorage := <[EVENTS_PREFIX +:+ userId := JArr l]> (localStorage s);
       supabase := supabase s |}
  = Returned (JArr l)
      {| localStorage := <[EVENTS_PREFIX +:+ userId := JArr l]> (localStorage s);
         supabase := supabase s |}.
Proof.
  intros H. rewrite getEvents_answer. cbn [supabase localStorage].
  rewrite lookup_insert_eq.
  destruct (supabase s) as [r|]; [| reflexivity].
  destruct (events r); [contradiction | reflexivity | reflexivity].
Qed.

Lemma saveEvent_local userId event s current :
  local_array s (EVENTS_PREFIX +:+ userId) = Some current ->
  ApiLocal.saveEvent userId event s
  = Returned tt {| localStorage := <[EVENTS_PREFIX +:+ userId :=
                                       JArr (current ++ [of_event event])]> (localStorage s);
                   supabase := supabase s |}.
Proof.
  intros H. unfold ApiLocal.saveEvent, bind at 1, LocalStorage.getItem.
  unfold bind at 1. rewrite (local_push s _ current _ H). reflexivity.
Qed.

(** X6. Deleting an event removes the events with that id and keeps the
    others in their order. With the local store, and with a remote store
    whose [events] table fails (the catch block), the owner's stored list
    loses exactly the events with the id. With the table present the rows
    with the id are removed whoever owns them (the query filters on the
    id alone), and the local store is not touched. *)
Theorem deleteEvent_removes_by_id (userId eventId : string) (s : Store) :
  (forall evs,
     match supabase s with
     | None => True
     | Some r => failing (events r)
     end ->
     local_array s (EVENTS_PREFIX +:+ userId) = Some (of_event <$> evs) ->
     exists s1, Api000.deleteEvent userId eventId s = Returned tt s1
       /\ Api000.getEvents userId s1
          = Returned (JArr (of_event <$>
               List.filter (fun e => negb (String.eqb (ev_id e) eventId)) evs)) s1)
  /\ (forall r rows anyone, supabase s = Some r -> events r = Present rows ->
      exists s1, Api000.deleteEvent userId eventId s = Returned tt s1
        /\ localStorage s1 = localStorage s
        /\ Api000.getEvents anyone s1
           = Returned (JArr (of_event_row <$>
                List.filter (fun e => String.eqb (evr_user_id e) anyone)
                  (List.filter (fun e => negb (String.eqb (evr_id e) eventId)) rows))) s1).
Proof.
  split.
  - intros evs Hf Hl. eexists. split.
    + rewrite (deleteEvent_falls_back userId eventId s Hf).
      apply (deleteEvent_local userId eventId s _ _ Hl (array_filter_events eventId evs)).
    + apply getEvents_local. exact Hf.
  - intros r rows anyone Hs He. eexists. split; [| split].
    + unfold Api000.deleteEvent, bind at 1, get. rewrite Hs.
      unfold tryCatch, bind, Supabase.from, Supabase.delete, ret. rewrite Hs, He. reflexivity.
    + reflexivity.
    + rewrite getEvents_answer. reflexivity.
Qed.

Lemma deleteEvent_removes_by_id_witness :
  (exists s1, Api000.deleteEvent "local-user" "ev-1" Sample.local_events_store = Returned tt s1
     /\ Api000.getEvents "local-user" s1 = Returned (JArr [of_event Sample.exam_day]) s1)
  /\ (exists s1, Api000.deleteEvent "local-user" "ev-1" Sample.remote_events = Returned tt s1
     /\ Api000.getEvents "other-user" s1 = Returned (JArr []) s1).
Proof.
  destruct (deleteEvent_removes_by_id "local-user" "ev-1" Sample.local_events_store) as (Hl & _).
  destruct (deleteEvent_removes_by_id "local-user" "ev-1" Sample.remote_events) as (_ & Hr).
  split.
  - destruct (Hl [Sample.staff_meeting; Sample.exam_day] I eq_refl) as (s1 & E1 & E2).
    exists s1. split; [exact E1 | exact E2].
  - destruct (Hr {| documents := Present []; chats := Present [];
                    events := Present Sample.event_rows; system_settings := Present [] |}
                Sample.event_rows "other-user" eq_refl eq_refl) as (s1 & E1 & _ & E2).
    exists s1. split; [exact E1 | exact E2].
Defined.

(** X7. Adding an event and deleting it again gives the stored list back,
    provided no stored event bore its id: with the local store (or the
    fallback to it) [saveEvent] followed by [deleteEvent] of the event's
    id leaves [getEvents] answering what it answered before. If a stored
    event bore the id, it is deleted as well. *)
Theorem deleteEvent_undoes_saveEvent (userId : string) (event : CalendarEvent)
    (evs : list CalendarEvent) (s : Store) :
  match supabase s with
  | None => True
  | Some r => failing (events r)
  end ->
  local_array s (EVENTS_PREFIX +:+ userId) = Some (of_event <$> evs) ->
  exists s1 s2,
    Api000.saveEvent userId event s = Returned tt s1
    /\ Api000.getEvents userId s1 = Returned (JArr (of_event <$> (evs ++ [event]))) s1
    /\ Api000.deleteEvent userId (ev_id event) s1 = Returned tt s2
    /\ Api000.getEvents userId s2
       = Returned (JArr (of_event <$>
            List.filter (fun e => negb (String.eqb (ev_id e) (ev_id event))) evs)) s2
    /\ (Forall (fun e => ev_id e <> ev_id event) evs ->
        Api000.getEvents userId s2 = Returned (JArr (of_event <$> evs)) s2).
Proof.
  intros Hf Hl.
  set (s1 := {| localStorage := <[EVENTS_PREFIX +:+ userId :=
                                    JArr ((of_event <$> evs) ++ [of_event event])]> (localStorage s);
                supabase := supabase s |}).
  assert (local_array s1 (EVENTS_PREFIX +:+ userId) = Some (of_event <$> (evs ++ [event]))) as Hl1.
  { unfold local_array, s1. cbn [localStorage]. rewrite lookup_insert_eq, fmap_app. reflexivity. }
  assert (match supabase s1 with None => True | Some r => failing (events r) end) as Hf1
    by exact Hf.
  assert (List.filter (fun e => negb (String.eqb (ev_id e) (ev_id event))) (evs ++ [event])
          = List.filter (fun e => negb (String.eqb (ev_id e) (ev_id event))) evs) as Hkept.
  { rewrite List.filter_app. cbn [List.filter]. rewrite String.eqb_refl. apply app_nil_r. }
  assert (Api000.getEvents userId
            {| localStorage := <[EVENTS_PREFIX +:+ userId :=
                 JArr (of_event <$>
                         List.filter (fun e => negb (String.eqb (ev_id e) (ev_id event))) evs)]>
                    (localStorage s1);
               supabase := supabase s1 |}
          = Returned (JArr (of_event <$>
                List.filter (fun e => negb (String.eqb (ev_id e) (ev_id event))) evs))
              {| localStorage := <[EVENTS_PREFIX +:+ userId :=
                   JArr (of_event <$>
                           List.filter (fun e => negb (String.eqb (ev_id e) (ev_id event))) evs)]>
                      (localStorage s1);
                 supabase := supabase s1 |}) as Hread2
    by (apply getEvents_local; exact Hf1).
  exists s1. eexists. split; [| split; [| split; [| split]]].
  - rewrite (saveEvent_falls_back userId event s Hf). apply saveEvent_local. exact Hl.
  - rewrite fmap_app. apply (getEvents_local userId s _ Hf).
  - rewrite (deleteEvent_falls_back userId (ev_id event) s1 Hf1).
    rewrite (deleteEvent_local userId (ev_id event) s1 _ _ Hl1
               (array_filter_events (ev_id event) (evs ++ [event]))).
    rewrite Hkept. reflexivity.
  - exact Hread2.
  - intros Hfresh. rewrite Hread2. do 3 f_equal.
    clear -Hfresh. induction Hfresh as [| e evs He _ IH]; [reflexivity |].
    cbn [List.filter]. apply String.eqb_neq in He. rewrite He. cbn [negb]. rewrite IH.
    reflexivity.
Qed.

Lemma deleteEvent_undoes_saveEvent_witness :
  exists s1 s2,
    Api000.saveEvent "local-user" Sample.staff_meeting Sample.remote_missing = Returned tt s1
    /\ Api000.deleteEvent "local-user" "ev-1" s1 = Returned tt s2
    /\ Api000.getEvents "local-user" s2 = Returned (JArr []) s2.
Proof.
  destruct (deleteEvent_undoes_saveEvent "local-user" Sample.staff_meeting [] Sample.remote_missing
              I eq_refl) as (s1 & s2 & E1 & _ & E2 & _ & E3).
  exists s1, s2. split; [exact E1 |]. split; [exact E2 |]. apply E3. constructor.
Defined.

(** ** The message handlers: the state and the store they leave *)

Lemma getChat_local_insert userId j ls :
  Api000.getChat userId {| localStorage := <[CHAT_PREFIX +:+ userId := j]> ls; supabase := None |}
  = Returned j {| localStorage := <[CHAT_PREFIX +:+ userId := j]> ls; supabase := None |}.
Proof.
  rewrite getChat_answer. cbn [supabase localStorage]. rewrite lookup_insert_eq. reflexivity.
Qed.

(** [handleSendMessage] of index.tsx:614 in full: beside the conversation,
    the lesson context and the rest of the state it leaves, and with the
    local store the transcript [getChat] then answers. *)
Lemma handleSendMessage_v1_full apiKey fresh ai text formatId opts w u key :
  user (ui w) = Some u ->
  usable_key apiKey = Some key ->
  settings_reachable (db w) ->
  exists w' req,
    IndexV1.handleSendMessage apiKey fresh ai text formatId opts w = Returned (Some req) w'
    /\ messages (ui w') =
         messages (ui w)
         ++ [userMessage (uuid1 fresh) text (now1 fresh);
             match ai with
             | Resolves response_text =>
                 modelMessage (uuid2 fresh) (IndexV1.reply response_text) (now2 fresh)
                   (Some (suggestionsFor opts text))
             | Rejects => errorMessage (uuid3 fresh) ERROR_CONNECTING (now3 fresh)
             end]
    /\ lessonCtx (ui w') =
         match ai with
         | Resolves response_text =>
             if lesson_turn opts text then IndexV1.reply response_text else lessonCtx (ui w)
         | Rejects => lessonCtx (ui w)
         end
    /\ user (ui w') = user (ui w) /\ docs (ui w') = docs (ui w)
    /\ activeDocId (ui w') = activeDocId (ui w)
    /\ (supabase (db w) = None ->
        Api000.getChat (user_id u) (db w')
        = Returned (Json.of_messages
                      match ai with
                      | Resolves _ => messages (ui w')
                      | Rejects => messages (ui w) ++ [userMessage (uuid1 fresh) text (now1 fresh)]
                      end) (db w'))
    /\ settings_reachable (db w').
Proof.
  intros Hu Hk Hr.
  unfold IndexV1.handleSendMessage. unfold bind at 1, get. rewrite Hu, Hk. cbv zeta.
  unfold bind at 1. rewrite setMessages_run.
  set (w1 := with_messages _ w).
  destruct (saved_v1 (user_id u) (messages (ui w) ++ [userMessage (uuid1 fresh) text (now1 fresh)]) w1)
    as (w2 & E2 & Hui & Hr2 & Hloc).
  unfold bind at 1. rewrite E2.
  destruct (getMasterPrompt_v1_returns (db w2) (Hr2 Hr)) as (mp & Em).
  unfold bind at 1. rewrite (liftDb_same _ _ _ Em).
  unfold tryCatch. destruct ai as [rt |]; cbn [IndexV1.generateAI].
  - unfold bind at 1, ret at 1. unfold bind at 1.
    assert (exists w4, (if lesson_turn opts text then setLessonCtx (IndexV1.reply rt)
                        else ret tt) w2 = Returned tt w4
                       /\ db w4 = db w2
                       /\ user (ui w4) = user (ui w) /\ docs (ui w4) = docs (ui w)
                       /\ activeDocId (ui w4) = activeDocId (ui w)
                       /\ lessonCtx (ui w4) = if lesson_turn opts text then IndexV1.reply rt
                                              else lessonCtx (ui w))
      as (w4 & E4 & Hdb4 & Hu4 & Hd4 & Ha4 & Hl4).
    { destruct (lesson_turn opts text); eexists; (split; [reflexivity |]); cbn;
        rewrite ?Hui; repeat split; reflexivity. }
    rewrite E4. unfold bind at 1. rewrite setMessages_run.
    set (w5 := with_messages _ w4).
    destruct (saved_v1 (user_id u)
                ((messages (ui w) ++ [userMessage (uuid1 fresh) text (now1 fresh)])
                 ++ [modelMessage (uuid2 fresh) (IndexV1.reply rt) (now2 fresh)
                       (Some (suggestionsFor opts text))]) w5)
      as (w6 & E6 & Hui6 & Hr6 & Hloc6).
    unfold bind at 1. rewrite E6.
    eexists; eexists; split; [reflexivity |].
    rewrite Hui6. subst w5. cbn [with_messages ui messages lessonCtx user docs activeDocId].
    rewrite <- app_assoc. cbn [app].
    split; [reflexivity |]. split; [exact Hl4 |]. split; [congruence |].
    split; [exact Hd4 |]. split; [exact Ha4 |]. split.
    + intros Hn. rewrite Hloc6.
      * rewrite <- app_assoc. cbn [app]. apply getChat_local_insert.
      * cbn [with_messages db]. rewrite Hdb4, (Hloc Hn). reflexivity.
    + apply Hr6. cbn [with_messages db]. rewrite Hdb4. exact (Hr2 Hr).
  - unfold bind at 1, throw at 1. unfold bind at 1. rewrite setMessages_run.
    eexists; eexists; split; [reflexivity |].
    cbn [with_messages ui messages lessonCtx user docs activeDocId db]. rewrite Hui.
    subst w1. cbn [with_messages ui messages lessonCtx user docs activeDocId db].
    rewrite <- app_assoc. cbn [app].
    repeat (split; [first [reflexivity | congruence] |]). split.
    + intros Hn. rewrite (Hloc Hn). apply getChat_local_insert.
    + exact (Hr2 Hr).
Qed.

(** [handleSendMessage] of part_001:881 when the stream ends without a
    failure: the conversation and the lesson context it leaves, and with
    the local store the transcript [getChat] then answers. *)
Lemma handleSendMessage_001_full apiKey fresh stream text formatId opts w u key :
  user (ui w) = Some u ->
  usable_key apiKey = Some key ->
  settings_reachable (db w) ->
  breaks stream = false ->
  exists w' req,
    Part001.handleSendMessage apiKey fresh stream text formatId opts w = Returned (Some req) w'
    /\ messages (ui w') =
         messages (ui w)
         ++ [userMessage (uuid1 fresh) text (now1 fresh);
             modelMessage (uuid2 fresh) (Part001.joined (chunks stream)) (now3 fresh)
               (Some (suggestionsFor opts text))]
    /\ lessonCtx (ui w') =
         (if lesson_turn opts text then Part001.joined (chunks stream) else lessonCtx (ui w))
    /\ (supabase (db w) = None ->
        Api000.getChat (user_id u) (db w')
        = Returned (Json.of_messages (messages (ui w'))) (db w')).
Proof.
  intros Hu Hk Hr Hb.
  unfold Part001.handleSendMessage. unfold bind at 1, get. rewrite Hu, Hk. cbv zeta.
  unfold bind at 1. rewrite setMessages_run.
  set (w1 := with_messages _ w).
  destruct (saved_000 (user_id u) (messages (ui w) ++ [userMessage (uuid1 fresh) text (now1 fresh)]) w1)
    as (w2 & E2 & Hui & Hr2 & Hloc).
  unfold bind at 1. rewrite E2.
  destruct (getMasterPrompt_000_returns (db w2) (Hr2 Hr)) as (mp & Em).
  unfold bind at 1. rewrite (liftDb_same _ _ _ Em).
  unfold tryCatch. unfold bind at 1. rewrite setMessages_run.
  unfold bind at 1. rewrite consume_001. rewrite Hb.
  set (w3 := if Part001.received (chunks stream) then _ else _).
  assert (db w3 = db w2 /\ lessonCtx (ui w3) = lessonCtx (ui w)) as [Hdb3 Hl3].
  { subst w3. destruct (Part001.received (chunks stream));
      cbn [with_messages ui db lessonCtx]; rewrite Hui; split; reflexivity. }
  unfold bind at 1, ret at 1. unfold bind at 1.
  assert (exists w4, (if lesson_turn opts text
                      then setLessonCtx (EmptyString +:+ Part001.joined (chunks stream))
                      else ret tt) w3 = Returned tt w4
                     /\ db w4 = db w3
                     /\ lessonCtx (ui w4) = if lesson_turn opts text
                                            then Part001.joined (chunks stream)
                                            else lessonCtx (ui w))
    as (w4 & E4 & Hdb4 & Hl4).
  { destruct (lesson_turn opts text); eexists; (split; [reflexivity |]); cbn;
      split; first [reflexivity | exact Hl3]. }
  rewrite E4. unfold bind at 1. rewrite setMessages_run.
  set (w5 := with_messages _ w4).
  destruct (saved_000 (user_id u)
              (messages (ui w) ++ [userMessage (uuid1 fresh) text (now1 fresh)]
               ++ [modelMessage (uuid2 fresh) (EmptyString +:+ Part001.joined (chunks stream))
                     (now3 fresh) (Some (suggestionsFor opts text))]) w5)
    as (w6 & E6 & Hui6 & _ & Hloc6).
  rewrite <- app_assoc. unfold bind at 1. rewrite E6.
  eexists; eexists; split; [reflexivity |].
  rewrite Hui6. subst w5. cbn [with_messages ui messages lessonCtx]. rewrite <- !app_assoc.
  split; [reflexivity |]. split; [exact Hl4 |].
  intros Hn. rewrite Hloc6.
  - exact (getChat_local_insert _ _ _).
  - cbn [with_messages db]. rewrite Hdb4, Hdb3, (Hloc Hn). reflexivity.
Qed.

(** [handleSend] of part_000:675 when the stream ends without a failure. *)
Lemma handleSend_000_full apiKey fresh ext stream input fileToUpload outputFormat useThinking
    w u key added :
  Js.blank input && Part000.no_file fileToUpload = false ->
  user (ui w) = Some u ->
  usable_key apiKey = Some key ->
  Part000.suffix ext fileToUpload = Some added ->
  settings_reachable (db w) ->
  breaks stream = false ->
  exists w' req,
    Part000.handleSend apiKey fresh ext stream input fileToUpload outputFormat useThinking w
      = Returned (Some req) w'
    /\ messages (ui w') =
         messages (ui w)
         ++ [userMessage (pretty (now1 fresh)) (input +:+ added) (now2 fresh);
             modelMessage (pretty (now3 fresh + 1)) (Part000.joined (chunks stream))
               (now5 fresh) None]
    /\ (supabase (db w) = None ->
        Api000.getChat (user_id u) (db w')
        = Returned (Json.of_messages (messages (ui w'))) (db w')).
Proof.
  intros Hb Hu Hk Ha Hr Hbr.
  unfold Part000.handleSend. unfold bind at 1, get. rewrite Hb, Hu, Hk, Ha. cbv zeta.
  unfold bind at 1. rewrite setMessages_run.
  set (w1 := with_messages _ w).
  destruct (getMasterPrompt_000_returns (db w1) Hr) as (mp & Em).
  unfold bind at 1. rewrite (liftDb_same _ _ _ Em).
  unfold tryCatch. unfold bind at 1. rewrite setMessages_run.
  unfold bind at 1. rewrite consume_000. rewrite Hbr.
  set (w3 := match chunks stream with [] => _ | _ :: _ => _ end).
  assert (db w3 = db w) as Hdb3 by (subst w3; destruct (chunks stream); reflexivity).
  unfold bind at 1, ret at 1. unfold bind at 1.
  destruct (saved_000 (user_id u)
              ((messages (ui w) ++ [userMessage (pretty (now1 fresh)) (input +:+ added) (now2 fresh)])
               ++ [modelMessage (pretty (now3 fresh + 1))
                     (EmptyString +:+ Part000.joined (chunks stream)) (now5 fresh) None]) w3)
    as (w6 & E6 & Hui6 & _ & Hloc6).
  rewrite E6. unfold bind at 1. rewrite setMessages_run.
  eexists; eexists; split; [reflexivity |]. cbn [with_messages ui messages db].
  rewrite <- app_assoc. cbn [app]. split; [reflexivity |].
  intros Hn. rewrite Hloc6 by (rewrite Hdb3; exact Hn).
  rewrite <- app_assoc. cbn [app]. apply getChat_local_insert.
Qed.

Lemma local_is_reachable s : supabase s = None -> settings_reachable s.
Proof. unfold settings_reachable. intros ->. exact I. Qed.

(** X8. With the local store, the transcript stored after a turn that
    succeeded is the conversation shown: [getChat] of the user answers the
    stored form of the messages the handler left in the state, so a reload
    shows the same conversation. This holds for the handlers of
    index.tsx:614, part_001:881 and part_000:675. After a turn that failed
    in index.tsx the stored transcript ends with the user's turn: the
    error message shown is not part of it. *)
Theorem stored_transcript_is_shown apiKey fresh response_text stream ext text formatId opts
    fileToUpload useThinking w u key added :
  user (ui w) = Some u ->
  usable_key apiKey = Some key ->
  supabase (db w) = None ->
  breaks stream = false ->
  Js.blank text && Part000.no_file fileToUpload = false ->
  Part000.suffix ext fileToUpload = Some added ->
  (exists w' req,
      IndexV1.handleSendMessage apiKey fresh (Resolves response_text) text formatId opts w
        = Returned (Some req) w'
      /\ ApiV1.getChat (user_id u) (db w')
         = Returned (Json.of_messages (messages (ui w'))) (db w'))
  /\ (exists w' req,
      Part001.handleSendMessage apiKey fresh stream text formatId opts w
        = Returned (Some req) w'
      /\ Api000.getChat (user_id u) (db w')
         = Returned (Json.of_messages (messages (ui w'))) (db w'))
  /\ (exists w' req,
      Part000.handleSend apiKey fresh ext stream text fileToUpload formatId useThinking w
        = Returned (Some req) w'
      /\ Api000.getChat (user_id u) (db w')
         = Returned (Json.of_messages (messages (ui w'))) (db w'))
  /\ (exists w' req,
      IndexV1.handleSendMessage apiKey fresh Rejects text formatId opts w
        = Returned (Some req) w'
      /\ messages (ui w')
         = (messages (ui w) ++ [userMessage (uuid1 fresh) text (now1 fresh)])
           ++ [errorMessage (uuid3 fresh) ERROR_CONNECTING (now3 fresh)]
      /\ ApiV1.getChat (user_id u) (db w')
         = Returned (Json.of_messages
                       (messages (ui w) ++ [userMessage (uuid1 fresh) text (now1 fresh)]))
             (db w')).
Proof.
  intros Hu Hk Hn Hbr Hb Ha.
  pose proof (local_is_reachable (db w) Hn) as Hr.
  split; [| split; [| split]].
  - destruct (handleSendMessage_v1_full apiKey fresh (Resolves response_text) text formatId opts
                w u key Hu Hk Hr) as (w' & req & E & _ & _ & _ & _ & _ & Hs & _).
    exists w', req. split; [exact E | exact (Hs Hn)].
  - destruct (handleSendMessage_001_full apiKey fresh stream text formatId opts
                w u key Hu Hk Hr Hbr) as (w' & req & E & _ & _ & Hs).
    exists w', req. split; [exact E | exact (Hs Hn)].
  - destruct (handleSend_000_full apiKey fresh ext stream text fileToUpload formatId useThinking
                w u key added Hb Hu Hk Ha Hr Hbr) as (w' & req & E & _ & Hs).
    exists w', req. split; [exact E | exact (Hs Hn)].
  - destruct (handleSendMessage_v1_full apiKey fresh Rejects text formatId opts
                w u key Hu Hk Hr) as (w' & req & E & Hm & _ & _ & _ & _ & Hs & _).
    exists w', req. split; [exact E |]. split; [| exact (Hs Hn)].
    rewrite Hm, <- app_assoc. reflexivity.
Qed.

Lemma stored_transcript_is_shown_witness :
  (exists w' req,
      IndexV1.handleSendMessage (Some "key") Sample.first_turn (Resolves (Some "Fine."))
        "Hi" auto Sample.no_opts Sample.start = Returned (Some req) w'
      /\ ApiV1.getChat "local-user" (db w')
         = Returned (Json.of_messages (messages (ui w'))) (db w'))
  /\ (exists w' req,
      Part001.handleSendMessage (Some "key") Sample.first_turn Sample.answers_fine
        "Hi" auto Sample.no_opts Sample.start = Returned (Some req) w'
      /\ Api000.getChat "local-user" (db w')
         = Returned (Json.of_messages (messages (ui w'))) (db w')).
Proof.
  destruct (stored_transcript_is_shown (Some "key") Sample.first_turn (Some "Fine.")
              Sample.answers_fine Sample.reads_hello "Hi" auto Sample.no_opts None false
              Sample.start Sample.teacher "key" EmptyString
              eq_refl eq_refl eq_refl eq_refl eq_refl eq_refl) as (H1 & H2 & _).
  split; assumption.
Defined.

(** ** The settings table out of reach *)

Lemma notAwaited_liftDb {A} (m : M Store A) w :
  notAwaited (liftDb m) w = Returned tt {| ui := ui w; db := state_of (m (db w)) |}.
Proof. unfold notAwaited, liftDb. destruct (m (db w)); reflexivity. Qed.

Lemma same_but_chats_unreachable s s' r :
  same_but_chats s s' -> supabase s = Some r -> system_settings r = Unreachable ->
  exists r', supabase s' = Some r' /\ system_settings r' = Unreachable.
Proof.
  unfold same_but_chats. intros (_ & H) Hs Hu. rewrite Hs in H.
  destruct (supabase s') as [r'|]; [| contradiction].
  destruct H as (_ & _ & H). exists r'. split; [reflexivity | congruence].
Qed.

Lemma getMasterPrompt_000_rejects s r :
  supabase s = Some r -> system_settings r = Unreachable -> Api000.getMasterPrompt s = Thrown s.
Proof. intros Hs Hu. rewrite getMasterPrompt_answer, Hs, Hu. reflexivity. Qed.

Lemma getMasterPrompt_v1_rejects s r :
  supabase s = Some r -> system_settings r = Unreachable -> ApiV1.getMasterPrompt s = Thrown s.
Proof. intros Hs Hu. rewrite getMasterPrompt_v1_answer, Hs, Hu. reflexivity. Qed.

(** X9. When the settings table is out of reach the send handlers
    reject: [getMasterPrompt] is awaited before the try block, so its
    rejection is not caught. The user's turn has been added to the
    conversation by then; no request is made, and neither an answer nor
    an error message follows the user's turn. *)
Theorem send_rejects_when_settings_unreachable apiKey fresh ai stream ext text formatId opts
    fileToUpload useThinking w u key added r :
  user (ui w) = Some u ->
  usable_key apiKey = Some key ->
  supabase (db w) = Some r ->
  system_settings r = Unreachable ->
  Js.blank text && Part000.no_file fileToUpload = false ->
  Part000.suffix ext fileToUpload = Some added ->
  (exists w', IndexV1.handleSendMessage apiKey fresh ai text formatId opts w = Thrown w'
      /\ messages (ui w') = messages (ui w) ++ [userMessage (uuid1 fresh) text (now1 fresh)])
  /\ (exists w', Part001.handleSendMessage apiKey fresh stream text formatId opts w = Thrown w'
      /\ messages (ui w') = messages (ui w) ++ [userMessage (uuid1 fresh) text (now1 fresh)])
  /\ (exists w',
      Part000.handleSend apiKey fresh ext stream text fileToUpload formatId useThinking w
        = Thrown w'
      /\ messages (ui w')
         = messages (ui w) ++ [userMessage (pretty (now1 fresh)) (text +:+ added) (now2 fresh)]
      /\ db w' = db w).
Proof.
  intros Hu Hk Hs Hun Hb Ha. split; [| split].
  - unfold IndexV1.handleSendMessage. unfold bind at 1, get. rewrite Hu, Hk. cbv zeta.
    unfold bind at 1. rewrite setMessages_run.
    unfold bind at 1. rewrite notAwaited_liftDb.
    cbn [with_messages ui db].
    pose proof (saveChat_v1_state (user_id u)
                  (messages (ui w) ++ [userMessage (uuid1 fresh) text (now1 fresh)]) (db w)) as Hsame.
    rewrite Hs in Hsame.
    destruct (same_but_chats_unreachable _ _ r Hsame Hs Hun) as (r' & Hs' & Hun').
    unfold bind at 1, liftDb at 1. cbn [db].
    rewrite (getMasterPrompt_v1_rejects _ r' Hs' Hun').
    eexists. split; reflexivity.
  - unfold Part001.handleSendMessage. unfold bind at 1, get. rewrite Hu, Hk. cbv zeta.
    unfold bind at 1. rewrite setMessages_run.
    unfold bind at 1. rewrite notAwaited_liftDb.
    cbn [with_messages ui db].
    destruct (saveChat_000_returns (user_id u)
                (messages (ui w) ++ [userMessage (uuid1 fresh) text (now1 fresh)]) (db w))
      as (s' & E & Hsame).
    rewrite Hs in Hsame. rewrite E. cbn [state_of].
    destruct (same_but_chats_unreachable _ _ r Hsame Hs Hun) as (r' & Hs' & Hun').
    unfold bind at 1, liftDb at 1. cbn [db].
    rewrite (getMasterPrompt_000_rejects _ r' Hs' Hun').
    eexists. split; reflexivity.
  - unfold Part000.handleSend. unfold bind at 1, get. rewrite Hb, Hu, Hk, Ha. cbv zeta.
    unfold bind at 1. rewrite setMessages_run.
    unfold bind at 1, liftDb at 1. cbn [with_messages db].
    rewrite (getMasterPrompt_000_rejects _ r Hs Hun).
    eexists. split; [reflexivity |]. split; reflexivity.
Qed.

Lemma send_rejects_when_settings_unreachable_witness :
  (exists w', IndexV1.handleSendMessage (Some "key") Sample.first_turn (Resolves (Some "Fine."))
                "Hi" auto Sample.no_opts Sample.start_no_settings = Thrown w'
      /\ messages (ui w') = [userMessage "u-1" "Hi" 1001])
  /\ (exists w', Part001.handleSendMessage (Some "key") Sample.first_turn Sample.answers_fine
                   "Hi" auto Sample.no_opts Sample.start_no_settings = Thrown w'
      /\ messages (ui w') = [userMessage "u-1" "Hi" 1001]).
Proof.
  destruct (send_rejects_when_settings_unreachable (Some "key") Sample.first_turn
              (Resolves (Some "Fine.")) Sample.answers_fine Sample.reads_hello "Hi" auto
              Sample.no_opts None false Sample.start_no_settings Sample.teacher "key"
              EmptyString Sample.no_settings
              eq_refl eq_refl eq_refl eq_refl eq_refl eq_refl) as (H1 & H2 & _).
  split; assumption.
Defined.

(** ** When a request is made *)






(** ** What the request holds *)

(** X11. In part_001 the prompt reaches the completion service twice: the
    history handed over already ends with the new user turn, and the
    function that builds the contents appends the prompt once more, so the
    contents end with two user turns of the same text. In index.tsx the
    history is the conversation before the turn and the prompt is there
    once. *)
Theorem part001_sends_prompt_twice apiKey fresh ai stream text formatId opts w u key :
  user (ui w) = Some u ->
  usable_key apiKey = Some key ->
  settings_reachable (db w) ->
  (exists w' req,
      Part001.handleSendMessage apiKey fresh stream text formatId opts w = Returned (Some req) w'
      /\ req_contents req
         = contents_of (messages (ui w)) text ++ [{| c_role := RoleUser; c_text := text |}]
      /\ last (req_contents req) = Some {| c_role := RoleUser; c_text := text |}
      /\ length (req_contents req) = (length (messages (ui w)) + 2)%nat)
  /\ (exists w' req,
      IndexV1.handleSendMessage apiKey fresh ai text formatId opts w = Returned (Some req) w'
      /\ req_contents req = contents_of (messages (ui w)) text
      /\ length (req_contents req) = (length (messages (ui w)) + 1)%nat).
Proof.
  intros Hu Hk Hr. split.
  - destruct (handleSendMessage_001_run apiKey fresh stream text formatId opts w u key Hu Hk Hr)
      as (w' & req & mp & E & _ & Hh & Hc & _).
    exists w', req. split; [exact E |].
    assert (req_contents req
            = contents_of (messages (ui w)) text ++ [{| c_role := RoleUser; c_text := text |}])
      as Hcont.
    { rewrite Hc, Hh. unfold contents_of. rewrite List.map_app. reflexivity. }
    split; [exact Hcont |]. rewrite Hcont. split.
    + apply last_snoc.
    + unfold contents_of. rewrite !length_app, length_map. cbn. lia.
  - destruct (handleSendMessage_v1_run apiKey fresh ai text formatId opts w u key Hu Hk Hr)
      as (w' & req & mp & E & _ & Hh & Hc & _).
    exists w', req. split; [exact E |]. rewrite Hc, Hh. split; [reflexivity |].
    unfold contents_of. rewrite length_app, length_map. cbn. lia.
Qed.

Lemma part001_sends_prompt_twice_witness :
  exists w' req,
    Part001.handleSendMessage (Some "key") Sample.first_turn Sample.answers_fine
      "Hi" auto Sample.no_opts Sample.start = Returned (Some req) w'
    /\ req_contents req = [{| c_role := RoleUser; c_text := "Hi" |};
                           {| c_role := RoleUser; c_text := "Hi" |}].
Proof.
  destruct (part001_sends_prompt_twice (Some "key") Sample.first_turn Rejects Sample.answers_fine
              "Hi" auto Sample.no_opts Sample.start Sample.teacher "key" eq_refl eq_refl I)
    as ((w' & req & E & Hc & _) & _).
  exists w', req. split; [exact E | exact Hc].
Defined.

(** ** Uploads: what an accepted file leaves, and a rejected one *)

Lemma upload_tail_saved (save : DocumentFile -> M Store unit) ds doc w s1 :
  save doc (db w) = Returned tt s1 ->
  (setDocs (fun _ => ds ++ [doc]) ;;;
   notAwaited (liftDb (save doc)) ;;;
   setActiveDocId (Some (doc_id doc)) ;;;
   ret (UploadStored doc)) w
  = Returned (UploadStored doc)
      {| ui := {| user := user (ui w); docs := ds ++ [doc]; messages := messages (ui w);
                  activeDocId := Some (doc_id doc); lessonCtx := lessonCtx (ui w) |};
         db := s1 |}.
Proof.
  intros H. unfold bind, setDocs, setActiveDocId, setUi, modify, notAwaited, liftDb, ret. cbn.
  rewrite H. reflexivity.
Qed.

Lemma saveDoc_v1_local doc s :
  supabase s = None -> ApiV1.saveDoc doc s = ApiLocal.saveDoc doc s.
Proof. intros H. unfold ApiV1.saveDoc, bind at 1, get. rewrite H. reflexivity. Qed.

Lemma saveDoc_000_local doc s :
  supabase s = None -> Api000.saveDoc doc s = ApiLocal.saveDoc doc s.
Proof. intros H. unfold Api000.saveDoc, bind at 1, get. rewrite H. reflexivity. Qed.

Lemma getDocs_local_insert userId j ls :
  Api000.getDocs userId {| localStorage := <[DOCS_PREFIX +:+ userId := j]> ls; supabase := None |}
  = Returned j {| localStorage := <[DOCS_PREFIX +:+ userId := j]> ls; supabase := None |}.
Proof.
  rewrite getDocs_answer. cbn [supabase localStorage]. rewrite lookup_insert_eq. reflexivity.
Qed.

(** X12. A file that is accepted is listed, active and stored. With a
    signed-in user under the document limit, a text the extraction
    returns and the local store holding a list under the user's key, the
    handlers of index.tsx:668 and part_001:953 end with the document at
    the end of the documents of the state, its id as the active document,
    the conversation untouched, and [getDocs] answering the stored list
    with the document at its end. *)
Theorem accepted_upload_is_listed ext uuid now file u content current w :
  user (ui w) = Some u ->
  Z.of_nat (length (docs (ui w))) < maxDocs (PLAN_LIMITS (plan u)) ->
  (if String.eqb (file_type file) "application/pdf" then extractTextFromPDF ext file
   else if Js.endsWith (file_name file) ".docx" then extractTextFromDOCX ext file
   else file_text ext file) = Some content ->
  supabase (db w) = None ->
  local_array (db w) (DOCS_PREFIX +:+ user_id u) = Some current ->
  let doc := built_doc u uuid now file content in
  exists w',
    IndexV1.handleFileUpload ext uuid now (Some file) w = Returned (UploadStored doc) w'
    /\ Part001.handleFileUpload ext uuid now (Some file) w = Returned (UploadStored doc) w'
    /\ docs (ui w') = docs (ui w) ++ [doc]
    /\ activeDocId (ui w') = Some uuid
    /\ messages (ui w') = messages (ui w)
    /\ Api000.getDocs (user_id u) (db w')
       = Returned (JArr (current ++ [Json.of_doc doc])) (db w').
Proof.
  intros Hu Hn Hc Hs Hl doc.
  assert (ApiLocal.saveDoc doc (db w)
          = Returned tt {| localStorage := <[DOCS_PREFIX +:+ user_id u :=
                                               JArr (current ++ [Json.of_doc doc])]>
                                             (localStorage (db w));
                           supabase := None |}) as Hsave.
  { rewrite (saveDoc_local doc (db w) current Hl), Hs. reflexivity. }
  set (w' := {| ui := {| user := user (ui w); docs := docs (ui w) ++ [doc];
                         messages := messages (ui w); activeDocId := Some (doc_id doc);
                         lessonCtx := lessonCtx (ui w) |};
                db := {| localStorage := <[DOCS_PREFIX +:+ user_id u :=
                                             JArr (current ++ [Json.of_doc doc])]>
                                           (localStorage (db w));
                         supabase := None |} |}).
  exists w'. split; [| split].
  - unfold IndexV1.handleFileUpload, bind at 1, get. rewrite Hu.
    rewrite quotaCheck_v1_spec.
    destruct (Z.ltb_spec (Z.of_nat (length (docs (ui w)))) (maxDocs (PLAN_LIMITS (plan u))));
      [| lia].
    rewrite Hc. cbv zeta. fold doc.
    apply upload_tail_saved. rewrite (saveDoc_v1_local doc (db w) Hs). exact Hsave.
  - unfold Part001.handleFileUpload, bind at 1, get. rewrite Hu.
    rewrite quotaCheck_v1_spec.
    destruct (Z.ltb_spec (Z.of_nat (length (docs (ui w)))) (maxDocs (PLAN_LIMITS (plan u))));
      [| lia].
    rewrite Hc. cbv zeta. fold doc.
    apply upload_tail_saved. rewrite (saveDoc_000_local doc (db w) Hs). exact Hsave.
  - subst w'. cbn [ui db docs activeDocId messages].
    repeat (split; [reflexivity |]). apply getDocs_local_insert.
Qed.

Lemma accepted_upload_is_listed_witness :
  exists w',
    IndexV1.handleFileUpload Sample.reads_hello "doc-1" 1000 (Some Sample.notes_txt) Sample.start
    = Returned (UploadStored Sample.notes_doc) w'
    /\ docs (ui w') = [Sample.notes_doc]
    /\ activeDocId (ui w') = Some "doc-1"
    /\ Api000.getDocs "local-user" (db w')
       = Returned (JArr [Json.of_doc Sample.notes_doc]) (db w').
Proof.
  destruct (accepted_upload_is_listed Sample.reads_hello "doc-1" 1000 Sample.notes_txt
              Sample.teacher "hello" [] Sample.start eq_refl eq_refl eq_refl eq_refl eq_refl)
    as (w' & E & _ & Hd & Ha & _ & Hg).
  exists w'. split; [exact E |]. split; [exact Hd |]. split; [exact Ha | exact Hg].
Defined.

Lemma saveDoc_v1_settings doc s :
  settings_reachable s -> settings_reachable (state_of (ApiV1.saveDoc doc s)).
Proof.
  unfold settings_reachable, ApiV1.saveDoc, bind at 1, get.
  destruct s as [ls [r|]]; cbn [supabase].
  - unfold bind, Supabase.from, Supabase.insert, ret. cbn [supabase].
    destruct (documents r); cbn; auto.
  - intros _. unfold ApiLocal.saveDoc. cbv zeta.
    unfold bind, LocalStorage.getItem, LocalStorage.push, LocalStorage.setItem, ret, throw.
    cbn [localStorage supabase].
    destruct (parsed_or_empty _); cbn; exact I.
Qed.

Lemma find_fresh_last ds doc :
  forallb (fun d => negb (String.eqb (doc_id d) (doc_id doc))) ds = true ->
  List.find (fun d => String.eqb (doc_id d) (doc_id doc)) (ds ++ [doc]) = Some doc.
Proof.
  induction ds as [| d ds IH]; cbn [forallb List.find app]; intros H.
  - rewrite String.eqb_refl. reflexivity.
  - apply andb_prop in H as [Hd Hds].
    destruct (String.eqb (doc_id d) (doc_id doc)); [discriminate Hd | auto].
Qed.

(** X13. The document just uploaded grounds the next request. After the
    handler of index.tsx:668 has accepted a file (its id not empty and
    not borne by a document of the state), a message sent without an
    explicit choice makes a request whose system instruction is the
    master prompt followed by the context header with the file's name and
    the first 30,000 code units of the extracted text, then the format
    clause. *)
Theorem uploaded_document_grounds_next_request ext uuid now file u content apiKey key fresh ai
    text formatId w :
  user (ui w) = Some u ->
  Z.of_nat (length (docs (ui w))) < maxDocs (PLAN_LIMITS (plan u)) ->
  (if String.eqb (file_type file) "application/pdf" then extractTextFromPDF ext file
   else if Js.endsWith (file_name file) ".docx" then extractTextFromDOCX ext file
   else file_text ext file) = Some content ->
  Js.truthy uuid = true ->
  forallb (fun d => negb (String.eqb (doc_id d) uuid)) (docs (ui w)) = true ->
  usable_key apiKey = Some key ->
  settings_reachable (db w) ->
  let doc := built_doc u uuid now file content in
  let opts := {| useActiveDoc := None; opt_type := None; useDeepThink := None |} in
  exists w1 w2 req mp tail,
    IndexV1.handleFileUpload ext uuid now (Some file) w = Returned (UploadStored doc) w1
    /\ IndexV1.handleSendMessage apiKey fresh ai text formatId opts w1 = Returned (Some req) w2
    /\ req_sys req = assemble mp true (Some doc) formatId
    /\ req_sys req = mp +:+ Js.nl +:+ Js.nl +:+ "=== CONTEXT: " +:+ file_name file +:+ " ==="
                        +:+ Js.nl +:+ Js.substring content 0 30000 +:+ tail.
Proof.
  intros Hu Hn Hc Hid Hfresh Hk Hr doc opts.
  set (w1 := {| ui := {| user := user (ui w); docs := docs (ui w) ++ [doc];
                         messages := messages (ui w); activeDocId := Some (doc_id doc);
                         lessonCtx := lessonCtx (ui w) |};
                db := state_of (ApiV1.saveDoc doc (db w)) |}).
  assert (IndexV1.handleFileUpload ext uuid now (Some file) w = Returned (UploadStored doc) w1)
    as E1.
  { unfold IndexV1.handleFileUpload, bind at 1, get. rewrite Hu.
    rewrite quotaCheck_v1_spec.
    destruct (Z.ltb_spec (Z.of_nat (length (docs (ui w)))) (maxDocs (PLAN_LIMITS (plan u))));
      [| lia].
    rewrite Hc. cbv zeta. fold doc.
    unfold bind at 1, setDocs at 1, setUi, modify. unfold bind at 1.
    rewrite notAwaited_liftDb. subst w1. rewrite Hu. reflexivity. }
  assert (user (ui w1) = Some u) as Hu1 by exact Hu.
  assert (settings_reachable (db w1)) as Hr1 by (apply saveDoc_v1_settings; exact Hr).
  destruct (handleSendMessage_v1_run apiKey fresh ai text formatId opts w1 u key Hu1 Hk Hr1)
    as (w2 & req & mp & E2 & _ & _ & _ & Hsys & _).
  assert (req_sys req = assemble mp true (Some doc) formatId) as Hsys'.
  { assert (List.find (fun d => String.eqb (doc_id d) uuid) (docs (ui w) ++ [doc]) = Some doc)
      as Hfind by exact (find_fresh_last (docs (ui w)) doc Hfresh).
    rewrite Hsys. subst w1. cbn [ui docs activeDocId].
    unfold include_doc, find_active. cbn [useActiveDoc opts].
    change (doc_id doc) with uuid. rewrite Hid, Hfind. reflexivity. }
  exists w1, w2, req, mp.
  exists (match find_format formatId with
          | Some fmt => Js.nl +:+ Js.nl +:+ "FORMAT: " +:+ instruction fmt
          | None => EmptyString
          end).
  split; [exact E1 |]. split; [exact E2 |]. split; [exact Hsys' |].
  rewrite Hsys'. unfold assemble, document_segment.
  cbn [doc_name doc_content doc built_doc].
  destruct (find_format formatId); rewrite ?append_nil_r, ?append_assoc; reflexivity.
Qed.

Lemma uploaded_document_grounds_next_request_witness :
  exists w1 w2 req mp tail,
    IndexV1.handleFileUpload Sample.reads_hello "doc-1" 1000 (Some Sample.notes_txt) Sample.start
    = Returned (UploadStored Sample.notes_doc) w1
    /\ IndexV1.handleSendMessage (Some "key") Sample.first_turn Rejects "Hi" auto
         Sample.no_opts w1 = Returned (Some req) w2
    /\ req_sys req = mp +:+ Js.nl +:+ Js.nl +:+ "=== CONTEXT: notes.txt ===" +:+ Js.nl
                        +:+ "hello" +:+ tail.
Proof.
  destruct (uploaded_document_grounds_next_request Sample.reads_hello "doc-1" 1000
              Sample.notes_txt Sample.teacher "hello" (Some "key") "key" Sample.first_turn
              Rejects "Hi" auto Sample.start eq_refl eq_refl eq_refl eq_refl eq_refl eq_refl I)
    as (w1 & w2 & req & mp & tail & E1 & E2 & _ & Hs).
  exists w1, w2, req, mp, tail. split; [exact E1 |]. split; [exact E2 | exact Hs].
Defined.




(** X15. In part_000 the kind recorded for a stored document is the kind
    of the extraction that produced its content: pdf when the MIME type
    includes "pdf" (text from the PDF extraction), docx when it does not
    and the name ends in "docx" (DOCX extraction), txt otherwise (the
    file's own text). The document is appended to the documents of the
    state; the active document stays as it was. *)
Theorem part000_kind_matches_extraction ext fresh file w w' doc :
  Part000.handleFileUpload ext fresh (Some file) w = Returned (UploadStored doc) w' ->
  match doc_type doc with
  | pdf => Js.includes (file_type file) "pdf" = true
           /\ extractTextFromPDF ext file = Some (doc_content doc)
  | docx => Js.includes (file_type file) "pdf" = false
            /\ Js.endsWith (file_name file) "docx" = true
            /\ extractTextFromDOCX ext file = Some (doc_content doc)
  | txt => Js.includes (file_type file) "pdf" = false
           /\ Js.endsWith (file_name file) "docx" = false
           /\ file_text ext file = Some (doc_content doc)
  end
  /\ docs (ui w') = docs (ui w) ++ [doc]
  /\ activeDocId (ui w') = activeDocId (ui w).
Proof.
  unfold Part000.handleFileUpload, bind at 1, get. intros H.
  destruct (user (ui w)) as [u|]; [| discriminate H].
  destruct (Part000Quota.quotaCheck _ _ _); [| discriminate H].
  match type of H with context [match ?c with Some _ => _ | None => _ end] =>
    destruct c as [content|] eqn:Hc end; [| discriminate H].
  cbv zeta in H. unfold tryCatch, bind at 1, liftDb at 1 in H.
  destruct (Api000.saveDoc _ (db w)) as [[] s1 | s1]; cbn in H; [| discriminate H].
  inversion H; subst; clear H. cbn [doc_type doc_content ui docs activeDocId].
  split; [| split; reflexivity].
  destruct (Js.includes (file_type file) "pdf"); [split; [reflexivity | exact Hc] |].
  destruct (Js.endsWith (file_name file) "docx"); repeat split; try reflexivity; exact Hc.
Qed.

Lemma part000_kind_matches_extraction_witness :
  exists w' doc,
    Part000.handleFileUpload Sample.reads_hello Sample.first_turn (Some Sample.notes_txt)
      Sample.start = Returned (UploadStored doc) w'
    /\ doc_type doc = txt
    /\ file_text Sample.reads_hello Sample.notes_txt = Some (doc_content doc).
Proof.
  eexists. eexists.
  assert (Part000.handleFileUpload Sample.reads_hello Sample.first_turn (Some Sample.notes_txt)
            Sample.start
          = Returned (UploadStored
                        {| doc_id := "1001"; doc_user_id := "local-user"; doc_name := "notes.txt";
                           doc_type := txt; doc_content := "hello"; doc_size := 12;
                           doc_created_at := 1002 |})
              (state_of (Part000.handleFileUpload Sample.reads_hello Sample.first_turn
                           (Some Sample.notes_txt) Sample.start))) as E
    by (vm_compute; reflexivity).
  split; [exact E |].
  destruct (part000_kind_matches_extraction _ _ _ _ _ _ E) as (H & _).
  cbn [doc_type] in H. destruct H as (_ & _ & H). split; [reflexivity | exact H].
Defined.

(** ** The size of the system instruction *)

Lemma strlen_app a b : Js.strlen (a +:+ b) = Js.strlen a + Js.strlen b.
Proof.
  unfold Js.strlen. induction a as [| c a IH]; [reflexivity |].
  change (Z.of_nat (S (String.length (a +:+ b))) = Z.of_nat (S (String.length a)) + Z.of_nat (String.length b)).
  lia.
Qed.

Lemma strlen_substring_0 s k :
  0 <= k -> Js.strlen (Js.substring s 0 k) = Z.min k (Js.strlen s).
Proof.
  intros Hk. rewrite substring_from_0 by assumption.
  unfold Js.strlen. rewrite take_length. lia.
Qed.

(** X16. The system instruction a request carries has a bounded size: it
    is as long as the master prompt, plus (with a document in the context)
    20 code units of header, the document's name and at most 30,000 code
    units of its content, plus the format clause of at most 49 code
    units. Whatever the size of the document, the instruction exceeds
    the master prompt and the document's name by at most 30,069. *)
Theorem system_instruction_is_bounded (sys : string) (includeDoc : bool)
    (activeDoc : option DocumentFile) (formatId : OutputFormat) :
  exists fmt,
    find_format formatId = Some fmt
    /\ Js.strlen (instruction fmt) <= 39
    /\ Js.strlen (assemble sys includeDoc activeDoc formatId)
       = Js.strlen sys
         + match includeDoc, activeDoc with
           | true, Some d => 20 + Js.strlen (doc_name d)
                             + Z.min 30000 (Js.strlen (doc_content d))
           | _, _ => 0
           end
         + 10 + Js.strlen (instruction fmt)
    /\ Js.strlen (assemble sys includeDoc activeDoc formatId)
       <= Js.strlen sys
          + match activeDoc with Some d => Js.strlen (doc_name d) | None => 0 end
          + 30069.
Proof.
  assert (exists fmt, find_format formatId = Some fmt /\ Js.strlen (instruction fmt) <= 39)
    as (fmt & Hf & Hlen).
  { destruct formatId; eexists; (split; [reflexivity |]); vm_compute; discriminate. }
  exists fmt. split; [exact Hf |]. split; [exact Hlen |].
  assert (Js.strlen (assemble sys includeDoc activeDoc formatId)
          = Js.strlen sys
            + match includeDoc, activeDoc with
              | true, Some d => 20 + Js.strlen (doc_name d)
                                + Z.min 30000 (Js.strlen (doc_content d))
              | _, _ => 0
              end
            + 10 + Js.strlen (instruction fmt)) as Heq.
  { unfold assemble. rewrite Hf.
    assert (Js.strlen Js.nl = 1) as Hnl by reflexivity.
    assert (Js.strlen "=== CONTEXT: " = 13) as Hc by reflexivity.
    assert (Js.strlen " ===" = 4) as He by reflexivity.
    assert (Js.strlen "FORMAT: " = 8) as Hfm by reflexivity.
    destruct includeDoc, activeDoc as [d|]; rewrite !strlen_app; unfold document_segment;
      rewrite ?strlen_substring_0 by lia; rewrite ?Hnl, ?Hc, ?He, ?Hfm; lia. }
  split; [exact Heq |]. rewrite Heq.
  pose proof (strlen_nonneg sys).
  destruct includeDoc, activeDoc as [d|];
    try pose proof (strlen_nonneg (doc_name d));
    try pose proof (strlen_nonneg (doc_content d)); lia.
Qed.

(** ** The generators *)

Lemma quizPrompt_is_lesson_turn opts lessonCtx topic :
  Js.truthy lessonCtx = true ->
  lesson_turn opts (IndexV1.quizPrompt lessonCtx topic) = true.
Proof.
  intros H. unfold lesson_turn, IndexV1.quizPrompt. rewrite H.
  change ("Based on this lesson plan: " +:+ Js.substring lessonCtx 0 500
            +:+ "..., create a quiz on " +:+ topic)
    with ("Based on this " +:+ "lesson plan"
            +:+ (": " +:+ Js.substring lessonCtx 0 500 +:+ "..., create a quiz on " +:+ topic)).
  rewrite includes_lowered by reflexivity. apply orb_true_r.
Qed.

(** X17. A quiz generated from a lesson is treated as a lesson. With a
    lesson context in the state, the prompt the quiz maker of
    index.tsx:850 builds quotes the first 500 code units of it after the
    words "Based on this lesson plan", so the handler takes the turn for
    a lesson turn: the answer carries the two lesson suggestions (create
    quiz, generate rubric) instead of the answer-key suggestion, and the
    quiz text replaces the lesson context. *)
Theorem quiz_from_lesson_counts_as_lesson apiKey fresh response_text topic w u key :
  user (ui w) = Some u ->
  usable_key apiKey = Some key ->
  settings_reachable (db w) ->
  Js.truthy (lessonCtx (ui w)) = true ->
  exists w' req,
    IndexV1.onGenerateQuiz apiKey fresh (Resolves response_text) topic w
      = Returned (Some req) w'
    /\ req_prompt req = "Based on this lesson plan: " +:+ Js.substring (lessonCtx (ui w)) 0 500
                           +:+ "..., create a quiz on " +:+ topic
    /\ last (messages (ui w'))
       = Some (modelMessage (uuid2 fresh) (IndexV1.reply response_text) (now2 fresh)
                 (Some [ {| sg_label := "Create Quiz for this"; sg_action := quiz;
                            sg_prompt := Some "Create a quiz based on this lesson plan." |};
                         {| sg_label := "Generate Rubric"; sg_action := rubric;
                            sg_prompt := None |} ]))
    /\ lessonCtx (ui w') = IndexV1.reply response_text.
Proof.
  intros Hu Hk Hr Hl.
  unfold IndexV1.onGenerateQuiz, bind at 1, get.
  set (opts := {| useActiveDoc := None; opt_type := Some "quiz"; useDeepThink := None |}).
  pose proof (quizPrompt_is_lesson_turn opts (lessonCtx (ui w)) topic Hl) as Hlesson.
  destruct (handleSendMessage_v1_run apiKey fresh (Resolves response_text)
              (IndexV1.quizPrompt (lessonCtx (ui w)) topic) auto opts w u key Hu Hk Hr)
    as (w0 & req0 & mp & E0 & Hp & _).
  destruct (handleSendMessage_v1_full apiKey fresh (Resolves response_text)
              (IndexV1.quizPrompt (lessonCtx (ui w)) topic) auto opts w u key Hu Hk Hr)
    as (w' & req & E & Hm & Hctx & _).
  rewrite E in E0. inversion E0; subst w0 req0.
  exists w', req. split; [unfold started; rewrite E; reflexivity |]. split.
  - rewrite Hp. unfold IndexV1.quizPrompt. rewrite Hl. reflexivity.
  - rewrite Hm, Hctx, Hlesson. split; [| reflexivity].
    unfold suggestionsFor. rewrite Hlesson. apply last_two.
Qed.

Lemma quiz_from_lesson_counts_as_lesson_witness :
  exists w' req,
    IndexV1.onGenerateQuiz (Some "key") Sample.second_turn (Resolves (Some "1. What is a cell?"))
      "cells" Sample.after_lesson = Returned (Some req) w'
    /\ lessonCtx (ui w') = "1. What is a cell?".
Proof.
  destruct (quiz_from_lesson_counts_as_lesson (Some "key") Sample.second_turn
              (Some "1. What is a cell?") "cells" Sample.after_lesson Sample.teacher "key"
              eq_refl eq_refl I eq_refl) as (w' & req & E & _ & _ & H).
  exists w', req. split; [exact E | exact H].
Defined.

(** ** Follow-up actions when clicked *)

(** X18. What a click on a follow-up action does. The two actions offered
    after a lesson turn open a dialog (the quiz maker, the rubric builder)
    and send nothing: state and stores stay as they are. The action
    offered after a quiz turn sends its prompt as a plain message, and the
    answer to that message carries no follow-up action, so a chain of
    follow-ups ends there. *)
Theorem follow_up_opens_dialog_or_ends apiKey fresh ai opts text s w :
  In s (suggestionsFor opts text) ->
  (lesson_turn opts text = true ->
   IndexV1.handleSuggestion apiKey fresh ai s w
   = Returned (Some (match sg_action s with
                     | rubric => IndexV1.RubricModal
                     | _ => IndexV1.AssessmentModal
                     end), None) w
   /\ sg_action s <> chat)
  /\ (lesson_turn opts text = false ->
      forall u key, user (ui w) = Some u -> usable_key apiKey = Some key ->
      settings_reachable (db w) ->
      exists w' req,
        IndexV1.handleSuggestion apiKey fresh ai s w = Returned (None, Some req) w'
        /\ req_prompt req = "Explain the answer key in detail."
        /\ forall response_text, ai = Resolves response_text ->
           last (messages (ui w'))
           = Some (modelMessage (uuid2 fresh) (IndexV1.reply response_text) (now2 fresh)
                     (Some []))).
Proof.
  unfold suggestionsFor. intros Hin. split.
  - intros Hl. rewrite Hl in Hin.
    destruct Hin as [<- | [<- | []]]; split; first [reflexivity | discriminate].
  - intros Hl u key Hu Hk Hr. rewrite Hl in Hin.
    destruct (quiz_turn opts text); [| contradiction].
    destruct Hin as [<- | []].
    unfold IndexV1.handleSuggestion. cbn [sg_action sg_prompt].
    change (Js.truthy "Explain the answer key in detail.") with true. cbv iota.
    set (plain := {| useActiveDoc := None; opt_type := None; useDeepThink := None |}).
    destruct (handleSendMessage_v1_run apiKey fresh ai "Explain the answer key in detail."
                auto plain w u key Hu Hk Hr) as (w' & req & mp & E & Hp & _ & _ & _ & Hm).
    unfold bind at 1, started. rewrite E. exists w', req.
    split; [reflexivity |]. split; [exact Hp |].
    intros rt ->. rewrite Hm. change (suggestionsFor plain "Explain the answer key in detail.")
      with (@nil Suggestion). apply last_two.
Qed.

Lemma follow_up_opens_dialog_or_ends_witness :
  IndexV1.handleSuggestion (Some "key") Sample.second_turn Rejects
    {| sg_label := "Generate Rubric"; sg_action := rubric; sg_prompt := None |} Sample.start
  = Returned (Some IndexV1.RubricModal, None) Sample.start.
Proof.
  apply (proj1 (follow_up_opens_dialog_or_ends (Some "key") Sample.second_turn Rejects
                  Sample.lesson_opts "Plan a lesson"
                  {| sg_label := "Generate Rubric"; sg_action := rubric; sg_prompt := None |}
                  Sample.start (or_intror (or_introl eq_refl)))).
  reflexivity.
Defined.

(** ** The PDF export *)

Lemma draw_lines_layout splitText y :
  20 <= y <= 287 ->
  Forall (fun y' => 20 <= y' <= 280) (IndexV1.drawn_at (IndexV1.draw_lines splitText y))
  /\ IndexV1.drawn_lines (IndexV1.draw_lines splitText y) = splitText.
Proof.
  revert y. induction splitText as [| line rest IH]; intros y Hy.
  - split; [constructor | reflexivity].
  - cbn [IndexV1.draw_lines]. destruct (Z.ltb_spec 280 y) as [Hgt | Hle].
    + destruct (IH (20 + 7)) as [Hall Hlines]; [lia |].
      split.
      * cbn. constructor; [lia | exact Hall].
      * cbn. f_equal. exact Hlines.
    + destruct (IH (y + 7)) as [Hall Hlines]; [lia |].
      split.
      * cbn. constructor; [lia | exact Hall].
      * cbn. f_equal. exact Hlines.
Qed.

Lemma draw_lines_pages splitText y c :
  0 <= c -> y + 7 * (c - 1) <= 280 -> 280 < y + 7 * c ->
  let n := Z.of_nat (length splitText) in
  let p := IndexV1.pages_added (IndexV1.draw_lines splitText y) in
  0 <= p /\ n <= c + 38 * p /\ (p = 0 \/ c + 38 * (p - 1) < n).
Proof.
  revert y c. induction splitText as [| line rest IH]; intros y c Hc Hfit Hnext.
  - cbv zeta. change (IndexV1.pages_added (IndexV1.draw_lines [] y)) with 0.
    change (Z.of_nat (length (@nil string))) with 0. lia.
  - cbn [IndexV1.draw_lines]. destruct (Z.ltb_spec 280 y) as [Hgt | Hle].
    + specialize (IH (20 + 7) 37). cbv zeta in IH.
      change (IndexV1.pages_added (IndexV1.AddPage :: IndexV1.DrawText line 20 20
                                     :: IndexV1.draw_lines rest (20 + 7)))
        with (Z.of_nat (S (length (List.filter
                (fun op => match op with IndexV1.AddPage => true | _ => false end)
                (IndexV1.draw_lines rest (20 + 7)))))).
      unfold IndexV1.pages_added in IH. cbn [length]. lia.
    + specialize (IH (y + 7) (c - 1)). cbv zeta in IH.
      change (IndexV1.pages_added (IndexV1.DrawText line 20 y
                                     :: IndexV1.draw_lines rest (y + 7)))
        with (IndexV1.pages_added (IndexV1.draw_lines rest (y + 7))).
      cbn [length]. lia.
Qed.

Lemma drawn_lines_app a b :
  IndexV1.drawn_lines (a ++ b) = IndexV1.drawn_lines a ++ IndexV1.drawn_lines b.
Proof. apply omap_app. Qed.

Lemma drawn_at_app a b :
  IndexV1.drawn_at (a ++ b) = IndexV1.drawn_at a ++ IndexV1.drawn_at b.
Proof. apply omap_app. Qed.

(** X19. The PDF export draws every line once, in order and inside the
    page: the text calls of [handleExportPDF] are the title, the date
    line and then the lines of the content in their order, each at a
    vertical position between 20 and 280, and the last call saves the
    file under the name with the extension added. Without the generator
    loaded nothing is drawn. *)
Theorem export_draws_every_line_inside_the_page (today : string) (splitText : list string)
    (filename : string) :
  IndexV1.handleExportPDF false today splitText filename = None
  /\ exists ops,
      IndexV1.handleExportPDF true today splitText filename = Some ops
      /\ IndexV1.drawn_lines ops = "Edtech AI" :: ("Generated: " +:+ today) :: splitText
      /\ Forall (fun y => 20 <= y <= 280) (IndexV1.drawn_at ops)
      /\ last ops = Some (IndexV1.Save (filename +:+ ".pdf")).
Proof.
  split; [reflexivity |]. eexists. split; [reflexivity |].
  destruct (draw_lines_layout splitText 40) as [Hall Hlines]; [lia |].
  split; [| split].
  - rewrite !drawn_lines_app, Hlines.
    change (IndexV1.drawn_lines [IndexV1.Save (filename +:+ ".pdf")]) with (@nil string).
    rewrite app_nil_r. reflexivity.
  - rewrite !drawn_at_app.
    change (IndexV1.drawn_at [IndexV1.Save (filename +:+ ".pdf")]) with (@nil Z).
    rewrite app_nil_r. apply Forall_app. split; [| exact Hall].
    repeat constructor; lia.
  - rewrite app_assoc. apply last_snoc.
Qed.

(** X20. The number of pages of the export: the first page takes 35
    lines of the content (from position 40 in steps of 7 up to 278), and
    every further page 38 lines (from 20 up to 279); so a content of n
    lines adds no page when n is at most 35, and otherwise the least
    number of pages of 38 lines that hold the remaining n - 35 lines. *)
Theorem export_page_count (today : string) (splitText : list string) (filename : string) :
  exists ops,
    IndexV1.handleExportPDF true today splitText filename = Some ops
    /\ IndexV1.pages_added ops
       = let n := Z.of_nat (length splitText) in
         if n <=? 35 then 0 else (n - 35 + 37) / 38.
Proof.
  eexists. split; [reflexivity |].
  pose proof (draw_lines_pages splitText 40 35) as H. cbv zeta in H.
  assert (IndexV1.pages_added
            ([IndexV1.SetFontSize 18; IndexV1.SetTextColor [79; 70; 229];
              IndexV1.DrawText "Edtech AI" 20 20; IndexV1.SetFontSize 10;
              IndexV1.SetTextColor [100]; IndexV1.DrawText ("Generated: " +:+ today) 20 28;
              IndexV1.SetFontSize 12; IndexV1.SetTextColor [0]]
             ++ IndexV1.draw_lines splitText 40 ++ [IndexV1.Save (filename +:+ ".pdf")])
          = IndexV1.pages_added (IndexV1.draw_lines splitText 40)) as ->.
  { unfold IndexV1.pages_added. cbn [app List.filter].
    rewrite List.filter_app. cbn [List.filter]. rewrite app_nil_r. reflexivity. }
  set (p := IndexV1.pages_added (IndexV1.draw_lines splitText 40)) in *.
  set (n := Z.of_nat (length splitText)) in *.
  destruct H as (Hp & Hup & Hlow); try lia.
  cbv zeta. destruct (Z.leb_spec n 35) as [Hn | Hn].
  - lia.
  - apply (Z.div_unique (n - 35 + 37) 38 p (n - 35 + 37 - 38 * p)); lia.
Qed.

(** ** The accounts of part_002 *)

Lemma findIndex_spec (p : json -> option bool) l :
  (forall x, In x l -> exists b, p x = Some b) ->
  match Part002.findIndex p l with
  | Some (Some i) =>
      (exists x, l !! i = Some x /\ p x = Some true)
      /\ (forall j y, (j < i)%nat -> l !! j = Some y -> p y = Some false)
  | Some None => forall x, In x l -> p x = Some false
  | None => False
  end.
Proof.
  induction l as [| e l IH]; intros Hp; cbn [Part002.findIndex].
  - intros x [].
  - destruct (Hp e (or_introl eq_refl)) as [[|] He]; rewrite He.
    + split; [exists e; split; [reflexivity | exact He] |]. intros j y Hj. lia.
    + specialize (IH (fun x Hx => Hp x (or_intror Hx))).
      destruct (Part002.findIndex p l) as [[i|]|]; [| | contradiction].
      * destruct IH as [(x & Hx & Hpx) Hbefore]. split; [exists x; split; assumption |].
        intros [| j] y Hj Hy; cbn in Hy.
        -- inversion Hy; subst. exact He.
        -- apply (Hbefore j y); [lia | exact Hy].
      * intros x [<- | Hx]; [exact He | exact (IH x Hx)].
Qed.

Lemma findIndex_first (p : json -> option bool) l i x :
  l !! i = Some x -> p x = Some true ->
  (forall j y, (j < i)%nat -> l !! j = Some y -> p y = Some false) ->
  Part002.findIndex p l = Some (Some i).
Proof.
  revert i. induction l as [| e l IH]; intros i Hi Hx Hbefore; [discriminate Hi |].
  cbn [Part002.findIndex]. destruct i as [| i].
  - cbn in Hi. inversion Hi; subst. rewrite Hx. reflexivity.
  - rewrite (Hbefore O e); [| lia | reflexivity].
    rewrite (IH i); [reflexivity | exact Hi | exact Hx |].
    intros j y Hj Hy. apply (Hbefore (S j) y); [lia | exact Hy].
Qed.

(** The test of [saveUser] on a stored account. *)
Lemma same_account_stored user v :
  Part002.same_account user (Part002.of_account v)
  = Some (String.eqb (Part002.acc_id v) (Part002.acc_id user)
          || String.eqb (Js.toLowerCase (Part002.acc_email v))
                        (Js.toLowerCase (Part002.acc_email user))).
Proof.
  unfold Part002.same_account, Part002.of_account. cbn [Json.field Json.assoc].
  change (String.eqb "id" "id") with true. cbv iota.
  destruct (String.eqb (Part002.acc_id v) (Part002.acc_id user)); reflexivity.
Qed.

Lemma same_account_true user v :
  Part002.same_account user (Part002.of_account v) = Some true <->
  Part002.acc_id v = Part002.acc_id user
  \/ Js.toLowerCase (Part002.acc_email v) = Js.toLowerCase (Part002.acc_email user).
Proof.
  rewrite same_account_stored. split.
  - intros H. inversion H as [Hb]. apply orb_prop in Hb.
    destruct Hb as [Hb | Hb]; apply String.eqb_eq in Hb; auto.
  - intros [H | H]; rewrite H, String.eqb_refl; rewrite ?orb_true_r; reflexivity.
Qed.

Lemma local_array_parsed s key l :
  local_array s key = Some l -> parsed_or_empty (localStorage s !! key) = JArr l.
Proof.
  unfold local_array, parsed_or_empty.
  destruct (localStorage s !! key) as [[| | | | items |] |]; intros H;
    try discriminate H; inversion H; reflexivity.
Qed.

Lemma saveUser_run user s l :
  local_array s Part002.USERS = Some l ->
  Part002.saveUser user s =
    match Part002.findIndex (Part002.same_account user) l with
    | None => Thrown s
    | Some None =>
        Returned tt {| localStorage := <[Part002.USERS := JArr (l ++ [Part002.of_account user])]>
                                         (localStorage s);
                       supabase := supabase s |}
    | Some (Some i) =>
        Returned tt {| localStorage := <[Part002.USERS := JArr (<[i := Part002.of_account user]> l)]>
                                         (localStorage s);
                       supabase := supabase s |}
    end.
Proof.
  intros H. unfold Part002.saveUser, bind, LocalStorage.getItem.
  rewrite (local_array_parsed s _ l H).
  destruct (Part002.findIndex _ l) as [[i|]|]; reflexivity.
Qed.

(** X21. [saveUser] of part_002:168 is an upsert on the id or the e-mail
    address, compared without regard to case. On a stored list of
    accounts the save succeeds and the account saved is in the list read
    back; nothing else is added; the list grows by one exactly when no
    stored account has the id or the address, and otherwise keeps its
    length (the first such account is replaced); saving the same account
    again changes nothing. *)
Theorem saveUser_upserts (user : Part002.User) (us : list Part002.User) (s : Store) :
  local_array s Part002.USERS = Some (Part002.of_account <$> us) ->
  exists s1 us1,
    Part002.saveUser user s = Returned tt s1
    /\ Part002.getUsers s1 = Returned (JArr (Part002.of_account <$> us1)) s1
    /\ In user us1
    /\ (forall v, In v us1 -> v = user \/ In v us)
    /\ (length us1 = length us \/ length us1 = S (length us))
    /\ (length us1 = length us <->
        exists v, In v us
          /\ (Part002.acc_id v = Part002.acc_id user
              \/ Js.toLowerCase (Part002.acc_email v)
                 = Js.toLowerCase (Part002.acc_email user)))
    /\ Part002.saveUser user s1 = Returned tt s1.
Proof.
  intros Hl.
  set (p := Part002.same_account user).
  set (l := Part002.of_account <$> us) in *.
  assert (forall x, In x l -> exists b, p x = Some b) as Htotal.
  { intros x Hx. apply list_elem_of_In, list_elem_of_fmap in Hx as (v & -> & _).
    eexists. apply same_account_stored. }
  assert (p (Part002.of_account user) = Some true) as Hself
    by (apply same_account_true; left; reflexivity).
  assert (forall st, Part002.getUsers
            {| localStorage := <[Part002.USERS := JArr st]> (localStorage s);
               supabase := supabase s |}
          = Returned (JArr st)
              {| localStorage := <[Part002.USERS := JArr st]> (localStorage s);
                 supabase := supabase s |}) as Hget.
  { intros st. unfold Part002.getUsers, bind, LocalStorage.getItem, ret. cbn [localStorage].
    rewrite lookup_insert_eq. reflexivity. }
  assert (forall st, local_array
            {| localStorage := <[Part002.USERS := JArr st]> (localStorage s);
               supabase := supabase s |} Part002.USERS = Some st) as Hl1.
  { intros st. unfold local_array. cbn [localStorage]. rewrite lookup_insert_eq. reflexivity. }
  pose proof (findIndex_spec p l Htotal) as Hspec.
  pose proof (saveUser_run user s l Hl) as Hrun. fold p in Hrun.
  destruct (Part002.findIndex p l) as [[i|]|] eqn:Ef; [| | contradiction].
  - destruct Hspec as [(x & Hx & Hpx) Hbefore].
    assert (exists v, us !! i = Some v /\ x = Part002.of_account v) as (v & Hv & ->).
    { unfold l in Hx. rewrite list_lookup_fmap in Hx.
      destruct (us !! i) as [v|]; [| discriminate Hx]. inversion Hx. eauto. }
    pose proof (lookup_lt_Some _ _ _ Hv) as Hi.
    eexists. exists (<[i := user]> us). split; [exact Hrun |]. split; [| split; [| split; [| split; [| split]]]].
    + rewrite list_fmap_insert. apply Hget.
    + apply list_elem_of_In, list_elem_of_insert. exact Hi.
    + intros v' Hv'. apply list_elem_of_In, list_elem_of_lookup in Hv' as (j & Hj).
      apply list_lookup_insert_Some in Hj as [(_ & <- & _) | (_ & Hj)]; [left; reflexivity |].
      right. apply list_elem_of_In. eapply list_elem_of_lookup_2. exact Hj.
    + left. apply length_insert.
    + split; [| intros _; apply length_insert].
      intros _. exists v. split.
      * apply list_elem_of_In. eapply list_elem_of_lookup_2. exact Hv.
      * apply same_account_true. exact Hpx.
    + rewrite (saveUser_run user _ _ (Hl1 _)). fold p.
      assert (i < length l)%nat as Hil by (unfold l; rewrite length_fmap; exact Hi).
      rewrite (findIndex_first p (<[i := Part002.of_account user]> l) i (Part002.of_account user)).
      * cbn [localStorage supabase]. rewrite list_insert_insert_eq, insert_insert_eq. reflexivity.
      * apply list_lookup_insert_eq. exact Hil.
      * exact Hself.
      * intros j y Hj Hy. rewrite list_lookup_insert_ne in Hy by lia.
        apply (Hbefore j y Hj Hy).
  - eexists. exists (us ++ [user]). split; [exact Hrun |]. split; [| split; [| split; [| split; [| split]]]].
    + rewrite fmap_app. apply Hget.
    + apply in_or_app. right. left. reflexivity.
    + intros v Hv. apply in_app_or in Hv as [Hv | [<- | []]]; auto.
    + right. rewrite length_app. cbn. lia.
    + split.
      * rewrite length_app. cbn. lia.
      * intros (v & Hv & Hsame). exfalso.
        assert (p (Part002.of_account v) = Some false) as Hf.
        { apply Hspec. unfold l. apply list_elem_of_In, list_elem_of_fmap.
          exists v. split; [reflexivity | apply list_elem_of_In; exact Hv]. }
        apply same_account_true in Hsame. unfold p in Hf. congruence.
    + rewrite (saveUser_run user _ _ (Hl1 _)). fold p.
      rewrite (findIndex_first p (l ++ [Part002.of_account user]) (length l)
                 (Part002.of_account user)).
      * cbn [localStorage supabase].
        rewrite (list_insert_id (l ++ [Part002.of_account user]) (length l))
          by (apply list_lookup_middle; reflexivity).
        rewrite insert_insert_eq. reflexivity.
      * apply list_lookup_middle. reflexivity.
      * exact Hself.
      * intros j y Hj Hy. rewrite lookup_app_l in Hy by exact Hj.
        apply Hspec. apply list_elem_of_In. eapply list_elem_of_lookup_2. exact Hy.
Qed.

Lemma saveUser_upserts_witness :
  exists s1,
    Part002.saveUser Sample.demo_again Sample.users_store = Returned tt s1
    /\ Part002.getUsers s1 = Returned (JArr [Part002.of_account Sample.demo_again]) s1.
Proof.
  destruct (saveUser_upserts Sample.demo_again [Sample.demo] Sample.users_store eq_refl)
    as (s1 & us1 & E & G & Hin & _ & _ & Hlen & _).
  assert (length us1 = 1%nat) as H1.
  { apply Hlen. exists Sample.demo. split; [left; reflexivity | right; reflexivity]. }
  destruct us1 as [| a [| b r]]; try discriminate H1.
  destruct Hin as [-> | []]. exists s1. split; [exact E | exact G].
Defined.

(** ** The calendar *)

Lemma padded_day_inj d d' :
  1 <= d <= 31 -> 1 <= d' <= 31 ->
  Js.padStart 2 "0" (pretty d) = Js.padStart 2 "0" (pretty d') -> d = d'.
Proof.
  intros Hd Hd' H.
  set (days := List.map Z.of_nat (List.seq 1 31)).
  assert (forallb (fun a => forallb (fun b =>
            implb (String.eqb (Js.padStart 2 "0" (pretty a)) (Js.padStart 2 "0" (pretty b)))
                  (a =? b)) days) days = true) as Hall by (vm_compute; reflexivity).
  assert (forall x, 1 <= x <= 31 -> In x days) as Hin.
  { intros x Hx. unfold days. rewrite <- (Z2Nat.id x) by lia.
    apply List.in_map, List.in_seq. lia. }
  rewrite List.forallb_forall in Hall. specialize (Hall d (Hin d Hd)).
  rewrite List.forallb_forall in Hall. specialize (Hall d' (Hin d' Hd')).
  rewrite H, String.eqb_refl in Hall. cbn [implb] in Hall. lia.
Qed.

Lemma dateStr_day_inj year month d d' :
  1 <= d <= 31 -> 1 <= d' <= 31 ->
  Part001.dateStr year month d = Part001.dateStr year month d' -> d = d'.
Proof.
  intros Hd Hd' H. unfold Part001.dateStr in H.
  do 4 apply append_inv_head in H. apply padded_day_inj; assumption.
Qed.

Lemma on_date_stored d e :
  Part001.on_date d (of_event e) = Some (String.eqb (ev_date e) d).
Proof. reflexivity. Qed.

Lemma array_filter_on_date d es :
  array_filter (Part001.on_date d) (of_event <$> es)
  = Some (of_event <$> List.filter (fun e => String.eqb (ev_date e) d) es).
Proof.
  induction es as [| e es IH]; [reflexivity |].
  cbn [fmap list_fmap array_filter List.filter]. fold (of_event <$> es).
  rewrite IH, on_date_stored. destruct (String.eqb (ev_date e) d); reflexivity.
Qed.

Lemma saveEvent_returns userId event s :
  local_array s (EVENTS_PREFIX +:+ userId) <> None ->
  exists s1, Api000.saveEvent userId event s = Returned tt s1.
Proof.
  intros Hl. destruct (local_array s (EVENTS_PREFIX +:+ userId)) as [current|] eqn:Hc;
    [| contradiction].
  pose proof (saveEvent_local userId event s current Hc) as Hlocal.
  unfold Api000.saveEvent, bind at 1, get.
  destruct (supabase s) as [r|] eqn:Hs; [| eauto].
  unfold tryCatch, bind at 1, Supabase.from, Supabase.insert. rewrite Hs.
  destruct (events r); cbn; eauto.
Qed.

(** X22. An event added in the calendar is listed on its day and on no
    other. With a title typed and a day of the month selected,
    [handleAddEvent] of part_001:612 appends an event of kind class dated
    to that day of the month shown and clears the title and the
    selection; [getEventsForDay] then lists the event for the day it was
    added on and for no other day from 1 to 31, the events already shown
    being listed as before. *)
Theorem added_event_is_listed_on_its_day (user : UserProfile) (uuid : string)
    (w : Part001.CalendarWorld) (es : list CalendarEvent) (d d' : Z) :
  Part001.cal_events (Part001.cal w) = of_event <$> es ->
  Js.truthy (Part001.newEventTitle (Part001.cal w)) = true ->
  Part001.selectedDate (Part001.cal w) = Some d ->
  1 <= d <= 31 -> 1 <= d' <= 31 ->
  local_array (Part001.cal_db w) (EVENTS_PREFIX +:+ user_id user) <> None ->
  let year := Part001.cal_year (Part001.cal w) in
  let month := Part001.cal_month (Part001.cal w) in
  let event := {| ev_id := uuid; ev_title := Part001.newEventTitle (Part001.cal w);
                  ev_date := Part001.dateStr year month d; ev_type := class |} in
  exists w',
    Part001.handleAddEvent user uuid w = Returned tt w'
    /\ Part001.cal_events (Part001.cal w') = of_event <$> (es ++ [event])
    /\ Part001.newEventTitle (Part001.cal w') = EmptyString
    /\ Part001.selectedDate (Part001.cal w') = None
    /\ Part001.getEventsForDay (Part001.cal w') d'
       = Some (of_event <$>
                 (List.filter (fun e => String.eqb (ev_date e) (Part001.dateStr year month d')) es
                  ++ (if d' =? d then [event] else []))).
Proof.
  intros Hes Ht Hsel Hd Hd' Hl year month event.
  destruct (saveEvent_returns (user_id user) event (Part001.cal_db w) Hl) as (s1 & Es).
  unfold Part001.handleAddEvent, bind at 1, get. rewrite Hsel, Ht.
  replace (negb (d =? 0)) with true by (symmetry; apply negb_true_iff; lia).
  cbn [andb]. cbv zeta. fold year month event.
  unfold bind at 1, Part001.setEvents at 1, modify.
  unfold bind at 1, Part001.liftCal at 1. cbn [Part001.cal_db]. rewrite Es.
  eexists. split; [reflexivity |].
  cbn [Part001.cal Part001.cal_events Part001.newEventTitle Part001.selectedDate
       Part001.cal_year Part001.cal_month].
  rewrite Hes. change [of_event event] with (of_event <$> [event]). rewrite <- fmap_app.
  split; [reflexivity |]. split; [reflexivity |]. split; [reflexivity |].
  unfold Part001.getEventsForDay.
  cbn [Part001.cal_events Part001.cal_year Part001.cal_month].
  fold year month. rewrite array_filter_on_date, List.filter_app. cbn [List.filter ev_date event].
  do 3 f_equal.
  destruct (Z.eqb_spec d' d) as [-> | Hne].
  - rewrite String.eqb_refl. reflexivity.
  - destruct (String.eqb_spec (Part001.dateStr year month d) (Part001.dateStr year month d'))
      as [E |]; [| reflexivity].
    exfalso. apply Hne. symmetry. eapply dateStr_day_inj; eauto.
Qed.

Lemma added_event_is_listed_on_its_day_witness :
  exists w',
    Part001.handleAddEvent Sample.teacher "ev-9" Sample.january = Returned tt w'
    /\ Part001.getEventsForDay (Part001.cal w') 15
       = Some [of_event Sample.staff_meeting; of_event Sample.quiz_event]
    /\ Part001.getEventsForDay (Part001.cal w') 16 = Some [].
Proof.
  assert (local_array (Part001.cal_db Sample.january) (EVENTS_PREFIX +:+ "local-user") <> None)
    as Hl by (vm_compute; discriminate).
  destruct (added_event_is_listed_on_its_day Sample.teacher "ev-9" Sample.january
              [Sample.staff_meeting] 15 15 eq_refl eq_refl eq_refl ltac:(lia) ltac:(lia) Hl)
    as (w1 & E1 & _ & _ & _ & H15).
  destruct (added_event_is_listed_on_its_day Sample.teacher "ev-9" Sample.january
              [Sample.staff_meeting] 15 16 eq_refl eq_refl eq_refl ltac:(lia) ltac:(lia) Hl)
    as (w2 & E2 & _ & _ & _ & H16).
  rewrite E1 in E2. inversion E2; subst w2.
  exists w1. split; [exact E1 |]. split; [exact H15 | exact H16].
Defined.

(** X23. The calendar and the store stay in step. When the events shown
    are the list stored under the user's key and the events go to the
    local store (no remote store, or its [events] table failing),
    [handleAddEvent] and [handleDeleteEvent] of part_001:612-639 leave the
    events shown equal to the list stored: both sides append the same
    event, and both sides drop the events with the id. A deletion that
    is not confirmed changes nothing; if an item shown is [null] the
    deletion throws before anything is changed. *)
Theorem calendar_stays_in_step (user : UserProfile) (uuid id : string) (confirmed : bool)
    (w : Part001.CalendarWorld) :
  match supabase (Part001.cal_db w) with
  | None => True
  | Some r => failing (events r)
  end ->
  local_array (Part001.cal_db w) (EVENTS_PREFIX +:+ user_id user)
  = Some (Part001.cal_events (Part001.cal w)) ->
  (exists w', Part001.handleAddEvent user uuid w = Returned tt w'
     /\ local_array (Part001.cal_db w') (EVENTS_PREFIX +:+ user_id user)
        = Some (Part001.cal_events (Part001.cal w')))
  /\ Part001.handleDeleteEvent user false id w = Returned tt w
  /\ match array_filter (ApiLocal.id_differs id) (Part001.cal_events (Part001.cal w)) with
     | Some next =>
         exists w', Part001.handleDeleteEvent user true id w = Returned tt w'
           /\ Part001.cal_events (Part001.cal w') = next
           /\ local_array (Part001.cal_db w') (EVENTS_PREFIX +:+ user_id user) = Some next
     | None => Part001.handleDeleteEvent user true id w = Thrown w
     end.
Proof.
  intros Hf Hl. split; [| split].
  - unfold Part001.handleAddEvent, bind at 1, get.
    destruct (Part001.selectedDate (Part001.cal w)) as [day|];
      [| exists w; split; [reflexivity | exact Hl]].
    destruct (Js.truthy (Part001.newEventTitle (Part001.cal w)) && negb (day =? 0));
      [| exists w; split; [reflexivity | exact Hl]].
    cbv zeta. unfold bind at 1, Part001.setEvents at 1, modify.
    unfold bind at 1, Part001.liftCal at 1. cbn [Part001.cal_db].
    rewrite (saveEvent_falls_back _ _ _ Hf), (saveEvent_local _ _ _ _ Hl).
    eexists. split; [reflexivity |].
    unfold local_array. cbn [Part001.cal_db Part001.cal Part001.cal_events localStorage].
    rewrite lookup_insert_eq. reflexivity.
  - reflexivity.
  - destruct (array_filter (ApiLocal.id_differs id) (Part001.cal_events (Part001.cal w)))
      as [next|] eqn:Hnext;
      unfold Part001.handleDeleteEvent, bind at 1, get; rewrite Hnext; [| reflexivity].
    unfold bind at 1, Part001.setEvents at 1, modify.
    unfold Part001.liftCal. cbn [Part001.cal_db].
    rewrite (deleteEvent_falls_back _ _ _ Hf), (deleteEvent_local _ _ _ _ _ Hl Hnext).
    eexists. split; [reflexivity |]. split; [reflexivity |].
    unfold local_array. cbn [Part001.cal_db localStorage].
    rewrite lookup_insert_eq. reflexivity.
Qed.

Lemma calendar_stays_in_step_witness :
  exists w',
    Part001.handleDeleteEvent Sample.teacher true "ev-1" Sample.january = Returned tt w'
    /\ Part001.cal_events (Part001.cal w') = []
    /\ local_array (Part001.cal_db w') (EVENTS_PREFIX +:+ "local-user") = Some [].
Proof.
  exact (proj2 (proj2 (calendar_stays_in_step Sample.teacher "ev-9" "ev-1" true Sample.january
                         I eq_refl))).
Defined.

(** ** Clearing the conversation *)

(** X24. A cleared conversation stays cleared. [onClearChat] of
    index.tsx:831 empties the conversation and saves the empty
    transcript: with the local store, or a [chats] table holding at most
    one row of the user, [getChat] then answers the empty list, so a
    reload shows no message. The documents, the active document and the
    lesson context are not cleared. *)
Theorem cleared_chat_stays_cleared (w : World) (u : UserProfile) :
  user (ui w) = Some u ->
  chats_usable (user_id u) (db w) ->
  exists w',
    IndexV1.onClearChat w = Returned tt w'
    /\ messages (ui w') = []
    /\ ApiV1.getChat (user_id u) (db w') = Returned (JArr []) (db w')
    /\ docs (ui w') = docs (ui w)
    /\ activeDocId (ui w') = activeDocId (ui w)
    /\ lessonCtx (ui w') = lessonCtx (ui w).
Proof.
  intros Hu Hc. unfold IndexV1.onClearChat, bind at 1, get. rewrite Hu.
  unfold bind at 1. rewrite setMessages_run, notAwaited_liftDb.
  cbn [with_messages db ui].
  eexists. split; [reflexivity |]. cbn [ui db messages docs activeDocId lessonCtx].
  split; [reflexivity |]. split; [| repeat split; reflexivity].
  unfold ApiV1.getChat, chats_usable in *.
  destruct (supabase (db w)) as [r|] eqn:Hs.
  - destruct (chats r) as [rows | |] eqn:Hrows; try contradiction.
    destruct (saveChat_v1_one_row (user_id u) [] (db w) r rows Hs Hrows Hc)
      as (s1 & r1 & rows1 & row1 & E & Hs1 & Hc1 & Hf1 & Hm).
    rewrite E. cbn [state_of].
    rewrite (getChat_one_row (user_id u) s1 r1 rows1 row1 Hs1 Hc1 Hf1).
    unfold messages_or_empty. rewrite Hm. reflexivity.
  - pose proof (saveChat_v1_state (user_id u) [] (db w)) as E. rewrite Hs in E.
    rewrite E. cbn [state_of]. apply getChat_local_after_save.
Qed.

Lemma cleared_chat_stays_cleared_witness :
  exists w',
    IndexV1.onClearChat Sample.after_failure_v1 = Returned tt w'
    /\ messages (ui w') = []
    /\ ApiV1.getChat "local-user" (db w') = Returned (JArr []) (db w').
Proof.
  destruct (cleared_chat_stays_cleared Sample.after_failure_v1 Sample.teacher eq_refl I)
    as (w' & E & Hm & Hg & _).
  exists w'. split; [exact E |]. split; [exact Hm | exact Hg].
Defined.

(** ** From the lesson planner to the quiz maker *)

Lemma reply_not_empty response_text : Js.truthy (IndexV1.reply response_text) = true.
Proof.
  unfold IndexV1.reply. destruct response_text as [t|]; [| reflexivity].
  destruct (Js.truthy t) eqn:E; [exact E | reflexivity].
Qed.

(** X25. After the lesson planner has answered, the quiz maker always
    quotes the lesson. The planner's turn is a lesson turn, so its answer
    becomes the lesson context, and the answer is never empty (an empty
    response is replaced by a fixed text); the quiz maker's prompt is
    then the quoting one, holding the first 500 code units of the
    answer at most: the prompt is at most 549 code units longer than the
    topic. *)
Theorem lesson_planner_feeds_quiz_maker apiKey lesson_fresh quiz_fresh lesson_text ai
    lesson_topic quiz_topic w u key :
  user (ui w) = Some u ->
  usable_key apiKey = Some key ->
  settings_reachable (db w) ->
  exists w1 w2 req1 req2,
    IndexV1.onGenerateLesson apiKey lesson_fresh (Resolves lesson_text) lesson_topic w
      = Returned (Some req1) w1
    /\ lessonCtx (ui w1) = IndexV1.reply lesson_text
    /\ IndexV1.onGenerateQuiz apiKey quiz_fresh ai quiz_topic w1 = Returned (Some req2) w2
    /\ req_prompt req2
       = "Based on this lesson plan: " +:+ Js.substring (IndexV1.reply lesson_text) 0 500
           +:+ "..., create a quiz on " +:+ quiz_topic
    /\ Js.strlen (req_prompt req2) <= Js.strlen quiz_topic + 549.
Proof.
  intros Hu Hk Hr.
  set (lesson := {| useActiveDoc := None; opt_type := Some "lesson"; useDeepThink := None |}).
  destruct (handleSendMessage_v1_full apiKey lesson_fresh (Resolves lesson_text)
              ("Create a lesson plan on " +:+ lesson_topic +:+ ".") report lesson w u key
              Hu Hk Hr) as (w1 & req1 & E1 & _ & Hctx & Hu1 & _ & _ & _ & Hr1).
  assert (lessonCtx (ui w1) = IndexV1.reply lesson_text) as Hctx1.
  { rewrite Hctx. reflexivity. }
  rewrite Hu in Hu1.
  set (quizzing := {| useActiveDoc := None; opt_type := Some "quiz"; useDeepThink := None |}).
  destruct (handleSendMessage_v1_run apiKey quiz_fresh ai
              (IndexV1.quizPrompt (lessonCtx (ui w1)) quiz_topic) auto quizzing w1 u key
              Hu1 Hk Hr1) as (w2 & req2 & mp & E2 & Hp & _).
  exists w1, w2, req1, req2.
  split; [unfold IndexV1.onGenerateLesson, started; fold lesson; rewrite E1; reflexivity |].
  split; [exact Hctx1 |].
  split; [unfold IndexV1.onGenerateQuiz, bind at 1, get, started; fold quizzing;
          rewrite E2; reflexivity |].
  assert (req_prompt req2
          = "Based on this lesson plan: " +:+ Js.substring (IndexV1.reply lesson_text) 0 500
              +:+ "..., create a quiz on " +:+ quiz_topic) as Hprompt.
  { rewrite Hp, Hctx1. unfold IndexV1.quizPrompt. rewrite reply_not_empty. reflexivity. }
  split; [exact Hprompt |].
  rewrite Hprompt, !strlen_app, strlen_substring_0 by lia.
  change (Js.strlen "Based on this lesson plan: ") with 27.
  change (Js.strlen "..., create a quiz on ") with 22.
  lia.
Qed.

Lemma lesson_planner_feeds_quiz_maker_witness :
  exists w1 w2 req1 req2,
    IndexV1.onGenerateLesson (Some "key") Sample.first_turn (Resolves None) "cells" Sample.start
      = Returned (Some req1) w1
    /\ IndexV1.onGenerateQuiz (Some "key") Sample.second_turn Rejects "cells" w1
       = Returned (Some req2) w2
    /\ req_prompt req2
       = "Based on this lesson plan: No response generated...., create a quiz on cells".
Proof.
  destruct (lesson_planner_feeds_quiz_maker (Some "key") Sample.first_turn Sample.second_turn
              None Rejects "cells" "cells" Sample.start Sample.teacher "key" eq_refl eq_refl I)
    as (w1 & w2 & req1 & req2 & E1 & _ & E2 & Hp & _).
  exists w1, w2, req1, req2. split; [exact E1 |]. split; [exact E2 | exact Hp].
Defined.

(** ** The document limit as an invariant *)

Lemma stored_tail_user (save : DocumentFile -> M Store unit) ds doc w :
  exists w',
    (setDocs (fun _ => ds ++ [doc]) ;;;
     notAwaited (liftDb (save doc)) ;;;
     setActiveDocId (Some (doc_id doc)) ;;;
     ret (UploadStored doc)) w = Returned (UploadStored doc) w'
    /\ docs (ui w') = ds ++ [doc]
    /\ user (ui w') = user (ui w).
Proof.
  unfold bind, setDocs, setActiveDocId, setUi, modify, notAwaited, liftDb, ret. cbn.
  destruct (save doc (db w)); cbn; eexists; split; try reflexivity; split; reflexivity.
Qed.

(** X26. Uploads never take a user over the document limit of the plan.
    If the documents of the state are within the limit, they are within
    it after any call of the upload handlers of index.tsx:668,
    part_001:953 and part_000:735, whatever the file, and the user is
    the same; in part_000 a stored document is also within the size limit
    of the plan. *)
Theorem uploads_respect_document_limit ext uuid now fresh file w u :
  user (ui w) = Some u ->
  Z.of_nat (length (docs (ui w))) <= maxDocs (PLAN_LIMITS (plan u)) ->
  (forall res w', IndexV1.handleFileUpload ext uuid now file w = Returned res w' ->
     user (ui w') = Some u
     /\ Z.of_nat (length (docs (ui w'))) <= maxDocs (PLAN_LIMITS (plan u)))
  /\ (forall res w', Part001.handleFileUpload ext uuid now file w = Returned res w' ->
      user (ui w') = Some u
      /\ Z.of_nat (length (docs (ui w'))) <= maxDocs (PLAN_LIMITS (plan u)))
  /\ (forall res w', Part000.handleFileUpload ext fresh file w = Returned res w' ->
      user (ui w') = Some u
      /\ Z.of_nat (length (docs (ui w'))) <= maxDocs (PLAN_LIMITS (plan u))
      /\ forall doc, res = UploadStored doc -> doc_size doc <= size_limit (plan u)).
Proof.
  intros Hu Hn. split; [| split].
  - intros res w'. unfold IndexV1.handleFileUpload, bind at 1, get. rewrite Hu. intros H.
    destruct file as [file|]; [| inversion H; subst; auto].
    rewrite quotaCheck_v1_spec in H.
    destruct (Z.ltb_spec (Z.of_nat (length (docs (ui w)))) (maxDocs (PLAN_LIMITS (plan u))));
      [| inversion H; subst; auto].
    match type of H with context [match ?c with Some _ => _ | None => _ end] =>
      destruct c as [content|] end; [| inversion H; subst; auto].
    destruct (stored_tail_user ApiV1.saveDoc (docs (ui w)) (built_doc u uuid now file content) w)
      as (w1 & E & Hd & Hu1).
    cbv zeta in H. rewrite E in H. inversion H; subst.
    rewrite Hu1, Hd, length_app. cbn [length]. split; [exact Hu | lia].
  - intros res w'. unfold Part001.handleFileUpload, bind at 1, get. rewrite Hu. intros H.
    destruct file as [file|]; [| inversion H; subst; auto].
    rewrite quotaCheck_v1_spec in H.
    destruct (Z.ltb_spec (Z.of_nat (length (docs (ui w)))) (maxDocs (PLAN_LIMITS (plan u))));
      [| inversion H; subst; auto].
    match type of H with context [match ?c with Some _ => _ | None => _ end] =>
      destruct c as [content|] end; [| inversion H; subst; auto].
    destruct (stored_tail_user Api000.saveDoc (docs (ui w)) (built_doc u uuid now file content) w)
      as (w1 & E & Hd & Hu1).
    cbv zeta in H. rewrite E in H. inversion H; subst.
    rewrite Hu1, Hd, length_app. cbn [length]. split; [exact Hu | lia].
  - intros res w'. unfold Part000.handleFileUpload, bind at 1, get. rewrite Hu. intros H.
    assert (forall doc, UploadIgnored <> UploadStored doc) as Hi by (intros; discriminate).
    assert (forall doc, UploadFailed <> UploadStored doc) as Hfl by (intros; discriminate).
    assert (forall r doc, UploadDenied r <> UploadStored doc) as Hdn by (intros; discriminate).
    destruct file as [file|];
      [| inversion H; subst; split; [exact Hu |]; split; [exact Hn |]; intros doc Hx;
         destruct (Hi doc Hx)].
    unfold Part000Quota.quotaCheck in H. cbv zeta in H.
    destruct (Z.ltb_spec (maxSizeMB (PLAN_LIMITS (plan u)) * 1024 * 1024) (file_size file));
      [inversion H; subst; split; [exact Hu |]; split; [exact Hn |]; intros doc Hx;
       destruct (Hdn _ doc Hx) |].
    destruct (Z.leb_spec (maxDocs (PLAN_LIMITS (plan u))) (Z.of_nat (length (docs (ui w)))));
      [inversion H; subst; split; [exact Hu |]; split; [exact Hn |]; intros doc Hx;
       destruct (Hdn _ doc Hx) |].
    match type of H with context [match ?c with Some _ => _ | None => _ end] =>
      destruct c as [content|] end;
      [| inversion H; subst; split; [exact Hu |]; split; [exact Hn |]; intros doc Hx;
         destruct (Hfl doc Hx)].
    unfold tryCatch, bind at 1, liftDb at 1 in H.
    destruct (Api000.saveDoc _ (db w)) as [[] s1 | s1]; cbn in H; inversion H; subst;
      cbn [ui user docs].
    + split; [exact Hu |]. rewrite length_app. cbn [length]. split; [lia |].
      intros doc Hx. inversion Hx; subst. cbn [doc_size]. unfold size_limit. lia.
    + split; [exact Hu |]. split; [exact Hn |]. intros doc Hx. discriminate Hx.
Qed.

Lemma uploads_respect_document_limit_witness :
  Z.of_nat (length (docs (ui (state_of
      (IndexV1.handleFileUpload Sample.reads_hello "doc-2" 2000 (Some Sample.second_pdf)
         Sample.after_upload))))) <= 1.
Proof.
  destruct (uploads_respect_document_limit Sample.reads_hello "doc-2" 2000 Sample.first_turn
              (Some Sample.second_pdf) Sample.after_upload Sample.teacher eq_refl
              ltac:(vm_compute; discriminate)) as (H & _).
  destruct (H (UploadDenied CountExceeded)
              (state_of (IndexV1.handleFileUpload Sample.reads_hello "doc-2" 2000
                           (Some Sample.second_pdf) Sample.after_upload))
              ltac:(vm_compute; reflexivity)) as (_ & Hle).
  exact Hle.
Defined.

(** ** The file attached to a message *)

(** X27. A file attached to a message in part_000 is quoted in the
    user's turn, at most 10,000 code units of it. The text sent, which is
    also the text of the user's message in the conversation, is the
    input followed by a header with the file's name, the first 10,000
    code units of the extracted text and three dots (added whether or
    not anything was cut); so it is 31 code units longer than the input,
    the name and the part quoted. A message may consist of the file
    alone. *)
Theorem attachment_is_quoted_up_to_10000 apiKey fresh ext stream input f content
    outputFormat useThinking w u key :
  user (ui w) = Some u ->
  usable_key apiKey = Some key ->
  settings_reachable (db w) ->
  (if Js.includes (file_type f) "pdf" then extractTextFromPDF ext f
   else if Js.endsWith (file_name f) "docx" then extractTextFromDOCX ext f
   else file_text ext f) = Some content ->
  exists w' req,
    Part000.handleSend apiKey fresh ext stream input (Some f) outputFormat useThinking w
      = Returned (Some req) w'
    /\ req_prompt req
       = input +:+ Js.nl +:+ Js.nl +:+ "[Attached File Content: " +:+ file_name f +:+ "]"
           +:+ Js.nl +:+ Js.substring content 0 10000 +:+ "..."
    /\ Js.strlen (req_prompt req)
       = Js.strlen input + Js.strlen (file_name f) + Z.min 10000 (Js.strlen content) + 31
    /\ (breaks stream = false ->
        In (userMessage (pretty (now1 fresh)) (req_prompt req) (now2 fresh))
           (messages (ui w'))).
Proof.
  intros Hu Hk Hr Hc.
  assert (Part000.suffix ext (Some f)
          = Some (Js.nl +:+ Js.nl +:+ "[Attached File Content: " +:+ file_name f +:+ "]"
                    +:+ Js.nl +:+ Js.substring content 0 10000 +:+ "...")) as Ha.
  { unfold Part000.suffix, Part000.attached. rewrite Hc. reflexivity. }
  assert (Js.blank input && Part000.no_file (Some f) = false) as Hb by apply andb_false_r.
  destruct (handleSend_000_run apiKey fresh ext stream input (Some f) outputFormat useThinking
              w u key _ Hb Hu Hk Ha Hr) as (w' & req & E & Hp & _ & _ & Hm & _).
  exists w', req. split; [exact E |]. split; [exact Hp |]. split.
  - rewrite Hp, !strlen_app, strlen_substring_0 by lia.
    change (Js.strlen Js.nl) with 1. change (Js.strlen "[Attached File Content: ") with 24.
    change (Js.strlen "]") with 1. change (Js.strlen "...") with 3. lia.
  - intros Hbr. rewrite Hm, Hp, Hbr. cbv zeta.
    apply in_or_app. right. left. reflexivity.
Qed.

Lemma attachment_is_quoted_up_to_10000_witness :
  exists w' req,
    Part000.handleSend (Some "key") Sample.first_turn Sample.reads_hello Sample.answers_fine
      "See" (Some Sample.notes_txt) auto false Sample.start = Returned (Some req) w'
    /\ req_prompt req
       = "See" +:+ Js.nl +:+ Js.nl +:+ "[Attached File Content: notes.txt]" +:+ Js.nl
           +:+ "hello...".
Proof.
  destruct (attachment_is_quoted_up_to_10000 (Some "key") Sample.first_turn Sample.reads_hello
              Sample.answers_fine "See" Sample.notes_txt "hello" auto false Sample.start
              Sample.teacher "key" eq_refl eq_refl I eq_refl) as (w' & req & E & Hp & _).
  exists w', req. split; [exact E | exact Hp].
Defined.
